(** * Student-marks portal: the domain core of [portal/]

    A shallow embedding of [portal/utils.py], [portal/models.py],
    [portal/forms.py], [portal/serializers.py] and [portal/views.py],
    followed by the properties of the marks-merge rule, the session
    gate and the audit trail.

    Conventions.
    - A Python [str] is the list of its code points ([list N]).
    - A Python [int] is a [Z].
    - A validator returning the tuple [(True, v)] or [(False, msg)] returns
      [Valid v] or [Invalid msg].
    - The database is an explicit state; ORM calls are computations in a
      state-and-exception monad, [transaction.atomic()] restores the state
      when its body raises.
    - The clock ([timezone.now()]) and the random generator
      ([secrets.token_hex]) are read by the caller and passed in. *)

From Stdlib Require Import ZArith NArith List String Ascii Bool Lia.
From stdpp Require Import base option list gmap fin_maps pretty sorting.

Local Open Scope Z_scope.

(** ** Python strings *)

Module Py.

Abbreviation str := (list N).

(** The code points of an ASCII literal. *)
Definition lit (s : string) : str := map N_of_ascii (list_ascii_of_string s).

(** [str.isspace] on one code point, also what [\s] matches in a [str]
    pattern: the characters of bidirectional class WS, B or S, or of
    category Zs. *)
Definition isspace (c : N) : bool :=
  (((9 <=? c) && (c <=? 13)) || ((28 <=? c) && (c <=? 32))
   || (c =? 133) || (c =? 160) || (c =? 5760)
   || ((8192 <=? c) && (c <=? 8202))
   || (c =? 8232) || (c =? 8233) || (c =? 8239) || (c =? 8287)
   || (c =? 12288))%N.

Fixpoint lstrip (s : str) : str :=
  match s with
  | c :: r => if isspace c then lstrip r else s
  | [] => []
  end.

Definition rstrip (s : str) : str := rev (lstrip (rev s)).

(** [s.strip()] *)
Definition strip (s : str) : str := rstrip (lstrip s).

(** [s.replace(old, new)] for a one-character [old]. *)
Definition replace (old : N) (new : str) (s : str) : str :=
  flat_map (fun c => if (c =? old)%N then new else [c]) s.

(** [html.escape(s)] with its default [quote=True]. *)
Definition html_escape (s : str) : str :=
  let s := replace 38 (lit "&amp;") s in
  let s := replace 60 (lit "&lt;") s in
  let s := replace 62 (lit "&gt;") s in
  let s := replace 34 (lit "&quot;") s in
  let s := replace 39 (lit "&#x27;") s in
  s.

Fixpoint startswith (p s : str) : bool :=
  match p, s with
  | [], _ => true
  | a :: p', b :: s' => (a =? b)%N && startswith p' s'
  | _ :: _, [] => false
  end.

(** [needle in hay] *)
Fixpoint contains (needle hay : str) : bool :=
  startswith needle hay ||
  match hay with
  | [] => false
  | _ :: hay' => contains needle hay'
  end.

(** [str(n)] for an [int]. *)
Definition str_of_int (n : Z) : str := lit (pretty n).

(** The character class [[a-zA-Z\s]]. *)
Definition letter_or_space (c : N) : bool :=
  (((97 <=? c) && (c <=? 122)) || ((65 <=? c) && (c <=? 90)))%N || isspace c.

(** [$] without MULTILINE: the end of the string, or just before a newline
    that ends the string. *)
Definition at_dollar (s : str) : bool :=
  match s with
  | [] => true
  | [c] => (c =? 10)%N
  | _ => false
  end.

(** [[a-zA-Z\s]+$] from the current position: [seen] tells whether the
    class has matched at least once; every split point is tried. *)
Fixpoint class_plus_dollar (seen : bool) (s : str) : bool :=
  (seen && at_dollar s) ||
  match s with
  | c :: r => letter_or_space c && class_plus_dollar true r
  | [] => false
  end.

(** Truth value of [re.match(r'^[a-zA-Z\s]+$', s)]. *)
Definition re_match_letters_spaces (s : str) : bool := class_plus_dollar false s.

End Py.

Import Py.

(** Result of a validator: [(True, a)] or [(False, msg)]. *)
Inductive checked (A : Type) : Type :=
| Valid (a : A)
| Invalid (msg : str).
Arguments Valid {A} a.
Arguments Invalid {A} msg.

Definition is_valid_result {A} (r : checked A) : bool :=
  match r with Valid _ => true | Invalid _ => false end.

(** ** Requests and responses *)

Module http.

(** The parts of a request the portal reads.  [POST] and [data] hold the
    decoded payload: a text field is absent or a string, an integer field is
    absent or an [int]. *)
Record HttpRequest : Type := mkRequest {
  COOKIES_session_token : option str;
  X_Requested_With : option str;
  HTTP_X_FORWARDED_FOR : option str;
  REMOTE_ADDR : option str;
  is_secure : bool;
  POST_username : option str;
  POST_password : option str;
  data_name : option str;
  data_subject : option str;
  data_marks : option Z;
  data_student_id : option Z
}.

(** Values of a response dictionary; [JStudent] is
    [StudentSerializer(student).data] (without its two timestamps). *)
Inductive JSON : Type :=
| JBool (b : bool)
| JInt (n : Z)
| JStr (s : str)
| JErrors (errors : list (string * str))
| JStudent (id : Z) (name subject : str) (marks : Z).

Inductive Cookie : Type :=
| no_cookie
| set_cookie (key : string) (value : str) (max_age : Z)
             (httponly secure : bool) (samesite : string)
| delete_cookie (key : string).

Inductive HttpResponse : Type :=
| Response (data : list (string * JSON)) (status : Z)
| JsonResponse (data : list (string * JSON)) (status : Z)
| redirect (to : string) (cookie : Cookie)
| render (template_name : string) (form_errors : list (string * str)).

Definition HTTP_200_OK : Z := 200.
Definition HTTP_201_CREATED : Z := 201.
Definition HTTP_400_BAD_REQUEST : Z := 400.
Definition HTTP_401_UNAUTHORIZED : Z := 401.
Definition HTTP_404_NOT_FOUND : Z := 404.
Definition HTTP_500_INTERNAL_SERVER_ERROR : Z := 500.

Definition status_code (r : HttpResponse) : Z :=
  match r with
  | Response _ s | JsonResponse _ s => s
  | redirect _ _ => 302
  | render _ _ => 200
  end.

End http.

Import http.

(** ** Model rows ([portal/models.py])

    A foreign key holds the primary key of the row it points to.  The
    columns the framework fills with the current time ([created_at],
    [updated_at], [timestamp]) are left out: no handler modelled here reads them. *)

(** The salted-hash capability: [hashlib.sha256(s.encode()).hexdigest()]. *)
Class Hashlib : Type := sha256_hexdigest : str -> str.

(** [django.utils.ipv6.clean_ipv6_address(value)]: the normal form of a
    valid IPv6 address (compressed, in lower case), [None] where it raises
    [ValidationError].  A normal form is never the empty string. *)
Class Ipv6 : Type := {
  clean_ipv6_address : str -> option str;
  clean_ipv6_address_nonempty :
    forall value cleaned, clean_ipv6_address value = Some cleaned -> cleaned <> []
}.

Module Teacher.

Record row : Type := mk {
  username : str;
  password_hash : str;
  salt : str
}.

(** [set_password]; [fresh_salt] is the value of [secrets.token_hex(16)]. *)
Definition set_password `{Hashlib} (self : row) (raw_password fresh_salt : str) : row :=
  let salted_password := raw_password ++ fresh_salt in
  {| username := username self;
     password_hash := sha256_hexdigest salted_password;
     salt := fresh_salt |}.

Definition check_password `{Hashlib} (self : row) (raw_password : str) : bool :=
  let salted_password := raw_password ++ salt self in
  let computed_hash := sha256_hexdigest salted_password in
  bool_decide (computed_hash = password_hash self).

End Teacher.

Module Student.

Record row : Type := mk {
  name : str;
  subject : str;
  marks : Z;
  teacher : Z
}.

End Student.

Module SessionToken.

(** Times are microseconds since the epoch. *)
Record row : Type := mk {
  teacher : Z;
  token : str;
  expires_at : Z
}.

Definition timedelta_hours (h : Z) : Z := h * 3600 * 1000000.

(** [is_valid]; [now] is the value of [timezone.now()]. *)
Definition is_valid (now : Z) (self : row) : bool := now <? expires_at self.

End SessionToken.

Module AuditLog.

Record row : Type := mk {
  teacher : Z;
  action : string;
  student_name : str;
  subject : str;
  old_marks : option Z;
  new_marks : option Z;
  ip_address : option str
}.

End AuditLog.

(** ** The store and the ORM *)

Module orm.

Inductive Model : Type := TeacherModel | StudentModel | SessionTokenModel.

Inductive exn : Type :=
| DoesNotExist (model : Model)
| MultipleObjectsReturned
| Http404
| IntegrityError
| ValidationError (detail : list (string * str))
| JSONDecodeError.

Inductive outcome (A : Type) : Type :=
| Return (a : A)
| Raise (e : exn).
Arguments Return {A} a.
Arguments Raise {A} e.

(** A table: its rows by primary key and the next key of its sequence. *)
Record Table (R : Type) : Type := mkTable {
  rows : gmap Z R;
  next_pk : Z
}.
Arguments mkTable {R} rows next_pk.
Arguments rows {R} t.
Arguments next_pk {R} t.

(** The audit log is kept in insertion order. *)
Record DB : Type := mkDB {
  teachers : Table Teacher.row;
  students : Table Student.row;
  sessions : Table SessionToken.row;
  audit_logs : list AuditLog.row
}.

Definition set_students (t : Table Student.row) (db : DB) : DB :=
  {| teachers := teachers db; students := t;
     sessions := sessions db; audit_logs := audit_logs db |}.

Definition set_sessions (t : Table SessionToken.row) (db : DB) : DB :=
  {| teachers := teachers db; students := students db;
     sessions := t; audit_logs := audit_logs db |}.

Definition set_audit_logs (l : list AuditLog.row) (db : DB) : DB :=
  {| teachers := teachers db; students := students db;
     sessions := sessions db; audit_logs := l |}.

(** Computations over the store that may raise.  Outside a transaction
    every statement is committed as it runs (autocommit, Django's default,
    which the handlers' own [transaction.atomic()] blocks rely on): the
    state reached when an exception is raised stays. *)
Definition M (A : Type) : Type := DB -> outcome A * DB.

Definition ret {A} (a : A) : M A := fun db => (Return a, db).

Definition bind {A B} (m : M A) (k : A -> M B) : M B :=
  fun db =>
    match m db with
    | (Return a, db') => k a db'
    | (Raise e, db') => (Raise e, db')
    end.

Definition raise {A} (e : exn) : M A := fun db => (Raise e, db).

(** [with transaction.atomic(): body] *)
Definition atomic {A} (body : M A) : M A :=
  fun db =>
    match body db with
    | (Return a, db') => (Return a, db')
    | (Raise e, _) => (Raise e, db)
    end.

(** [try: body  except ...: handler]; [handler e] is [None] when no
    [except] clause matches [e]. *)
Definition try_except {A} (body : M A) (handler : exn -> option (M A)) : M A :=
  fun db =>
    match body db with
    | (Return a, db') => (Return a, db')
    | (Raise e, db') =>
        match handler e with
        | Some h => h db'
        | None => (Raise e, db')
        end
    end.

Declare Scope orm_scope.
Delimit Scope orm_scope with orm.
Notation "x <- m ;; k" := (bind m (fun x => k))
  (at level 100, m at next level, right associativity) : orm_scope.
Notation "m ;; k" := (bind m (fun _ => k))
  (at level 100, right associativity) : orm_scope.

(** [objects.filter(...)] as the list of matching rows. *)
Definition select {R} (P : Z * R -> bool) (t : Table R) : list (Z * R) :=
  List.filter P (map_to_list (rows t)).

(** [objects.get(...)] *)
Definition get {R} (model : Model) (P : Z * R -> bool) (t : Table R) : outcome (Z * R) :=
  match select P t with
  | [] => Raise (DoesNotExist model)
  | [r] => Return r
  | _ :: _ :: _ => Raise MultipleObjectsReturned
  end.

(** INSERT: the new row takes the next key of the sequence. *)
Definition insert_row {R} (r : R) (t : Table R) : Z * Table R :=
  (next_pk t, {| rows := <[next_pk t := r]> (rows t); next_pk := next_pk t + 1 |}).

(** [instance.save()] on a row read from the table. *)
Definition update_row {R} (pk : Z) (r : R) (t : Table R) : Table R :=
  {| rows := <[pk := r]> (rows t); next_pk := next_pk t |}.

(** [instance.delete()] *)
Definition delete_row {R} (pk : Z) (t : Table R) : Table R :=
  {| rows := delete pk (rows t); next_pk := next_pk t |}.

(** [objects.filter(...).delete()] *)
Definition delete_where {R} (P : Z * R -> bool) (t : Table R) : Table R :=
  {| rows := filter (fun kv => P kv = false) (rows t); next_pk := next_pk t |}.

End orm.

Import orm.
Local Open Scope orm_scope.

(** ** Managers and class methods of [portal/models.py] *)

Module models.

(** [Teacher.objects.get(username=username)] *)
Definition Teacher_objects_get (username : str) : M (Z * Teacher.row) :=
  fun db =>
    (get TeacherModel
         (fun kv => bool_decide (Teacher.username kv.2 = username))
         (teachers db), db).

(** [Student.objects.get(name=name, subject=subject, teacher=teacher)] *)
Definition same_identity (name subject : str) (teacher : Z) (kv : Z * Student.row) : bool :=
  bool_decide (Student.name kv.2 = name)
  && bool_decide (Student.subject kv.2 = subject)
  && bool_decide (Student.teacher kv.2 = teacher).

Definition Student_objects_get (name subject : str) (teacher : Z) : M (Z * Student.row) :=
  fun db => (get StudentModel (same_identity name subject teacher) (students db), db).

(** [Student.objects.get(id=id, teacher=teacher)] *)
Definition owned_by (id teacher : Z) (kv : Z * Student.row) : bool :=
  bool_decide (kv.1 = id) && bool_decide (Student.teacher kv.2 = teacher).

Definition Student_objects_get_by_id (id teacher : Z) : M (Z * Student.row) :=
  fun db => (get StudentModel (owned_by id teacher) (students db), db).

(** [get_object_or_404(Student, id=id, teacher=teacher)] *)
Definition get_object_or_404 (id teacher : Z) : M (Z * Student.row) :=
  try_except (Student_objects_get_by_id id teacher)
    (fun e => match e with
              | DoesNotExist _ => Some (raise Http404)
              | _ => None
              end).

(** [Student.objects.create(...)]; [unique_together] is checked by the
    store. *)
Definition Student_objects_create (r : Student.row) : M (Z * Student.row) :=
  fun db =>
    match select (same_identity (Student.name r) (Student.subject r) (Student.teacher r))
                 (students db) with
    | [] => let '(pk, t) := insert_row r (students db) in
            (Return (pk, r), set_students t db)
    | _ :: _ => (Raise IntegrityError, db)
    end.

(** [student.save()] *)
Definition Student_save (pk : Z) (r : Student.row) : M unit :=
  fun db => (Return tt, set_students (update_row pk r (students db)) db).

(** [student.delete()] *)
Definition Student_delete (pk : Z) : M unit :=
  fun db => (Return tt, set_students (delete_row pk (students db)) db).

(** [SessionToken.objects.get(token=token)] *)
Definition has_token (token : str) (kv : Z * SessionToken.row) : bool :=
  bool_decide (SessionToken.token kv.2 = token).

Definition SessionToken_objects_get (token : str) : M (Z * SessionToken.row) :=
  fun db => (get SessionTokenModel (has_token token) (sessions db), db).

(** [SessionToken.objects.filter(teacher=teacher).delete()] *)
Definition of_teacher (teacher : Z) (kv : Z * SessionToken.row) : bool :=
  bool_decide (SessionToken.teacher kv.2 = teacher).

Definition SessionToken_objects_filter_delete (teacher : Z) : M unit :=
  fun db => (Return tt, set_sessions (delete_where (of_teacher teacher) (sessions db)) db).

(** [SessionToken.objects.create(...)]; [token] is [unique=True]. *)
Definition SessionToken_objects_create (r : SessionToken.row) : M (Z * SessionToken.row) :=
  fun db =>
    match select (has_token (SessionToken.token r)) (sessions db) with
    | [] => let '(pk, t) := insert_row r (sessions db) in
            (Return (pk, r), set_sessions t db)
    | _ :: _ => (Raise IntegrityError, db)
    end.

(** [session.delete()] *)
Definition SessionToken_delete (pk : Z) : M unit :=
  fun db => (Return tt, set_sessions (delete_row pk (sessions db)) db).

(** [SessionToken.create_token(teacher)]; [now] is the value of
    [timezone.now()] and [fresh_token] that of [secrets.token_hex(32)]. *)
Definition create_token (now : Z) (fresh_token : str) (teacher : Z)
  : M (Z * SessionToken.row) :=
  let token := fresh_token in
  let expires_at := now + SessionToken.timedelta_hours 8 in
  SessionToken_objects_filter_delete teacher ;;
  SessionToken_objects_create
    {| SessionToken.teacher := teacher;
       SessionToken.token := token;
       SessionToken.expires_at := expires_at |}.

(** [GenericIPAddressField.get_prep_value]: a value with a colon that is a
    valid IPv6 address is written in its normal form, any other value as it
    is. *)
Definition get_prep_value `{Ipv6} (value : option str) : option str :=
  match value with
  | None => None
  | Some value =>
      if negb (bool_decide (value = [])) && contains (lit ":") value
      then match clean_ipv6_address value with
           | Some cleaned => Some cleaned
           | None => Some value
           end
      else Some value
  end.

(** [connection.ops.adapt_ipaddressfield_value]: [value or None]. *)
Definition adapt_ipaddressfield_value (value : option str) : option str :=
  match value with
  | Some (_ :: _) => value
  | Some [] | None => None
  end.

(** [GenericIPAddressField.get_db_prep_value]: the value of the column. *)
Definition get_db_prep_value `{Ipv6} (value : option str) : option str :=
  adapt_ipaddressfield_value (get_prep_value value).

(** [AuditLog.objects.create(...)].  [ip_address] is declared without
    [null=True]: its column is NOT NULL, and the field writes an empty
    address as NULL. *)
Definition AuditLog_objects_create `{Ipv6} (r : AuditLog.row) : M unit :=
  fun db =>
    match get_db_prep_value (AuditLog.ip_address r) with
    | Some ip_address =>
        (Return tt,
         set_audit_logs
           (audit_logs db
            ++ [{| AuditLog.teacher := AuditLog.teacher r;
                   AuditLog.action := AuditLog.action r;
                   AuditLog.student_name := AuditLog.student_name r;
                   AuditLog.subject := AuditLog.subject r;
                   AuditLog.old_marks := AuditLog.old_marks r;
                   AuditLog.new_marks := AuditLog.new_marks r;
                   AuditLog.ip_address := Some ip_address |}]) db)
    | None => (Raise IntegrityError, db)
    end.

End models.

(** ** [portal/utils.py] *)

Module utils.

(** [x_forwarded_for.split(',')[0]] *)
Fixpoint before_comma (s : str) : str :=
  match s with
  | [] => []
  | c :: r => if (c =? 44)%N then [] else c :: before_comma r
  end.

Definition get_client_ip (request : HttpRequest) : option str :=
  let x_forwarded_for := HTTP_X_FORWARDED_FOR request in
  match x_forwarded_for with
  | Some (c :: r) => Some (before_comma (c :: r))
  | Some [] | None => REMOTE_ADDR request
  end.

(** [marks] is [None] for a value on which [int(marks)] raises
    [ValueError] or [TypeError]. *)
Definition validate_marks (marks : option Z) : checked Z :=
  match marks with
  | Some marks =>
      if (marks <? 0) || (marks >? 100)
      then Invalid (lit "Marks must be between 0 and 100")
      else Valid marks
  | None => Invalid (lit "Marks must be a valid number")
  end.

Definition validate_name (name : str) : checked str :=
  if bool_decide (name = []) || (length (strip name) <? 2)%nat
  then Invalid (lit "Name must be at least 2 characters long")
  else if negb (re_match_letters_spaces (strip name))
  then Invalid (lit "Name can only contain letters and spaces")
  else Valid (strip name).

Definition validate_subject (subject : str) : checked str :=
  if bool_decide (subject = []) || (length (strip subject) <? 2)%nat
  then Invalid (lit "Subject must be at least 2 characters long")
  else if negb (re_match_letters_spaces (strip subject))
  then Invalid (lit "Subject can only contain letters and spaces")
  else Valid (strip subject).

Definition calculate_new_marks (existing_marks new_marks : Z) : bool * Z * str :=
  let total := existing_marks + new_marks in
  if total >? 100
  then (false, total, lit "Total marks cannot exceed 100")
  else (true, total, lit "Marks updated successfully").

(** [check_auth(request)]; [now] is the clock read by [is_valid]. *)
Definition check_auth (now : Z) (request : HttpRequest) : M (bool * option Z) :=
  let token := COOKIES_session_token request in
  match token with
  | None | Some [] => ret (false, None)
  | Some token =>
      try_except
        (session <- models.SessionToken_objects_get token ;;
         if negb (SessionToken.is_valid now session.2)
         then ret (false, None)
         else ret (true, Some (SessionToken.teacher session.2)))
        (fun e => match e with
                  | DoesNotExist SessionTokenModel => Some (ret (false, None))
                  | _ => None
                  end)
  end.

Definition is_ajax (request : HttpRequest) : bool :=
  bool_decide (X_Requested_With request = Some (lit "XMLHttpRequest")).

(** A protected view reads [request.teacher], set by the gate; here the
    gate hands the teacher's key to the view. *)
Definition View : Type := Z -> HttpRequest -> M HttpResponse.

(** [wrapper], for a function-based view. *)
Definition wrapper (view_func : View) (now : Z) (request : HttpRequest) : M HttpResponse :=
  auth <- check_auth now request ;;
  match auth with
  | (true, Some teacher) => view_func teacher request
  | _ =>
      if is_ajax request
      then ret (JsonResponse [("error"%string, JStr (lit "Authentication required"))]
                             HTTP_401_UNAUTHORIZED)
      else ret (redirect "login" no_cookie)
  end.

(** [authenticated_dispatch], for a class-based view. *)
Definition authenticated_dispatch (original_dispatch : View) (now : Z)
    (request : HttpRequest) : M HttpResponse :=
  auth <- check_auth now request ;;
  match auth with
  | (true, Some teacher) => original_dispatch teacher request
  | _ =>
      if is_ajax request
      then ret (JsonResponse [("error"%string, JStr (lit "Authentication required"))]
                             HTTP_401_UNAUTHORIZED)
      else ret (redirect "login" no_cookie)
  end.

(** [require_authentication]: [has_as_view] tells a view class from a view
    function. *)
Definition require_authentication (has_as_view : bool) (view_func_or_class : View)
  : Z -> HttpRequest -> M HttpResponse :=
  if has_as_view
  then authenticated_dispatch view_func_or_class
  else wrapper view_func_or_class.

End utils.

(** ** [portal/forms.py] *)

Module forms.

Definition validate_name (name : str) : checked str :=
  if bool_decide (name = []) || (length (strip name) <? 2)%nat
  then Invalid (lit "Name must be at least 2 characters long")
  else if negb (re_match_letters_spaces (strip name))
  then Invalid (lit "Name can only contain letters and spaces")
  else Valid (strip name).

Definition validate_subject (subject : str) : checked str :=
  if bool_decide (subject = []) || (length (strip subject) <? 2)%nat
  then Invalid (lit "Subject must be at least 2 characters long")
  else if negb (re_match_letters_spaces (strip subject))
  then Invalid (lit "Subject can only contain letters and spaces")
  else Valid (strip subject).

(** Result of cleaning one form field: its value, or its error messages. *)
Inductive cleaned (A : Type) : Type :=
| Cleaned (a : A)
| FieldErrors (msgs : list str).
Arguments Cleaned {A} a.
Arguments FieldErrors {A} msgs.

(** [forms.CharField(max_length=..., required=True).clean(value)]: the
    value is stripped, must not be empty, and goes through the length and
    null-character validators. *)
Definition CharField_clean (max_length : option nat) (value : option str) : cleaned str :=
  let value := strip (default [] value) in
  if bool_decide (value = []) then FieldErrors [lit "This field is required."]
  else
    let too_long :=
      match max_length with
      | Some n =>
          if (n <? length value)%nat
          then [lit "Ensure this value has at most " ++ str_of_int (Z.of_nat n)
                ++ lit " characters (it has " ++ str_of_int (Z.of_nat (length value))
                ++ lit ")."]
          else []
      | None => []
      end in
    let null_chars :=
      if existsb (fun c => (c =? 0)%N) value
      then [lit "Null characters are not allowed."]
      else [] in
    match too_long ++ null_chars with
    | [] => Cleaned value
    | msgs => FieldErrors msgs
    end.

(** [LoginForm.clean_username], on the value of the [username] field. *)
Definition clean_username (username : str) : cleaned str :=
  match username with
  | _ :: _ =>
      let username := html_escape (strip username) in
      if (length username <? 3)%nat
      then FieldErrors [lit "Username must be at least 3 characters long"]
      else Cleaned username
  | [] => Cleaned username
  end.

(** [LoginForm.clean_password], on the value of the [password] field. *)
Definition clean_password (password : str) : cleaned str :=
  match password with
  | _ :: _ =>
      if (length password <? 6)%nat
      then FieldErrors [lit "Password must be at least 6 characters long"]
      else Cleaned password
  | [] => Cleaned password
  end.

(** One field of a form: the field's own [clean], then its [clean_<name>]
    hook when the former passed. *)
Definition clean_field (field : option str -> cleaned str) (hook : str -> cleaned str)
    (value : option str) : cleaned str :=
  match field value with
  | Cleaned v => hook v
  | FieldErrors msgs => FieldErrors msgs
  end.

Definition errors_of {A} (name : string) (c : cleaned A) : list (string * str) :=
  match c with
  | Cleaned _ => []
  | FieldErrors msgs => map (fun m => (name, m)) msgs
  end.

(** [LoginForm(request.POST)]: [cleaned_data] when [is_valid()], the
    errors otherwise. *)
Definition LoginForm (request : HttpRequest) : (str * str) + list (string * str) :=
  let username := clean_field (CharField_clean (Some 100%nat)) clean_username
                              (POST_username request) in
  let password := clean_field (CharField_clean None) clean_password
                              (POST_password request) in
  match username, password with
  | Cleaned u, Cleaned p => inl (u, p)
  | _, _ => inr (errors_of "username" username ++ errors_of "password" password)
  end.

(** [IntegerField(min_value=..., max_value=..., required=True).clean]:
    [value] is [None] for a missing field. *)
Definition IntegerField_clean (min_value max_value : Z) (value : option Z) : cleaned Z :=
  match value with
  | None => FieldErrors [lit "This field is required."]
  | Some value =>
      let too_large :=
        if max_value <? value
        then [lit "Ensure this value is less than or equal to "
              ++ str_of_int max_value ++ lit "."]
        else [] in
      let too_small :=
        if value <? min_value
        then [lit "Ensure this value is greater than or equal to "
              ++ str_of_int min_value ++ lit "."]
        else [] in
      match too_large ++ too_small with
      | [] => Cleaned value
      | msgs => FieldErrors msgs
      end
  end.

(** [StudentForm.clean_name], on the value of the [name] field. *)
Definition clean_name (name : str) : cleaned str :=
  match name with
  | _ :: _ =>
      let name := html_escape (strip name) in
      match validate_name name with
      | Invalid result => FieldErrors [result]
      | Valid result => Cleaned result
      end
  | [] => Cleaned name
  end.

(** [StudentForm.clean_subject] *)
Definition clean_subject (subject : str) : cleaned str :=
  match subject with
  | _ :: _ =>
      let subject := html_escape (strip subject) in
      match validate_subject subject with
      | Invalid result => FieldErrors [result]
      | Valid result => Cleaned result
      end
  | [] => Cleaned subject
  end.

(** [StudentForm.clean_marks]; the field hands the hook an [int]. *)
Definition clean_marks (marks : Z) : cleaned Z :=
  if (marks <? 0) || (marks >? 100)
  then FieldErrors [lit "Marks must be between 0 and 100"]
  else Cleaned marks.

Definition clean_int_field (field : option Z -> cleaned Z) (hook : Z -> cleaned Z)
    (value : option Z) : cleaned Z :=
  match field value with
  | Cleaned v => hook v
  | FieldErrors msgs => FieldErrors msgs
  end.

(** [StudentForm(data)]: [cleaned_data] when [is_valid()], the errors
    otherwise. *)
Definition StudentForm (name subject : option str) (marks : option Z)
  : (str * str * Z) + list (string * str) :=
  let name := clean_field (CharField_clean (Some 100%nat)) clean_name name in
  let subject := clean_field (CharField_clean (Some 100%nat)) clean_subject subject in
  let marks := clean_int_field (IntegerField_clean 0 100) clean_marks marks in
  match name, subject, marks with
  | Cleaned n, Cleaned s, Cleaned m => inl (n, s, m)
  | _, _, _ =>
      inr (errors_of "name" name ++ errors_of "subject" subject ++ errors_of "marks" marks)
  end.

End forms.

(** ** [portal/serializers.py] *)

Module serializers.

Import forms.

(** The [CharField(max_length=100)] a [ModelSerializer] builds for [name]
    and [subject]: required, trimmed, not blank. *)
Definition CharField_run_validation (max_length : nat) (data : option str) : cleaned str :=
  match data with
  | None => FieldErrors [lit "This field is required."]
  | Some data =>
      let value := strip data in
      if bool_decide (value = []) then FieldErrors [lit "This field may not be blank."]
      else
        let too_long :=
          if (max_length <? length value)%nat
          then [lit "Ensure this field has no more than "
                ++ str_of_int (Z.of_nat max_length) ++ lit " characters."]
          else [] in
        let null_chars :=
          if existsb (fun c => (c =? 0)%N) value
          then [lit "Null characters are not allowed."]
          else [] in
        match too_long ++ null_chars with
        | [] => Cleaned value
        | msgs => FieldErrors msgs
        end
  end.

(** [IntegerField(required=True)], on a field that is absent or holds an
    [int]. *)
Definition IntegerField_run_validation (data : option Z) : cleaned Z :=
  match data with
  | None => FieldErrors [lit "This field is required."]
  | Some n => Cleaned n
  end.

(** [StudentSerializer.validate_name] *)
Definition validate_name (value : str) : cleaned str :=
  match value with
  | _ :: _ =>
      let value := html_escape (strip value) in
      match utils.validate_name value with
      | Invalid result => FieldErrors [result]
      | Valid result => Cleaned result
      end
  | [] => Cleaned value
  end.

(** [StudentSerializer.validate_subject] *)
Definition validate_subject (value : str) : cleaned str :=
  match value with
  | _ :: _ =>
      let value := html_escape (strip value) in
      match utils.validate_subject value with
      | Invalid result => FieldErrors [result]
      | Valid result => Cleaned result
      end
  | [] => Cleaned value
  end.

(** [StudentSerializer.validate_marks]; its [value is not None] guard
    always holds, the field hands the hook an [int]. *)
Definition validate_marks (value : Z) : cleaned Z :=
  match utils.validate_marks (Some value) with
  | Invalid validated_marks => FieldErrors [validated_marks]
  | Valid validated_marks => Cleaned validated_marks
  end.

(** [MarksUpdateSerializer.validate_marks] *)
Definition MarksUpdateSerializer_validate_marks (value : Z) : cleaned Z :=
  match utils.validate_marks (Some value) with
  | Invalid validated_marks => FieldErrors [validated_marks]
  | Valid validated_marks => Cleaned validated_marks
  end.

Definition run_field {A B} (field : option A -> cleaned B) (hook : B -> cleaned B)
    (data : option A) : cleaned B :=
  match field data with
  | Cleaned v => hook v
  | FieldErrors msgs => FieldErrors msgs
  end.

Record StudentData : Type := mkStudentData {
  v_name : str;
  v_subject : str;
  v_marks : Z
}.

(** [StudentCreateUpdateSerializer(data=request.data)]: [validated_data]
    when [is_valid()], [errors] otherwise.  The range validators that the
    [marks] field takes over from the database backend are not part of it:
    what they refuse lies outside [0, 100] and is refused by
    [validate_marks] as well, with another message. *)
Definition StudentCreateUpdateSerializer (request : HttpRequest)
  : StudentData + list (string * str) :=
  let name := run_field (CharField_run_validation 100) validate_name (data_name request) in
  let subject := run_field (CharField_run_validation 100) validate_subject
                           (data_subject request) in
  let marks := run_field IntegerField_run_validation validate_marks (data_marks request) in
  match name, subject, marks with
  | Cleaned n, Cleaned s, Cleaned m =>
      inl {| v_name := n; v_subject := s; v_marks := m |}
  | _, _, _ =>
      inr (errors_of "name" name ++ errors_of "subject" subject ++ errors_of "marks" marks)
  end.

(** [StudentCreateUpdateSerializer.create]: the student, and the
    [_update_message] attached to it. *)
Definition create `{Ipv6} (teacher : Z) (ip_address : option str) (validated_data : StudentData)
  : M (Z * Student.row * str) :=
  let name := v_name validated_data in
  let subject := v_subject validated_data in
  let marks := v_marks validated_data in
  try_except
    (existing_student <- models.Student_objects_get name subject teacher ;;
     let '(success, new_marks, message) :=
       utils.calculate_new_marks (Student.marks existing_student.2) marks in
     if negb success then raise (ValidationError [("marks"%string, message)])
     else
       let old_marks := Student.marks existing_student.2 in
       let updated :=
         {| Student.name := Student.name existing_student.2;
            Student.subject := Student.subject existing_student.2;
            Student.marks := new_marks;
            Student.teacher := Student.teacher existing_student.2 |} in
       models.Student_save existing_student.1 updated ;;
       models.AuditLog_objects_create
         {| AuditLog.teacher := teacher;
            AuditLog.action := "UPDATE_MARKS";
            AuditLog.student_name := name;
            AuditLog.subject := subject;
            AuditLog.old_marks := Some old_marks;
            AuditLog.new_marks := Some new_marks;
            AuditLog.ip_address := ip_address |} ;;
       ret (existing_student.1, updated,
            lit "Updated marks for " ++ name ++ lit ". New total: "
            ++ str_of_int new_marks))
    (fun e =>
       match e with
       | DoesNotExist StudentModel =>
           Some (student <- models.Student_objects_create
                              {| Student.name := name;
                                 Student.subject := subject;
                                 Student.marks := marks;
                                 Student.teacher := teacher |} ;;
                 models.AuditLog_objects_create
                   {| AuditLog.teacher := teacher;
                      AuditLog.action := "CREATE_STUDENT";
                      AuditLog.student_name := name;
                      AuditLog.subject := subject;
                      AuditLog.old_marks := None;
                      AuditLog.new_marks := Some marks;
                      AuditLog.ip_address := ip_address |} ;;
                 ret (student.1, student.2,
                      lit "Student " ++ name ++ lit " added successfully"))
       | _ => None
       end).

Record MarksData : Type := mkMarksData {
  v_student_id : Z;
  v_new_marks : Z
}.

(** [MarksUpdateSerializer(data=request.data)] *)
Definition MarksUpdateSerializer (request : HttpRequest) : MarksData + list (string * str) :=
  let student_id := run_field IntegerField_run_validation Cleaned (data_student_id request) in
  let marks := run_field IntegerField_run_validation MarksUpdateSerializer_validate_marks
                         (data_marks request) in
  match student_id, marks with
  | Cleaned i, Cleaned m => inl {| v_student_id := i; v_new_marks := m |}
  | _, _ => inr (errors_of "student_id" student_id ++ errors_of "marks" marks)
  end.

(** [StudentDeleteSerializer(data=request.data)] *)
Definition StudentDeleteSerializer (request : HttpRequest) : Z + list (string * str) :=
  match run_field IntegerField_run_validation Cleaned (data_student_id request) with
  | Cleaned i => inl i
  | FieldErrors msgs => inr (map (fun m => ("student_id"%string, m)) msgs)
  end.

(** [LoginSerializer.validate_username] *)
Definition LoginSerializer_validate_username (value : str) : cleaned str :=
  match value with
  | _ :: _ =>
      let value := html_escape (strip value) in
      if (length value <? 3)%nat
      then FieldErrors [lit "Username must be at least 3 characters long"]
      else Cleaned value
  | [] => Cleaned value
  end.

(** [LoginSerializer.validate_password] *)
Definition LoginSerializer_validate_password (value : str) : cleaned str :=
  match value with
  | _ :: _ =>
      if (length value <? 6)%nat
      then FieldErrors [lit "Password must be at least 6 characters long"]
      else Cleaned value
  | [] => Cleaned value
  end.

End serializers.

(** The order the store sorts text by (its collation). *)
Class Collation : Type := {
  collate_le : relation str;
  collate_le_dec :: RelDecision collate_le
}.

(** ** [portal/views.py] *)

Module views.

Definition login_template : string := "portal/login.html".

(** The two [except] clauses that close each AJAX handler. *)
Definition ajax_handlers (failure : string) (e : exn) : option (M HttpResponse) :=
  match e with
  | JSONDecodeError =>
      Some (ret (Response [("success"%string, JBool false);
                           ("error"%string, JStr (lit "Invalid JSON data"))]
                          HTTP_400_BAD_REQUEST))
  | _ =>
      Some (ret (Response [("success"%string, JBool false);
                           ("error"%string, JStr (lit failure))]
                          HTTP_500_INTERNAL_SERVER_ERROR))
  end.

(** [LoginView.post]; [now] and [fresh_token] are the clock and the random
    token read by [SessionToken.create_token]. *)
Definition LoginView_post `{Hashlib} `{Ipv6} (now : Z) (fresh_token : str)
    (request : HttpRequest) : M HttpResponse :=
  match forms.LoginForm request with
  | inl (username, password) =>
      try_except
        (teacher <- models.Teacher_objects_get username ;;
         if Teacher.check_password teacher.2 password
         then
           session <- models.create_token now fresh_token teacher.1 ;;
           models.AuditLog_objects_create
             {| AuditLog.teacher := teacher.1;
                AuditLog.action := "LOGIN";
                AuditLog.student_name := lit "N/A";
                AuditLog.subject := lit "N/A";
                AuditLog.old_marks := None;
                AuditLog.new_marks := None;
                AuditLog.ip_address := utils.get_client_ip request |} ;;
           ret (redirect "home"
                  (set_cookie "session_token" (SessionToken.token session.2) 28800
                              true (is_secure request) "Lax"))
         else ret (render login_template [("password"%string, lit "Invalid credentials")]))
        (fun e =>
           match e with
           | DoesNotExist TeacherModel =>
               Some (ret (render login_template
                            [("username"%string, lit "Invalid credentials")]))
           | _ => None
           end)
  | inr errors => ret (render login_template errors)
  end.

(** [StudentCreateView.post] *)
Definition StudentCreateView_post `{Ipv6} (teacher : Z) (request : HttpRequest) : M HttpResponse :=
  try_except
    (match serializers.StudentCreateUpdateSerializer request with
     | inl validated_data =>
         atomic
           (saved <- serializers.create teacher (utils.get_client_ip request)
                                        validated_data ;;
            let '(student_id, student, message) := saved in
            let response_data :=
              [("success"%string, JBool true);
               ("message"%string, JStr message);
               ("student_id"%string, JInt student_id);
               ("new_marks"%string, JInt (Student.marks student))] in
            let response_data :=
              if contains (lit "added successfully") message
              then response_data
                   ++ [("student"%string,
                        JStudent student_id (Student.name student)
                                 (Student.subject student) (Student.marks student))]
              else response_data in
            ret (Response response_data HTTP_201_CREATED))
     | inr errors =>
         ret (Response [("success"%string, JBool false);
                        ("error"%string, JStr (lit "Invalid form data"));
                        ("form_errors"%string, JErrors errors)]
                       HTTP_400_BAD_REQUEST)
     end)
    (ajax_handlers "Server error occurred").

(** [StudentUpdateView.post] *)
Definition StudentUpdateView_post `{Ipv6} (teacher : Z) (request : HttpRequest) : M HttpResponse :=
  try_except
    (match serializers.MarksUpdateSerializer request with
     | inl validated_data =>
         let student_id := serializers.v_student_id validated_data in
         let new_marks := serializers.v_new_marks validated_data in
         atomic
           (student <- models.get_object_or_404 student_id teacher ;;
            let old_marks := Student.marks student.2 in
            models.Student_save student.1
              {| Student.name := Student.name student.2;
                 Student.subject := Student.subject student.2;
                 Student.marks := new_marks;
                 Student.teacher := Student.teacher student.2 |} ;;
            models.AuditLog_objects_create
              {| AuditLog.teacher := teacher;
                 AuditLog.action := "INLINE_UPDATE";
                 AuditLog.student_name := Student.name student.2;
                 AuditLog.subject := Student.subject student.2;
                 AuditLog.old_marks := Some old_marks;
                 AuditLog.new_marks := Some new_marks;
                 AuditLog.ip_address := utils.get_client_ip request |} ;;
            ret (Response [("success"%string, JBool true);
                           ("message"%string, JStr (lit "Marks updated successfully"))]
                          HTTP_200_OK))
     | inr errors =>
         ret (Response [("success"%string, JBool false);
                        ("error"%string, JStr (lit "Invalid data"));
                        ("form_errors"%string, JErrors errors)]
                       HTTP_400_BAD_REQUEST)
     end)
    (ajax_handlers "Failed to update marks").

(** [StudentDeleteView.post] *)
Definition StudentDeleteView_post `{Ipv6} (teacher : Z) (request : HttpRequest) : M HttpResponse :=
  try_except
    (match serializers.StudentDeleteSerializer request with
     | inl student_id =>
         atomic
           (student <- models.get_object_or_404 student_id teacher ;;
            models.AuditLog_objects_create
              {| AuditLog.teacher := teacher;
                 AuditLog.action := "DELETE_STUDENT";
                 AuditLog.student_name := Student.name student.2;
                 AuditLog.subject := Student.subject student.2;
                 AuditLog.old_marks := Some (Student.marks student.2);
                 AuditLog.new_marks := None;
                 AuditLog.ip_address := utils.get_client_ip request |} ;;
            models.Student_delete student.1 ;;
            ret (Response [("success"%string, JBool true);
                           ("message"%string, JStr (lit "Student deleted successfully"))]
                          HTTP_200_OK))
     | inr errors =>
         ret (Response [("success"%string, JBool false);
                        ("error"%string, JStr (lit "Invalid data"));
                        ("form_errors"%string, JErrors errors)]
                       HTTP_400_BAD_REQUEST)
     end)
    (ajax_handlers "Failed to delete student").

(** [LogoutView.post] *)
Definition LogoutView_post `{Ipv6} (request : HttpRequest) : M HttpResponse :=
  let token := COOKIES_session_token request in
  match token with
  | Some (c :: r) =>
      try_except
        (session <- models.SessionToken_objects_get (c :: r) ;;
         models.AuditLog_objects_create
           {| AuditLog.teacher := SessionToken.teacher session.2;
              AuditLog.action := "LOGOUT";
              AuditLog.student_name := lit "N/A";
              AuditLog.subject := lit "N/A";
              AuditLog.old_marks := None;
              AuditLog.new_marks := None;
              AuditLog.ip_address := utils.get_client_ip request |} ;;
         models.SessionToken_delete session.1)
        (fun e =>
           match e with
           | DoesNotExist SessionTokenModel => Some (ret tt)
           | _ => None
           end)
  | Some [] | None => ret tt
  end ;;
  ret (redirect "login" (delete_cookie "session_token")).

(** The protected handlers as routed: [@method_decorator(require_authentication,
    name='dispatch')] decorates the bound [dispatch], a function. *)
Definition add_student `{Ipv6} : Z -> HttpRequest -> M HttpResponse :=
  utils.require_authentication false StudentCreateView_post.

Definition update_marks `{Ipv6} : Z -> HttpRequest -> M HttpResponse :=
  utils.require_authentication false StudentUpdateView_post.

Definition delete_student `{Ipv6} : Z -> HttpRequest -> M HttpResponse :=
  utils.require_authentication false StudentDeleteView_post.

Definition taught_by (teacher : Z) (kv : Z * Student.row) : bool :=
  bool_decide (Student.teacher kv.2 = teacher).

(** The order of [order_by('name', 'subject')]: by name, and by subject
    among names the collation holds equal. *)
Definition by_name_subject `{Collation} : relation (Z * Student.row) :=
  fun a b =>
    (collate_le (Student.name a.2) (Student.name b.2)
     /\ ~ collate_le (Student.name b.2) (Student.name a.2))
    \/ (collate_le (Student.name a.2) (Student.name b.2)
        /\ collate_le (Student.name b.2) (Student.name a.2)
        /\ collate_le (Student.subject a.2) (Student.subject b.2)).

#[export] Instance by_name_subject_dec `{Collation} : RelDecision by_name_subject.
Proof. intros a b. unfold by_name_subject. apply _. Defined.

(** [Student.objects.filter(teacher=request.teacher).order_by('name',
    'subject')], the query of [HomeView.get_context_data] and
    [StudentListView.get]. *)
Definition StudentListView_students `{Collation} (teacher : Z) (db : DB)
  : list (Z * Student.row) :=
  merge_sort by_name_subject (select (taught_by teacher) (students db)).

(** [AuditLog.objects.filter(teacher=request.teacher)
    .order_by('-timestamp')[:100]], the query of [AuditLogView.get]; entries
    are stamped as they are inserted, so the newest is the last inserted. *)
Definition AuditLogView_logs (teacher : Z) (db : DB) : list AuditLog.row :=
  take 100 (rev (List.filter (fun r => bool_decide (AuditLog.teacher r = teacher))
                             (audit_logs db))).

End views.

(** ** Vocabulary of the properties *)

Module props.

(** The merge rule, with the message a rejected merge carries: the total is
    the sum; above 100 the merge fails with that message; otherwise it
    succeeds, with a total that is again a mark. *)
Definition merge_rule (cap_message : str) (existing_marks incoming_marks : Z) : Prop :=
  let '(success, total, message) :=
    utils.calculate_new_marks existing_marks incoming_marks in
  total = existing_marks + incoming_marks
  /\ (existing_marks + incoming_marks > 100 -> success = false /\ message = cap_message)
  /\ (existing_marks + incoming_marks <= 100 -> success = true /\ 0 <= total <= 100).

(** An error response: status 4xx or 5xx. *)
Definition is_error (r : HttpResponse) : bool := 400 <=? status_code r.

(** [unique_together = ('name', 'subject', 'teacher')] as a property of the
    stored rows. *)
Definition unique_together (t : Table Student.row) : Prop :=
  forall pk1 r1 pk2 r2,
    rows t !! pk1 = Some r1 -> rows t !! pk2 = Some r2 ->
    Student.name r1 = Student.name r2 ->
    Student.subject r1 = Student.subject r2 ->
    Student.teacher r1 = Student.teacher r2 ->
    pk1 = pk2.

(** A client address the audit log can store. *)
Definition recordable (ip : option str) : bool :=
  match ip with
  | Some (_ :: _) => true
  | Some [] | None => false
  end.

(** Every stored student has marks in [0, 100]. *)
Definition marks_in_range (db : DB) : Prop :=
  forall pk stu, rows (students db) !! pk = Some stu -> 0 <= Student.marks stu <= 100.

(** The public operations, each with the clock and random values it reads. *)
Inductive operation : Type :=
| op_login (now : Z) (fresh_token : str) (request : HttpRequest)
| op_logout (request : HttpRequest)
| op_add_student (now : Z) (request : HttpRequest)
| op_update_marks (now : Z) (request : HttpRequest)
| op_delete_student (now : Z) (request : HttpRequest).

Definition run `{Hashlib} `{Ipv6} (op : operation) (db : DB) : DB :=
  match op with
  | op_login now fresh_token request => (views.LoginView_post now fresh_token request db).2
  | op_logout request => (views.LogoutView_post request db).2
  | op_add_student now request => (views.add_student now request db).2
  | op_update_marks now request => (views.update_marks now request db).2
  | op_delete_student now request => (views.delete_student now request db).2
  end.

(** The stores the public operations can produce, from one without
    students. *)
Inductive reachable `{Hashlib} `{Ipv6} : DB -> Prop :=
| reachable_init db : rows (students db) = ∅ -> reachable db
| reachable_step db op : reachable db -> reachable (run op db).

(** [secrets.token_hex(nbytes)] returns [2 * nbytes] hexadecimal digits. *)
Definition is_hex_digit (c : N) : bool :=
  (((48 <=? c) && (c <=? 57)) || ((97 <=? c) && (c <=? 102)))%N.

Definition is_token_hex (nbytes : nat) (s : str) : Prop :=
  length s = (2 * nbytes)%nat /\ forallb is_hex_digit s = true.

(** No session of another teacher already carries [token]. *)
Definition no_collision (token : str) (teacher : Z) (db : DB) : Prop :=
  forall pk s, rows (sessions db) !! pk = Some s ->
    SessionToken.teacher s <> teacher -> SessionToken.token s <> token.

Definition is_ascii_letter (c : N) : bool :=
  (((97 <=? c) && (c <=? 122)) || ((65 <=? c) && (c <=? 90)))%N.

Definition is_digit (c : N) : bool := ((48 <=? c) && (c <=? 57))%N.

(** ASCII punctuation ([string.punctuation]). *)
Definition is_punctuation (c : N) : bool :=
  (((33 <=? c) && (c <=? 47)) || ((58 <=? c) && (c <=? 64))
   || ((91 <=? c) && (c <=? 96)) || ((123 <=? c) && (c <=? 126)))%N.

Definition is_space_character (c : N) : bool := (c =? 32)%N.

(** The acceptance rule of names and subjects, for a given notion of
    "space". *)
Definition name_rule (space : N -> bool) (s : str) : Prop :=
  (2 <= length (strip s))%nat
  /\ Forall (fun c => is_ascii_letter c = true \/ space c = true) (strip s).

Definition accepts (f : str -> checked str) (s : str) : Prop :=
  exists v, f s = Valid v.

Definition rejects (f : str -> checked str) (s : str) : Prop :=
  exists msg, f s = Invalid msg.

Definition name_validators : list (str -> checked str) :=
  [utils.validate_name; utils.validate_subject;
   forms.validate_name; forms.validate_subject].

(** Why the gate turns a request down. *)
Inductive rejection_cause : Type := token_absent | token_unknown | token_expired.

Definition rejected_for (db : DB) (now : Z) (request : HttpRequest)
    (cause : rejection_cause) : Prop :=
  match cause with
  | token_absent =>
      COOKIES_session_token request = None \/ COOKIES_session_token request = Some []
  | token_unknown =>
      exists token, COOKIES_session_token request = Some token /\ token <> []
        /\ forall pk s, rows (sessions db) !! pk = Some s -> SessionToken.token s <> token
  | token_expired =>
      exists token pk s, COOKIES_session_token request = Some token /\ token <> []
        /\ rows (sessions db) !! pk = Some s /\ SessionToken.token s = token
        /\ (forall pk' s', rows (sessions db) !! pk' = Some s' ->
                           SessionToken.token s' = token -> pk' = pk)
        /\ SessionToken.expires_at s <= now
  end.

(** The one response of the gate to an unauthenticated caller of a kind. *)
Definition rejection_response (ajax : bool) : HttpResponse :=
  if ajax
  then JsonResponse [("error"%string, JStr (lit "Authentication required"))] 401
  else redirect "login" no_cookie.

(** The submitted username after trimming and HTML-escaping, and the
    submitted password. *)
Definition submitted_username (request : HttpRequest) : str :=
  html_escape (strip (default [] (POST_username request))).

Definition submitted_password (request : HttpRequest) : str :=
  default [] (POST_password request).

(** A login that authenticates answers with the redirect to [home] that
    sets the session cookie. *)
Definition authenticates (out : outcome HttpResponse) : Prop :=
  exists cookie, out = Return (redirect "home" cookie).

(** The four validators are one function up to their two messages. *)
Definition validator_shape (f : str -> checked str) : Prop :=
  exists too_short bad_characters, forall s,
    f s = if bool_decide (s = []) || (length (strip s) <? 2)%nat
          then Invalid too_short
          else if negb (re_match_letters_spaces (strip s))
               then Invalid bad_characters
               else Valid (strip s).

(** The request names a stored student: its validated name and subject are
    those of the row. *)
Definition names_student (request : HttpRequest) (stu : Student.row) : Prop :=
  serializers.run_field (serializers.CharField_run_validation 100)
    serializers.validate_name (data_name request) = forms.Cleaned (Student.name stu)
  /\ serializers.run_field (serializers.CharField_run_validation 100)
       serializers.validate_subject (data_subject request)
     = forms.Cleaned (Student.subject stu).

Definition with_marks (stu : Student.row) (marks : Z) : Student.row :=
  {| Student.name := Student.name stu; Student.subject := Student.subject stu;
     Student.marks := marks; Student.teacher := Student.teacher stu |}.

(** A triple for computations over the store: from a store satisfying [P],
    a normal return with [a] leaves a store satisfying [Q a], an exception
    one satisfying [E]. *)
Definition hoare {A} (P : DB -> Prop) (m : M A) (Q : A -> DB -> Prop)
    (E : DB -> Prop) : Prop :=
  forall db, P db ->
    match m db with
    | (Return a, db') => Q a db'
    | (Raise _, db') => E db'
    end.

Definition in_range_after {A} : A -> DB -> Prop := fun _ db => marks_in_range db.

(** [m] keeps the marks within range, whether it returns or raises. *)
Definition keeps_range {A} (m : M A) : Prop :=
  hoare marks_in_range m in_range_after marks_in_range.

(** The store changes only together with one new audit entry. *)
Definition all_or_nothing (m : M HttpResponse) : Prop :=
  forall db out db',
    m db = (out, db') ->
    db' = db \/ exists entry, audit_logs db' = audit_logs db ++ [entry].

(** The row [create_token] inserts, and the store it leaves when the token
    collides with no other session. *)
Definition created_session (now : Z) (fresh_token : str) (teacher : Z) : SessionToken.row :=
  {| SessionToken.teacher := teacher;
     SessionToken.token := fresh_token;
     SessionToken.expires_at := now + SessionToken.timedelta_hours 8 |}.

Definition kept_sessions (teacher : Z) (db : DB) : Table SessionToken.row :=
  delete_where (models.of_teacher teacher) (sessions db).

Definition after_create_token (db : DB) (now : Z) (fresh_token : str) (teacher : Z) : DB :=
  set_sessions
    (insert_row (created_session now fresh_token teacher) (kept_sessions teacher db)).2
    (set_sessions (kept_sessions teacher db) db).

(** What one request does to the student table: nothing, new marks for a
    stored row, a new row whose identity was free, or one row less. *)
Inductive students_change (t : Table Student.row) : Table Student.row -> Prop :=
| change_none : students_change t t
| change_marks pk stu marks :
    rows t !! pk = Some stu ->
    students_change t (update_row pk (with_marks stu marks) t)
| change_insert r :
    select (models.same_identity (Student.name r) (Student.subject r) (Student.teacher r)) t
    = [] ->
    students_change t (insert_row r t).2
| change_delete pk : students_change t (delete_row pk t).

(** At most one session per teacher. *)
Definition single_session (t : Table SessionToken.row) : Prop :=
  forall pk1 s1 pk2 s2,
    rows t !! pk1 = Some s1 -> rows t !! pk2 = Some s2 ->
    SessionToken.teacher s1 = SessionToken.teacher s2 -> pk1 = pk2.

(** [token] is [unique=True]. *)
Definition unique_token (t : Table SessionToken.row) : Prop :=
  forall pk1 s1 pk2 s2,
    rows t !! pk1 = Some s1 -> rows t !! pk2 = Some s2 ->
    SessionToken.token s1 = SessionToken.token s2 -> pk1 = pk2.

(** One character of [html.escape]. *)
Definition escape_char (c : N) : str :=
  if (c =? 38)%N then lit "&amp;"
  else if (c =? 60)%N then lit "&lt;"
  else if (c =? 62)%N then lit "&gt;"
  else if (c =? 34)%N then lit "&quot;"
  else if (c =? 39)%N then lit "&#x27;"
  else [c].

(** The characters [html.escape] replaces, and those among them that never
    appear in its result. *)
Definition is_html_special (c : N) : bool :=
  ((c =? 38) || (c =? 60) || (c =? 62) || (c =? 34) || (c =? 39))%N.

Definition is_markup (c : N) : bool :=
  ((c =? 60) || (c =? 62) || (c =? 34) || (c =? 39))%N.

(** The shape of the four name and subject hooks: escape the trimmed
    value, then run the validator [f]. *)
Definition hook_of (f : str -> checked str) (value : str) : forms.cleaned str :=
  match value with
  | _ :: _ =>
      match f (html_escape (strip value)) with
      | Invalid result => forms.FieldErrors [result]
      | Valid result => forms.Cleaned result
      end
  | [] => forms.Cleaned value
  end.

Definition name_hooks : list (str -> forms.cleaned str) :=
  [serializers.validate_name; serializers.validate_subject;
   forms.clean_name; forms.clean_subject].

Definition marks_message : str := lit "Marks must be between 0 and 100".

(** An audit row as the store holds it: the address in the form the column
    takes. *)
Definition stored `{Ipv6} (r : AuditLog.row) : AuditLog.row :=
  {| AuditLog.teacher := AuditLog.teacher r;
     AuditLog.action := AuditLog.action r;
     AuditLog.student_name := AuditLog.student_name r;
     AuditLog.subject := AuditLog.subject r;
     AuditLog.old_marks := AuditLog.old_marks r;
     AuditLog.new_marks := AuditLog.new_marks r;
     AuditLog.ip_address := models.get_db_prep_value (AuditLog.ip_address r) |}.

(** The audit entries of a login and of a logout, as the store holds
    them. *)
Definition login_entry `{Ipv6} (teacher : Z) (request : HttpRequest) : AuditLog.row :=
  {| AuditLog.teacher := teacher;
     AuditLog.action := "LOGIN";
     AuditLog.student_name := lit "N/A";
     AuditLog.subject := lit "N/A";
     AuditLog.old_marks := None;
     AuditLog.new_marks := None;
     AuditLog.ip_address := models.get_db_prep_value (utils.get_client_ip request) |}.

Definition logout_entry `{Ipv6} (teacher : Z) (request : HttpRequest) : AuditLog.row :=
  {| AuditLog.teacher := teacher;
     AuditLog.action := "LOGOUT";
     AuditLog.student_name := lit "N/A";
     AuditLog.subject := lit "N/A";
     AuditLog.old_marks := None;
     AuditLog.new_marks := None;
     AuditLog.ip_address := models.get_db_prep_value (utils.get_client_ip request) |}.

(** The cookie a successful login sets. *)
Definition session_cookie (token : str) (request : HttpRequest) : Cookie :=
  set_cookie "session_token" token 28800 true (is_secure request) "Lax".

(** The request with another value in its password field. *)
Definition with_password (request : HttpRequest) (password : option str) : HttpRequest :=
  {| COOKIES_session_token := COOKIES_session_token request;
     X_Requested_With := X_Requested_With request;
     HTTP_X_FORWARDED_FOR := HTTP_X_FORWARDED_FOR request;
     REMOTE_ADDR := REMOTE_ADDR request;
     is_secure := is_secure request;
     POST_username := POST_username request;
     POST_password := password;
     data_name := data_name request;
     data_subject := data_subject request;
     data_marks := data_marks request;
     data_student_id := data_student_id request |}.

(** The submitted password as the form hands it on: trimmed. *)
Definition trimmed_password (request : HttpRequest) : str :=
  strip (default [] (POST_password request)).

(** The username [username] names exactly the teacher row [pk]. *)
Definition names_teacher (db : DB) (username : str) (pk : Z) (teacher : Teacher.row) : Prop :=
  rows (teachers db) !! pk = Some teacher
  /\ Teacher.username teacher = username
  /\ forall pk' teacher', rows (teachers db) !! pk' = Some teacher' ->
        Teacher.username teacher' = username -> pk' = pk.

(** The store after the logout of session [pk] of [teacher]. *)
Definition after_logout `{Ipv6} (db : DB) (pk teacher : Z) (request : HttpRequest) : DB :=
  set_sessions (delete_row pk (sessions db))
    (set_audit_logs (audit_logs db ++ [logout_entry teacher request]) db).

(** The request's cookie names exactly the stored session [pk]. *)
Definition holds_session (db : DB) (request : HttpRequest) (pk : Z)
    (session : SessionToken.row) : Prop :=
  COOKIES_session_token request = Some (SessionToken.token session)
  /\ SessionToken.token session <> []
  /\ rows (sessions db) !! pk = Some session
  /\ forall pk' s', rows (sessions db) !! pk' = Some s' ->
        SessionToken.token s' = SessionToken.token session -> pk' = pk.

Definition logout_response : HttpResponse :=
  redirect "login" (delete_cookie "session_token").


(** The row and the audit entries of the add/merge path, the entries as
    the store holds them. *)
Definition new_student (teacher : Z) (data : serializers.StudentData) : Student.row :=
  {| Student.name := serializers.v_name data;
     Student.subject := serializers.v_subject data;
     Student.marks := serializers.v_marks data;
     Student.teacher := teacher |}.

Definition created_entry `{Ipv6} (teacher : Z) (request : HttpRequest)
    (data : serializers.StudentData) : AuditLog.row :=
  {| AuditLog.teacher := teacher;
     AuditLog.action := "CREATE_STUDENT";
     AuditLog.student_name := serializers.v_name data;
     AuditLog.subject := serializers.v_subject data;
     AuditLog.old_marks := None;
     AuditLog.new_marks := Some (serializers.v_marks data);
     AuditLog.ip_address := models.get_db_prep_value (utils.get_client_ip request) |}.

Definition merged_entry `{Ipv6} (teacher : Z) (request : HttpRequest)
    (data : serializers.StudentData) (old_marks : Z) : AuditLog.row :=
  {| AuditLog.teacher := teacher;
     AuditLog.action := "UPDATE_MARKS";
     AuditLog.student_name := serializers.v_name data;
     AuditLog.subject := serializers.v_subject data;
     AuditLog.old_marks := Some old_marks;
     AuditLog.new_marks := Some (old_marks + serializers.v_marks data);
     AuditLog.ip_address := models.get_db_prep_value (utils.get_client_ip request) |}.

Definition inline_entry `{Ipv6} (teacher : Z) (request : HttpRequest) (stu : Student.row)
    (new_marks : Z) : AuditLog.row :=
  {| AuditLog.teacher := teacher;
     AuditLog.action := "INLINE_UPDATE";
     AuditLog.student_name := Student.name stu;
     AuditLog.subject := Student.subject stu;
     AuditLog.old_marks := Some (Student.marks stu);
     AuditLog.new_marks := Some new_marks;
     AuditLog.ip_address := models.get_db_prep_value (utils.get_client_ip request) |}.

Definition deleted_entry `{Ipv6} (teacher : Z) (request : HttpRequest) (stu : Student.row)
  : AuditLog.row :=
  {| AuditLog.teacher := teacher;
     AuditLog.action := "DELETE_STUDENT";
     AuditLog.student_name := Student.name stu;
     AuditLog.subject := Student.subject stu;
     AuditLog.old_marks := Some (Student.marks stu);
     AuditLog.new_marks := None;
     AuditLog.ip_address := models.get_db_prep_value (utils.get_client_ip request) |}.

(** The store after one more audit entry and a new student table. *)
Definition recorded (entry : AuditLog.row) (t : Table Student.row) (db : DB) : DB :=
  set_audit_logs (audit_logs db ++ [entry]) (set_students t db).

(** No stored student of [teacher] has the name and subject of [data]. *)
Definition fresh_identity (db : DB) (teacher : Z) (data : serializers.StudentData) : Prop :=
  forall pk stu, rows (students db) !! pk = Some stu ->
    ~ (Student.name stu = serializers.v_name data
       /\ Student.subject stu = serializers.v_subject data
       /\ Student.teacher stu = teacher).

(** [data] names the stored student [stu] of [teacher]. *)
Definition identifies (data : serializers.StudentData) (teacher : Z) (stu : Student.row)
  : Prop :=
  Student.name stu = serializers.v_name data
  /\ Student.subject stu = serializers.v_subject data
  /\ Student.teacher stu = teacher.

Definition created_message (name : str) : str :=
  lit "Student " ++ name ++ lit " added successfully".

Definition merged_message (name : str) (total : Z) : str :=
  lit "Updated marks for " ++ name ++ lit ". New total: " ++ str_of_int total.

(** The four entries every 201 response of the add/merge handler starts
    with, and the [student] entry. *)
Definition saved_fields (message : str) (student_id marks : Z) : list (string * JSON) :=
  [("success"%string, JBool true);
   ("message"%string, JStr message);
   ("student_id"%string, JInt student_id);
   ("new_marks"%string, JInt marks)].

Definition student_field (student_id : Z) (stu : Student.row) : list (string * JSON) :=
  [("student"%string,
    JStudent student_id (Student.name stu) (Student.subject stu) (Student.marks stu))].

Definition failed (message : string) : HttpResponse :=
  Response [("success"%string, JBool false); ("error"%string, JStr (lit message))]
           HTTP_500_INTERNAL_SERVER_ERROR.

Definition done (message : string) : HttpResponse :=
  Response [("success"%string, JBool true); ("message"%string, JStr (lit message))]
           HTTP_200_OK.

(** What one request of [teacher] does to the student table: nothing, new
    marks for one of the teacher's rows, a new row of the teacher under the
    next key, or one of the teacher's rows less. *)
Inductive owned_change (teacher : Z) (t : Table Student.row) : Table Student.row -> Prop :=
| owned_none : owned_change teacher t t
| owned_marks pk stu marks :
    rows t !! pk = Some stu -> Student.teacher stu = teacher ->
    owned_change teacher t (update_row pk (with_marks stu marks) t)
| owned_insert r :
    Student.teacher r = teacher -> owned_change teacher t (insert_row r t).2
| owned_delete pk stu :
    rows t !! pk = Some stu -> Student.teacher stu = teacher ->
    owned_change teacher t (delete_row pk t).

(** The keys in use lie below the next key of the sequence. *)
Definition keys_below {R} (t : Table R) : Prop :=
  forall pk r, rows t !! pk = Some r -> pk < next_pk t.

(** The audit log is as before, or one entry longer; the entry is for
    [teacher], its action one of [actions], its address the client address
    of [request], which is recordable. *)
Definition logged `{Ipv6} (teacher : Z) (actions : list string) (request : HttpRequest)
    (db db' : DB) : Prop :=
  audit_logs db' = audit_logs db
  \/ exists entry,
       audit_logs db' = audit_logs db ++ [entry]
       /\ AuditLog.teacher entry = teacher
       /\ In (AuditLog.action entry) actions
       /\ AuditLog.ip_address entry = models.get_db_prep_value (utils.get_client_ip request)
       /\ recordable (utils.get_client_ip request) = true.

(** The effect of one handler call by [teacher]. *)
Definition handler_effect `{Ipv6} (teacher : Z) (actions : list string) (request : HttpRequest)
    (db db' : DB) : Prop :=
  owned_change teacher (students db) (students db')
  /\ teachers db' = teachers db
  /\ sessions db' = sessions db
  /\ logged teacher actions request db db'.

(** The protected handlers with the actions they log. *)
Definition handlers `{Ipv6} : list (utils.View * list string) :=
  [(views.StudentCreateView_post, ["CREATE_STUDENT"; "UPDATE_MARKS"]%string);
   (views.StudentUpdateView_post, ["INLINE_UPDATE"]%string);
   (views.StudentDeleteView_post, ["DELETE_STUDENT"]%string)].

(** [teacher] holds a session that has not expired at [now] and whose token
    is the request's cookie. *)
Definition has_live_session (db : DB) (now : Z) (request : HttpRequest) (teacher : Z)
  : Prop :=
  exists pk session,
    rows (sessions db) !! pk = Some session
    /\ SessionToken.teacher session = teacher
    /\ COOKIES_session_token request = Some (SessionToken.token session)
    /\ now < SessionToken.expires_at session.

(** The constraints of the schema and of the handlers, as one property of
    a store. *)
Definition well_formed (db : DB) : Prop :=
  unique_together (students db)
  /\ unique_token (sessions db)
  /\ single_session (sessions db)
  /\ marks_in_range db
  /\ keys_below (students db)
  /\ keys_below (sessions db).

(** The request of an operation, the actions it may log, and the teachers
    it may log them for: a stored teacher for a login, the holder of the
    cookie's session for a logout, the holder of a live session otherwise. *)
Definition request_of (op : operation) : HttpRequest :=
  match op with
  | op_login _ _ request | op_logout request
  | op_add_student _ request | op_update_marks _ request
  | op_delete_student _ request => request
  end.

Definition actions_of (op : operation) : list string :=
  match op with
  | op_login _ _ _ => ["LOGIN"]
  | op_logout _ => ["LOGOUT"]
  | op_add_student _ _ => ["CREATE_STUDENT"; "UPDATE_MARKS"]
  | op_update_marks _ _ => ["INLINE_UPDATE"]
  | op_delete_student _ _ => ["DELETE_STUDENT"]
  end%string.

Definition acts_for (db : DB) (op : operation) (teacher : Z) : Prop :=
  match op with
  | op_login _ _ request =>
      exists row, rows (teachers db) !! teacher = Some row
                  /\ Teacher.username row = submitted_username request
  | op_logout request =>
      exists pk session,
        rows (sessions db) !! pk = Some session
        /\ SessionToken.teacher session = teacher
        /\ COOKIES_session_token request = Some (SessionToken.token session)
  | op_add_student now request | op_update_marks now request
  | op_delete_student now request => has_live_session db now request teacher
  end.

End props.

(** ** Sample data *)

Module samples.

(** A stand-in for the hash capability. *)
Definition plain_hash : Hashlib := fun s => s.

(** [clean_ipv6_address] on the addresses of the samples: one of them is an
    IPv6 address, with the normal form [2001:db8::1]. *)
Definition address_long : str := lit "2001:0DB8:0000:0000:0000:0000:0000:0001".

Definition address_short : str := lit "2001:db8::1".

Definition clean_sample_address (value : str) : option str :=
  if bool_decide (value = address_long) then Some address_short else None.

Definition sample_addresses : Ipv6.
Proof.
  refine {| clean_ipv6_address := clean_sample_address |}.
  intros value cleaned. unfold clean_sample_address.
  destruct (bool_decide (value = address_long)); [|discriminate].
  intros [= <-]. discriminate.
Defined.

Definition empty_table {R} : Table R := {| rows := ∅; next_pk := 1 |}.

Definition alice : Teacher.row :=
  @Teacher.set_password plain_hash
    {| Teacher.username := lit "alice"; Teacher.password_hash := []; Teacher.salt := [] |}
    (lit "secret1") (lit "5a17").

(** A teacher whose password has three characters. *)
Definition carol : Teacher.row :=
  @Teacher.set_password plain_hash
    {| Teacher.username := lit "carol"; Teacher.password_hash := []; Teacher.salt := [] |}
    (lit "abc") (lit "5a17").

Definition token_a : str :=
  lit "00112233445566778899aabbccddeeff00112233445566778899aabbccddeeff".

Definition token_b : str :=
  lit "ffeeddccbbaa99887766554433221100ffeeddccbbaa99887766554433221100".

Definition db_teachers : DB :=
  {| teachers := {| rows := {[ 1 := alice; 2 := carol ]}; next_pk := 3 |};
     students := empty_table;
     sessions := empty_table;
     audit_logs := [] |}.

Definition login_request (username password : string) : HttpRequest :=
  {| COOKIES_session_token := None; X_Requested_With := None;
     HTTP_X_FORWARDED_FOR := None; REMOTE_ADDR := Some (lit "10.0.0.1");
     is_secure := false;
     POST_username := Some (lit username); POST_password := Some (lit password);
     data_name := None; data_subject := None; data_marks := None;
     data_student_id := None |}.

(** The same login, sent with the header [X-Forwarded-For: ,]. *)
Definition login_request_no_address (username password : string) : HttpRequest :=
  {| COOKIES_session_token := None; X_Requested_With := None;
     HTTP_X_FORWARDED_FOR := Some (lit ","); REMOTE_ADDR := Some (lit "10.0.0.1");
     is_secure := false;
     POST_username := Some (lit username); POST_password := Some (lit password);
     data_name := None; data_subject := None; data_marks := None;
     data_student_id := None |}.

Definition api_request (token : str) (name subject : option str)
    (marks student_id : option Z) : HttpRequest :=
  {| COOKIES_session_token := Some token;
     X_Requested_With := Some (lit "XMLHttpRequest");
     HTTP_X_FORWARDED_FOR := None; REMOTE_ADDR := Some (lit "10.0.0.1");
     is_secure := false; POST_username := None; POST_password := None;
     data_name := name; data_subject := subject; data_marks := marks;
     data_student_id := student_id |}.

Definition add_request (name subject : string) (marks : Z) : HttpRequest :=
  api_request token_a (Some (lit name)) (Some (lit subject)) (Some marks) None.

Definition update_request (student_id marks : Z) : HttpRequest :=
  api_request token_a None None (Some marks) (Some student_id).

(** An inline update sent with the header [X-Forwarded-For: ,]. *)
Definition update_request_no_address (student_id marks : Z) : HttpRequest :=
  {| COOKIES_session_token := Some token_a;
     X_Requested_With := Some (lit "XMLHttpRequest");
     HTTP_X_FORWARDED_FOR := Some (lit ","); REMOTE_ADDR := Some (lit "10.0.0.1");
     is_secure := false; POST_username := None; POST_password := None;
     data_name := None; data_subject := None; data_marks := Some marks;
     data_student_id := Some student_id |}.

Definition delete_request (student_id : Z) : HttpRequest :=
  api_request token_a None None None (Some student_id).

(** alice logs in at time 0, then adds ("Bob", "Math", 70). *)
Definition db_logged_in : DB :=
  @props.run plain_hash sample_addresses
    (props.op_login 0 token_a (login_request "alice" "secret1"))
             db_teachers.

Definition db_bob : DB :=
  @props.run plain_hash sample_addresses
    (props.op_add_student 1 (add_request "Bob" "Math" 70)) db_logged_in.

Definition bob : Student.row :=
  {| Student.name := lit "Bob"; Student.subject := lit "Math";
     Student.marks := 70; Student.teacher := 1 |}.

(** The request as it arrives through a proxy that saw it come from
    [address]: [address] is the first entry of [X-Forwarded-For]. *)
Definition via_proxy (address : str) (request : HttpRequest) : HttpRequest :=
  {| COOKIES_session_token := COOKIES_session_token request;
     X_Requested_With := X_Requested_With request;
     HTTP_X_FORWARDED_FOR := Some (address ++ lit ", 10.0.0.7");
     REMOTE_ADDR := REMOTE_ADDR request;
     is_secure := is_secure request;
     POST_username := POST_username request;
     POST_password := POST_password request;
     data_name := data_name request;
     data_subject := data_subject request;
     data_marks := data_marks request;
     data_student_id := data_student_id request |}.

(** A browser request carrying the cookie [token]. *)
Definition browser_request (token : option str) : HttpRequest :=
  {| COOKIES_session_token := token; X_Requested_With := None;
     HTTP_X_FORWARDED_FOR := None; REMOTE_ADDR := Some (lit "10.0.0.1");
     is_secure := false; POST_username := None; POST_password := None;
     data_name := None; data_subject := None; data_marks := None;
     data_student_id := None |}.

(** Requests of alice that came from the IPv6 address of the samples. *)
Definition proxied_login : HttpRequest :=
  via_proxy address_long (login_request "alice" "secret1").

Definition proxied_logout : HttpRequest :=
  via_proxy address_long (browser_request (Some token_a)).

Definition proxied_add (marks : Z) : HttpRequest :=
  via_proxy address_long (add_request "Bob" "Math" marks).

Definition proxied_update (marks : Z) : HttpRequest :=
  via_proxy address_long (update_request 1 marks).

Definition proxied_delete : HttpRequest :=
  via_proxy address_long (delete_request 1).

(** A login sent with no client address at all. *)
Definition login_request_unaddressed (username password : string) : HttpRequest :=
  {| COOKIES_session_token := None; X_Requested_With := None;
     HTTP_X_FORWARDED_FOR := None; REMOTE_ADDR := None;
     is_secure := false;
     POST_username := Some (lit username); POST_password := Some (lit password);
     data_name := None; data_subject := None; data_marks := None;
     data_student_id := None |}.

(** A teacher whose password ends with a space. *)
Definition erin : Teacher.row :=
  @Teacher.set_password plain_hash
    {| Teacher.username := lit "erin"; Teacher.password_hash := []; Teacher.salt := [] |}
    (lit "secret1 ") (lit "9c02").

Definition db_erin : DB :=
  {| teachers := {| rows := {[ 1 := erin ]}; next_pk := 2 |};
     students := empty_table;
     sessions := empty_table;
     audit_logs := [] |}.


(** A student whose name holds the words the add handler looks for. *)
Definition bob_words : Student.row :=
  {| Student.name := lit "Bob added successfully"; Student.subject := lit "Math";
     Student.marks := 10; Student.teacher := 1 |}.

Definition db_words : DB :=
  {| teachers := teachers db_teachers;
     students := {| rows := {[ 1 := bob_words ]}; next_pk := 2 |};
     sessions := empty_table;
     audit_logs := [] |}.

Definition bob_data (marks : Z) : serializers.StudentData :=
  {| serializers.v_name := lit "Bob"; serializers.v_subject := lit "Math";
     serializers.v_marks := marks |}.

(** A browser request with the cookie [token] and no client address. *)
Definition unaddressed_request (token : option str) : HttpRequest :=
  {| COOKIES_session_token := token; X_Requested_With := None;
     HTTP_X_FORWARDED_FOR := None; REMOTE_ADDR := None;
     is_secure := false; POST_username := None; POST_password := None;
     data_name := None; data_subject := None; data_marks := None;
     data_student_id := None |}.

(** A second teacher with a password of full length, and a store in
    which alice holds the session with [token_a]. *)
Definition dave : Teacher.row :=
  @Teacher.set_password plain_hash
    {| Teacher.username := lit "dave"; Teacher.password_hash := []; Teacher.salt := [] |}
    (lit "secret2") (lit "77c1").

Definition db_dave : DB :=
  {| teachers := {| rows := {[ 1 := alice; 2 := dave ]}; next_pk := 3 |};
     students := empty_table;
     sessions := {| rows := {[ 1 := props.created_session 0 token_a 1 ]};
                    next_pk := 2 |};
     audit_logs := [] |}.

(** Three students of teacher 1, stored out of order, and one of teacher 2. *)
Definition al_zoology : Student.row :=
  {| Student.name := lit "Al"; Student.subject := lit "Zoology";
     Student.marks := 50; Student.teacher := 1 |}.

Definition al_art : Student.row :=
  {| Student.name := lit "Al"; Student.subject := lit "Art";
     Student.marks := 60; Student.teacher := 1 |}.

Definition cy_art : Student.row :=
  {| Student.name := lit "Cy"; Student.subject := lit "Art";
     Student.marks := 10; Student.teacher := 2 |}.

Definition db_class : DB :=
  {| teachers := teachers db_teachers;
     students := {| rows := {[ 1 := bob; 2 := al_zoology; 3 := al_art; 4 := cy_art ]};
                    next_pk := 5 |};
     sessions := empty_table;
     audit_logs := [] |}.

(** The collation that compares code points. *)
Fixpoint binary_leb (a b : str) : bool :=
  match a, b with
  | [], _ => true
  | _ :: _, [] => false
  | x :: a', y :: b' => (x <? y)%N || ((x =? y)%N && binary_leb a' b')
  end.

Definition binary_le : relation str := fun a b => binary_leb a b = true.

#[export] Instance binary_le_dec : RelDecision binary_le.
Proof. intros a b. unfold binary_le. apply _. Defined.

Definition binary_collation : Collation :=
  {| collate_le := binary_le; collate_le_dec := binary_le_dec |}.

End samples.

(** * Properties *)
(** ** Strings *)

Section strings.

Implicit Types (s t : str) (c : N).

Lemma lstrip_length s : (length (lstrip s) <= length s)%nat.
Proof.
  induction s as [|c r IH]; simpl; [lia|].
  destruct (isspace c); simpl; lia.
Qed.

Lemma strip_length s : (length (strip s) <= length s)%nat.
Proof.
  unfold strip, rstrip. rewrite length_rev.
  etransitivity; [apply lstrip_length|].
  rewrite length_rev. apply lstrip_length.
Qed.

Lemma lstrip_keeps s c : In c s -> isspace c = false -> In c (lstrip s).
Proof.
  induction s as [|d r IH]; simpl; [tauto|].
  intros [->|Hin] Hc.
  - rewrite Hc. now left.
  - destruct (isspace d); [auto|]. now right.
Qed.

Lemma strip_keeps s c : In c s -> isspace c = false -> In c (strip s).
Proof.
  intros Hin Hc. unfold strip, rstrip.
  apply in_rev. rewrite rev_involutive.
  apply lstrip_keeps; [|assumption].
  apply -> in_rev. now apply lstrip_keeps.
Qed.

(** The pattern matches the non-empty strings over its class: the newline
    that [$] tolerates is itself in the class. *)
Lemma class_plus_dollar_forallb seen s :
  class_plus_dollar seen s
  = (seen || negb (bool_decide (s = []))) && forallb letter_or_space s.
Proof.
  revert seen. induction s as [|c r IH]; intros seen; simpl.
  - now destruct seen.
  - rewrite IH. simpl.
    destruct seen; simpl; [|reflexivity].
    destruct r as [|d r']; simpl.
    + destruct (N.eqb_spec c 10) as [->|]; [reflexivity|].
      simpl. reflexivity.
    + reflexivity.
Qed.

Lemma re_match_letters_spaces_spec s :
  re_match_letters_spaces s = true <-> s <> [] /\ Forall (fun c => letter_or_space c = true) s.
Proof.
  unfold re_match_letters_spaces. rewrite class_plus_dollar_forallb. simpl.
  rewrite andb_true_iff, negb_true_iff, bool_decide_eq_false, forallb_forall,
    Forall_forall.
  split; intros [H1 H2]; split; auto; intros x Hx; apply H2; now apply list_elem_of_In.
Qed.

End strings.

(** ** The marks-merge rule *)

(** C1, as the code has it: [calculate_new_marks] adds the two marks; above
    100 it fails with the message "Total marks cannot exceed 100" (capital
    T), and it succeeds with the total otherwise. *)
Theorem calculate_new_marks_rule (existing_marks incoming_marks : Z) :
  0 <= existing_marks <= 100 -> 0 <= incoming_marks <= 100 ->
  props.merge_rule (lit "Total marks cannot exceed 100") existing_marks incoming_marks.
Proof.
  intros Hexisting Hincoming. unfold props.merge_rule, utils.calculate_new_marks.
  destruct (Z.gtb_spec (existing_marks + incoming_marks) 100) as [Hover|Hfits].
  - split; [reflexivity|]. split; [intros _; split; reflexivity|lia].
  - split; [reflexivity|]. split; [lia|]. intros _. split; [reflexivity|lia].
Qed.

Lemma calculate_new_marks_rule_witness :
  0 <= 70 <= 100 /\ 0 <= 40 <= 100
  /\ props.merge_rule (lit "Total marks cannot exceed 100") 70 40.
Proof.
  split; [lia|]. split; [lia|].
  apply (calculate_new_marks_rule 70 40); lia.
Defined.

(** C1, as stated: with 60 and 50 the merge fails, but its message is not
    "total marks cannot exceed 100". *)
Lemma calculate_new_marks_message_case :
  0 <= 60 <= 100 /\ 0 <= 50 <= 100
  /\ ~ props.merge_rule (lit "total marks cannot exceed 100") 60 50.
Proof.
  split; [lia|]. split; [lia|].
  unfold props.merge_rule. simpl. intros (_ & H & _).
  destruct H as [_ H]; [lia|]. discriminate H.
Qed.

(** ** Names and subjects *)

Lemma letter_or_space_split c :
  letter_or_space c = props.is_ascii_letter c || isspace c.
Proof. reflexivity. Qed.

(** Comparisons of code points, as linear arithmetic. *)
Ltac by_bounds :=
  rewrite ?orb_true_iff, ?orb_false_iff, ?andb_true_iff, ?andb_false_iff,
    ?N.leb_le, ?N.leb_gt, ?N.eqb_eq, ?N.eqb_neq; lia.

Lemma digit_outside_class c : props.is_digit c = true -> letter_or_space c = false.
Proof. unfold props.is_digit, letter_or_space, isspace. by_bounds. Qed.

Lemma punctuation_outside_class c :
  props.is_punctuation c = true -> letter_or_space c = false.
Proof. unfold props.is_punctuation, letter_or_space, isspace. by_bounds. Qed.

Lemma name_validators_shape f : In f props.name_validators -> props.validator_shape f.
Proof.
  intros [<-|[<-|[<-|[<-|[]]]]]; eexists _, _; intros s; reflexivity.
Qed.

Lemma validator_shape_accepts f s :
  props.validator_shape f ->
  (props.accepts f s <-> props.name_rule isspace s)
  /\ (props.accepts f s -> f s = Valid (strip s)).
Proof.
  intros (m1 & m2 & Hf). unfold props.accepts, props.name_rule. rewrite Hf.
  destruct (bool_decide (s = []) || (length (strip s) <? 2)%nat) eqn:Hshort.
  - split; [split|]; [intros [v Hv]; discriminate| |intros [v Hv]; discriminate].
    intros [Hlen _]. apply orb_true_iff in Hshort as [Hnil|Hlt].
    + apply bool_decide_eq_true in Hnil. subst s. simpl in Hlen. lia.
    + apply Nat.ltb_lt in Hlt. lia.
  - apply orb_false_iff in Hshort as [_ Hlen]. apply Nat.ltb_ge in Hlen.
    destruct (re_match_letters_spaces (strip s)) eqn:Hre; simpl.
    + apply re_match_letters_spaces_spec in Hre as [_ Hall].
      split; [split|]; eauto.
      intros _. split; [assumption|].
      eapply Forall_impl; [exact Hall|]. intros c Hc. simpl in Hc.
      rewrite letter_or_space_split in Hc. now apply orb_true_iff in Hc.
    + split; [split|]; [intros [v Hv]; discriminate| |intros [v Hv]; discriminate].
      intros [_ Hall]. exfalso.
      assert (re_match_letters_spaces (strip s) = true) as Hyes; [|congruence].
      apply re_match_letters_spaces_spec. split.
      * intros E. rewrite E in Hlen. simpl in Hlen. lia.
      * eapply Forall_impl; [exact Hall|]. intros c Hc. simpl.
        rewrite letter_or_space_split. now apply orb_true_iff.
Qed.

Lemma validator_shape_rejects f s :
  props.validator_shape f ->
  (exists c, In c s /\ (props.is_digit c = true \/ props.is_punctuation c = true))
  \/ (length (strip s) < 2)%nat ->
  props.rejects f s.
Proof.
  intros Hshape Hbad.
  destruct (validator_shape_accepts f s Hshape) as [Hiff _].
  destruct Hshape as (m1 & m2 & Hf). unfold props.rejects.
  destruct (f s) as [v|msg] eqn:Hfs; [exfalso|eauto].
  assert (props.accepts f s) as Hacc by (exists v; exact Hfs).
  apply Hiff in Hacc as [Hlen Hall].
  destruct Hbad as [(c & Hin & Hc)|Hshort]; [|lia].
  assert (letter_or_space c = false) as Hout
    by (destruct Hc; [now apply digit_outside_class|now apply punctuation_outside_class]).
  assert (isspace c = false) as Hns
    by (rewrite letter_or_space_split in Hout; now apply orb_false_iff in Hout).
  apply (strip_keeps s c Hin) in Hns.
  rewrite Forall_forall in Hall. apply list_elem_of_In in Hns.
  specialize (Hall c Hns). rewrite letter_or_space_split in Hout.
  apply orb_false_iff in Hout as [H1 H2]. destruct Hall; congruence.
Qed.

(** C8, as the code has it: a name or subject is accepted exactly when,
    trimmed, it has at least 2 characters, all of them ASCII letters or
    whitespace characters (whatever [\s] matches: space, tab, newline, ...);
    the accepted value is the trimmed string; an input with a digit or a
    punctuation character, or shorter than 2 once trimmed, is rejected with a
    message. *)
Theorem name_validators_letters_and_whitespace (f : str -> checked str) (s : str) :
  In f props.name_validators ->
  (props.accepts f s <-> props.name_rule isspace s)
  /\ (props.accepts f s -> f s = Valid (strip s))
  /\ ((exists c, In c s /\ (props.is_digit c = true \/ props.is_punctuation c = true))
      \/ (length (strip s) < 2)%nat ->
      props.rejects f s).
Proof.
  intros Hf. apply name_validators_shape in Hf.
  destruct (validator_shape_accepts f s Hf) as [H1 H2].
  split; [exact H1|]. split; [exact H2|].
  now apply validator_shape_rejects.
Qed.

Lemma name_validators_letters_and_whitespace_witness :
  In utils.validate_name props.name_validators
  /\ (props.accepts utils.validate_name (lit " Bob ")
      <-> props.name_rule isspace (lit " Bob "))
  /\ utils.validate_name (lit " Bob ") = Valid (lit "Bob").
Proof.
  assert (In utils.validate_name props.name_validators) as Hin by (simpl; auto).
  split; [exact Hin|].
  destruct (name_validators_letters_and_whitespace utils.validate_name (lit " Bob ") Hin)
    as (H1 & H2 & _).
  split; [exact H1|]. reflexivity.
Defined.

(** C8, as stated: "a", a tab, "b" is accepted although a tab is neither a
    letter nor a space. *)
Lemma name_with_tab_accepted :
  In utils.validate_name props.name_validators
  /\ ~ (props.accepts utils.validate_name [97; 9; 98]%N
        <-> props.name_rule props.is_space_character [97; 9; 98]%N).
Proof.
  split; [simpl; auto|]. intros [H _].
  assert (props.accepts utils.validate_name [97; 9; 98]%N) as Hacc
    by (eexists; reflexivity).
  apply H in Hacc as [_ Hall]. simpl in Hall.
  apply Forall_cons in Hall as [_ Hall].
  apply Forall_cons in Hall as [[Htab|Htab] _]; discriminate.
Qed.

(** ** The ORM *)

Section tables.

Context {R : Type}.
Implicit Types (t : Table R) (P : Z * R -> bool).

Lemma select_In P t pk r :
  In (pk, r) (select P t) <-> rows t !! pk = Some r /\ P (pk, r) = true.
Proof.
  unfold select. rewrite filter_In, <- list_elem_of_In, elem_of_map_to_list.
  reflexivity.
Qed.

Lemma select_NoDup P t : NoDup (select P t).
Proof.
  unfold select. apply NoDup_ListNoDup, List.NoDup_filter, NoDup_ListNoDup.
  apply NoDup_map_to_list.
Qed.

Lemma select_nil P t :
  (forall pk r, rows t !! pk = Some r -> P (pk, r) = false) -> select P t = [].
Proof.
  intros H. destruct (select P t) as [|[pk r] l] eqn:E; [reflexivity|].
  assert (In (pk, r) (select P t)) as Hin by (rewrite E; now left).
  apply select_In in Hin as [Hl HP]. rewrite (H _ _ Hl) in HP. discriminate.
Qed.

Lemma select_singleton P t pk r :
  rows t !! pk = Some r -> P (pk, r) = true ->
  (forall pk' r', rows t !! pk' = Some r' -> P (pk', r') = true -> pk' = pk) ->
  select P t = [(pk, r)].
Proof.
  intros Hl HP Huniq.
  assert (forall x, In x (select P t) -> x = (pk, r)) as Hall.
  { intros [pk' r'] Hin. apply select_In in Hin as [Hl' HP'].
    assert (pk' = pk) as -> by eauto. congruence. }
  assert (In (pk, r) (select P t)) as Hin by (apply select_In; auto).
  pose proof (select_NoDup P t) as Hnd.
  destruct (select P t) as [|a [|b l]]; [destruct Hin| |].
  - rewrite (Hall a); [reflexivity|now left].
  - exfalso. assert (a = (pk, r)) as -> by (apply Hall; now left).
    assert (b = (pk, r)) as -> by (apply Hall; right; now left).
    apply NoDup_cons in Hnd as [Hnotin _]. apply Hnotin. now left.
Qed.

Lemma get_Return model P t pk r :
  get model P t = Return (pk, r) -> rows t !! pk = Some r /\ P (pk, r) = true.
Proof.
  unfold get. destruct (select P t) as [|a [|b l]] eqn:E; try discriminate.
  intros [= ->]. apply select_In. rewrite E. now left.
Qed.

Lemma get_unique model P t pk r :
  rows t !! pk = Some r -> P (pk, r) = true ->
  (forall pk' r', rows t !! pk' = Some r' -> P (pk', r') = true -> pk' = pk) ->
  get model P t = Return (pk, r).
Proof.
  intros Hl HP Huniq. unfold get.
  now rewrite (select_singleton P t pk r Hl HP Huniq).
Qed.

Lemma get_none model P t :
  (forall pk r, rows t !! pk = Some r -> P (pk, r) = false) ->
  get model P t = Raise (DoesNotExist model).
Proof. intros H. unfold get. now rewrite (select_nil P t H). Qed.

Lemma delete_where_lookup P t pk r :
  rows (delete_where P t) !! pk = Some r <-> rows t !! pk = Some r /\ P (pk, r) = false.
Proof.
  unfold delete_where. simpl.
  exact (map_lookup_filter_Some (fun kv => P kv = false) (rows t) pk r).
Qed.

End tables.

(** Lookups by primary key and owner. *)
Lemma get_object_or_404_found db id teacher stu :
  rows (students db) !! id = Some stu -> Student.teacher stu = teacher ->
  models.get_object_or_404 id teacher db = (Return (id, stu), db).
Proof.
  intros Hl Ht. unfold models.get_object_or_404, try_except,
    models.Student_objects_get_by_id.
  rewrite (get_unique StudentModel _ _ id stu Hl).
  - reflexivity.
  - unfold models.owned_by. simpl.
    now rewrite !bool_decide_eq_true_2.
  - intros pk' r' _ HP. unfold models.owned_by in HP. simpl in HP.
    apply andb_true_iff in HP as [HP _]. now apply bool_decide_eq_true in HP.
Qed.

Lemma get_object_or_404_missing db id teacher :
  (forall stu, rows (students db) !! id = Some stu -> Student.teacher stu <> teacher) ->
  models.get_object_or_404 id teacher db = (Raise Http404, db).
Proof.
  intros H. unfold models.get_object_or_404, try_except,
    models.Student_objects_get_by_id.
  rewrite (get_none StudentModel); [reflexivity|].
  intros pk r Hl. unfold models.owned_by. simpl.
  destruct (decide (pk = id)) as [->|Hne].
  - rewrite bool_decide_eq_true_2 by reflexivity. simpl.
    apply bool_decide_eq_false. eauto.
  - now rewrite (bool_decide_eq_false_2 _ Hne).
Qed.

Lemma Student_objects_get_found db pk stu :
  rows (students db) !! pk = Some stu -> props.unique_together (students db) ->
  models.Student_objects_get (Student.name stu) (Student.subject stu)
    (Student.teacher stu) db = (Return (pk, stu), db).
Proof.
  intros Hl Huniq. unfold models.Student_objects_get.
  rewrite (get_unique StudentModel _ _ pk stu Hl); [reflexivity| |].
  - unfold models.same_identity. simpl. now rewrite !bool_decide_eq_true_2.
  - intros pk' r' Hl' HP. unfold models.same_identity in HP. simpl in HP.
    apply andb_true_iff in HP as [HP H3]. apply andb_true_iff in HP as [H1 H2].
    apply bool_decide_eq_true in H1, H2, H3.
    eapply Huniq; eauto.
Qed.

(** The column of the client address: a non-empty address is stored, in
    its normal form when it is a valid IPv6 address; an empty or missing
    address is NULL. *)
Lemma get_db_prep_value_cases `{Ipv6} (ip : option str) :
  (props.recordable ip = true
   /\ exists c r, models.get_db_prep_value ip = Some (c :: r))
  \/ (props.recordable ip = false /\ models.get_db_prep_value ip = None).
Proof.
  destruct ip as [[|c r]|]; [right; split; reflexivity| |right; split; reflexivity].
  left. split; [reflexivity|].
  unfold models.get_db_prep_value, models.get_prep_value.
  destruct (negb _ && _); [|eauto].
  destruct (clean_ipv6_address (c :: r)) as [[|c' r']|] eqn:E; eauto.
  now apply clean_ipv6_address_nonempty in E.
Qed.

Lemma get_db_prep_value_plain `{Ipv6} (c : N) (r : str) :
  contains (lit ":") (c :: r) = false ->
  models.get_db_prep_value (Some (c :: r)) = Some (c :: r).
Proof.
  intros Hplain. unfold models.get_db_prep_value, models.get_prep_value.
  now rewrite Hplain, andb_false_r.
Qed.

Lemma get_db_prep_value_recordable `{Ipv6} (ip : option str) :
  props.recordable ip = true ->
  props.recordable (models.get_db_prep_value ip) = true.
Proof.
  intros Hip. destruct (get_db_prep_value_cases ip) as [(_ & c & r & ->)|[Hno _]];
    [reflexivity|congruence].
Qed.

Lemma AuditLog_objects_create_recordable `{Ipv6} r db :
  props.recordable (AuditLog.ip_address r) = true ->
  models.AuditLog_objects_create r db
  = (Return tt, set_audit_logs (audit_logs db ++ [props.stored r]) db).
Proof.
  intros Hip. unfold models.AuditLog_objects_create, props.stored.
  destruct (get_db_prep_value_cases (AuditLog.ip_address r))
    as [(_ & c & s & ->)|[Hno _]]; [reflexivity|congruence].
Qed.

Lemma AuditLog_objects_create_unrecordable `{Ipv6} r db :
  props.recordable (AuditLog.ip_address r) = false ->
  models.AuditLog_objects_create r db = (Raise IntegrityError, db).
Proof.
  intros Hip. unfold models.AuditLog_objects_create.
  destruct (get_db_prep_value_cases (AuditLog.ip_address r))
    as [[Hyes _]|[_ ->]]; [congruence|reflexivity].
Qed.

(** ** The add/merge path *)

Lemma validate_marks_range (value validated : Z) :
  serializers.validate_marks value = forms.Cleaned validated ->
  validated = value /\ 0 <= value <= 100.
Proof.
  unfold serializers.validate_marks, utils.validate_marks.
  destruct (Z.ltb_spec value 0); simpl; [discriminate|].
  destruct (Z.gtb_spec value 100); simpl; [discriminate|].
  intros [= <-]. lia.
Qed.

Lemma validate_marks_in_range (value : Z) :
  0 <= value <= 100 -> serializers.validate_marks value = forms.Cleaned value.
Proof.
  intros H. unfold serializers.validate_marks, utils.validate_marks.
  destruct (Z.ltb_spec value 0); [lia|].
  destruct (Z.gtb_spec value 100); [lia|]. reflexivity.
Qed.

Lemma StudentCreateUpdateSerializer_valid request stu b :
  props.names_student request stu -> data_marks request = Some b ->
  0 <= b <= 100 ->
  serializers.StudentCreateUpdateSerializer request
  = inl {| serializers.v_name := Student.name stu;
           serializers.v_subject := Student.subject stu;
           serializers.v_marks := b |}.
Proof.
  intros [Hname Hsubject] Hmarks Hb. unfold serializers.StudentCreateUpdateSerializer.
  rewrite Hname, Hsubject, Hmarks.
  unfold serializers.run_field, serializers.IntegerField_run_validation.
  now rewrite (validate_marks_in_range b Hb).
Qed.

Lemma StudentCreateUpdateSerializer_marks_out_of_range request b :
  data_marks request = Some b -> ~ 0 <= b <= 100 ->
  exists errors, serializers.StudentCreateUpdateSerializer request = inr errors.
Proof.
  intros Hmarks Hb. unfold serializers.StudentCreateUpdateSerializer.
  rewrite Hmarks.
  unfold serializers.run_field at 3, serializers.IntegerField_run_validation.
  destruct (serializers.validate_marks b) as [m|msgs] eqn:Hvalid.
  - apply validate_marks_range in Hvalid. lia.
  - destruct (serializers.run_field _ _ (data_name request)),
      (serializers.run_field _ _ (data_subject request)); eauto.
Qed.

Lemma create_over_cap `{Ipv6} db teacher ip stu pk b :
  rows (students db) !! pk = Some stu ->
  Student.teacher stu = teacher ->
  props.unique_together (students db) ->
  Student.marks stu + b > 100 ->
  serializers.create teacher ip
    {| serializers.v_name := Student.name stu;
       serializers.v_subject := Student.subject stu;
       serializers.v_marks := b |} db
  = (Raise (ValidationError [("marks"%string, lit "Total marks cannot exceed 100")]), db).
Proof.
  intros Hrow <- Huniq Hcap. unfold serializers.create.
  cbn [serializers.v_name serializers.v_subject serializers.v_marks].
  unfold try_except, bind.
  rewrite (Student_objects_get_found db pk stu Hrow Huniq).
  cbn [fst snd]. unfold utils.calculate_new_marks.
  destruct (Z.gtb_spec (Student.marks stu + b) 100) as [_|]; [|lia].
  reflexivity.
Qed.

(** C3: when the request names an existing student with marks [a] and
    submits [b] with [a + b > 100], the add/merge operation answers with an
    error, the student's row is as before, and the audit log has no new
    entry: the store is unchanged. *)
Theorem merge_over_cap_leaves_store `{Ipv6} (db : DB) (teacher : Z) (request : HttpRequest)
    (pk : Z) (stu : Student.row) (b : Z) :
  rows (students db) !! pk = Some stu ->
  Student.teacher stu = teacher ->
  props.unique_together (students db) ->
  props.names_student request stu ->
  data_marks request = Some b ->
  Student.marks stu + b > 100 ->
  exists response db',
    views.StudentCreateView_post teacher request db = (Return response, db')
    /\ props.is_error response = true
    /\ rows (students db') !! pk = Some stu
    /\ audit_logs db' = audit_logs db
    /\ db' = db.
Proof.
  intros Hrow Hteacher Huniq Hnames Hmarks Hcap.
  unfold views.StudentCreateView_post.
  destruct (decide (0 <= b <= 100)) as [Hb|Hb].
  - rewrite (StudentCreateUpdateSerializer_valid request stu b Hnames Hmarks Hb).
    unfold try_except, atomic, bind.
    rewrite (create_over_cap db teacher _ stu pk b Hrow Hteacher Huniq Hcap).
    eexists _, db. repeat split; auto.
  - destruct (StudentCreateUpdateSerializer_marks_out_of_range request b Hmarks Hb)
      as [errors ->].
    unfold try_except, ret. eexists _, db. repeat split; auto.
Qed.

(** ** Inline update and delete *)

Lemma MarksUpdateSerializer_valid request pk new_marks :
  data_student_id request = Some pk -> data_marks request = Some new_marks ->
  0 <= new_marks <= 100 ->
  serializers.MarksUpdateSerializer request
  = inl {| serializers.v_student_id := pk; serializers.v_new_marks := new_marks |}.
Proof.
  intros Hid Hmarks Hrange. unfold serializers.MarksUpdateSerializer.
  rewrite Hid, Hmarks.
  unfold serializers.run_field, serializers.IntegerField_run_validation.
  change serializers.MarksUpdateSerializer_validate_marks with serializers.validate_marks.
  now rewrite (validate_marks_in_range new_marks Hrange).
Qed.

Lemma StudentDeleteSerializer_valid request pk :
  data_student_id request = Some pk ->
  serializers.StudentDeleteSerializer request = inl pk.
Proof. intros Hid. unfold serializers.StudentDeleteSerializer. now rewrite Hid. Qed.

(** C4: for a student the teacher owns and marks in [0, 100], sent with a
    client address the audit log can record, the inline update succeeds and
    the stored marks are exactly the submitted ones, whatever the previous
    marks were; they are the sum of old and new only when the old marks
    are 0. *)
Theorem inline_update_overwrites `{Ipv6} (db : DB) (teacher : Z) (request : HttpRequest)
    (pk : Z) (stu : Student.row) (new_marks : Z) :
  rows (students db) !! pk = Some stu ->
  Student.teacher stu = teacher ->
  data_student_id request = Some pk ->
  data_marks request = Some new_marks ->
  0 <= new_marks <= 100 ->
  props.recordable (utils.get_client_ip request) = true ->
  exists db',
    views.StudentUpdateView_post teacher request db
    = (Return (Response [("success"%string, JBool true);
                         ("message"%string, JStr (lit "Marks updated successfully"))]
                        200), db')
    /\ rows (students db') !! pk = Some (props.with_marks stu new_marks)
    /\ (Student.marks stu <> 0 ->
        Student.marks <$> rows (students db') !! pk
        <> Some (Student.marks stu + new_marks)).
Proof.
  intros Hrow Hteacher Hid Hmarks Hrange Hip.
  unfold views.StudentUpdateView_post.
  rewrite (MarksUpdateSerializer_valid request pk new_marks Hid Hmarks Hrange).
  cbn [serializers.v_student_id serializers.v_new_marks].
  unfold try_except, atomic, bind at 1.
  rewrite (get_object_or_404_found db pk teacher stu Hrow Hteacher).
  cbn [fst snd]. unfold bind at 1, models.Student_save.
  unfold bind. rewrite AuditLog_objects_create_recordable by exact Hip.
  unfold ret. eexists. split; [reflexivity|].
  cbn [students set_audit_logs set_students update_row rows].
  rewrite lookup_insert_eq. split; [reflexivity|].
  intros Hold. cbn. intros [= E]. lia.
Qed.

(** Without a client address to record, the update is rolled back. *)
Lemma inline_update_rolled_back `{Ipv6} db teacher request pk stu new_marks :
  rows (students db) !! pk = Some stu ->
  Student.teacher stu = teacher ->
  data_student_id request = Some pk ->
  data_marks request = Some new_marks ->
  0 <= new_marks <= 100 ->
  props.recordable (utils.get_client_ip request) = false ->
  views.StudentUpdateView_post teacher request db
  = (Return (Response [("success"%string, JBool false);
                       ("error"%string, JStr (lit "Failed to update marks"))]
                      500), db).
Proof.
  intros Hrow Hteacher Hid Hmarks Hrange Hip.
  unfold views.StudentUpdateView_post.
  rewrite (MarksUpdateSerializer_valid request pk new_marks Hid Hmarks Hrange).
  cbn [serializers.v_student_id serializers.v_new_marks].
  unfold try_except, atomic, bind at 1.
  rewrite (get_object_or_404_found db pk teacher stu Hrow Hteacher).
  cbn [fst snd]. unfold bind at 1, models.Student_save.
  unfold bind, models.AuditLog_objects_create. cbn [AuditLog.ip_address].
  unfold props.recordable in Hip.
  destruct (utils.get_client_ip request) as [[|c r]|]; try discriminate; reflexivity.
Qed.

(** The answer of both handlers to an id that is absent or belongs to
    another teacher: a server error, the same in both cases, and no change
    to the store. *)
Lemma update_unowned_is_server_error `{Ipv6} db teacher request pk new_marks :
  (forall stu, rows (students db) !! pk = Some stu -> Student.teacher stu <> teacher) ->
  data_student_id request = Some pk ->
  data_marks request = Some new_marks ->
  0 <= new_marks <= 100 ->
  views.StudentUpdateView_post teacher request db
  = (Return (Response [("success"%string, JBool false);
                       ("error"%string, JStr (lit "Failed to update marks"))]
                      500), db).
Proof.
  intros Hrow Hid Hmarks Hrange. unfold views.StudentUpdateView_post.
  rewrite (MarksUpdateSerializer_valid request pk new_marks Hid Hmarks Hrange).
  cbn [serializers.v_student_id serializers.v_new_marks].
  unfold try_except, atomic, bind at 1.
  now rewrite (get_object_or_404_missing db pk teacher Hrow).
Qed.

Lemma delete_unowned_is_server_error `{Ipv6} db teacher request pk :
  (forall stu, rows (students db) !! pk = Some stu -> Student.teacher stu <> teacher) ->
  data_student_id request = Some pk ->
  views.StudentDeleteView_post teacher request db
  = (Return (Response [("success"%string, JBool false);
                       ("error"%string, JStr (lit "Failed to delete student"))]
                      500), db).
Proof.
  intros Hrow Hid. unfold views.StudentDeleteView_post.
  rewrite (StudentDeleteSerializer_valid request pk Hid).
  unfold try_except, atomic, bind at 1.
  now rewrite (get_object_or_404_missing db pk teacher Hrow).
Qed.

(** ** Triples for the store monad *)

Section triples.

Context {A B : Type}.
Implicit Types (P E : DB -> Prop).

Lemma hoare_ret P E (a : A) (Q : A -> DB -> Prop) :
  (forall db, P db -> Q a db) -> props.hoare P (ret a) Q E.
Proof. intros H db Hdb. simpl. auto. Qed.

Lemma hoare_raise P E (e : exn) (Q : A -> DB -> Prop) :
  (forall db, P db -> E db) -> props.hoare P (raise e) Q E.
Proof. intros H db Hdb. simpl. auto. Qed.

Lemma hoare_bind P E (m : M A) (k : A -> M B) (Q : A -> DB -> Prop)
    (Q' : B -> DB -> Prop) :
  props.hoare P m Q E -> (forall a, props.hoare (Q a) (k a) Q' E) ->
  props.hoare P (bind m k) Q' E.
Proof.
  intros Hm Hk db Hdb. unfold bind. specialize (Hm db Hdb).
  destruct (m db) as [[a|e] db']; [|exact Hm]. exact (Hk a db' Hm).
Qed.

Lemma hoare_atomic P E E' (m : M A) (Q : A -> DB -> Prop) :
  props.hoare P m Q E' -> (forall db, P db -> E db) -> props.hoare P (atomic m) Q E.
Proof.
  intros Hm HE db Hdb. unfold atomic. specialize (Hm db Hdb).
  destruct (m db) as [[a|e] db']; [exact Hm|auto].
Qed.

Lemma hoare_try_except P E E' (m : M A) (handler : exn -> option (M A))
    (Q : A -> DB -> Prop) :
  props.hoare P m Q E' ->
  (forall e h, handler e = Some h -> props.hoare E' h Q E) ->
  (forall db, E' db -> E db) ->
  props.hoare P (try_except m handler) Q E.
Proof.
  intros Hm Hh HE db Hdb. unfold try_except. specialize (Hm db Hdb).
  destruct (m db) as [[a|e] db']; [exact Hm|].
  destruct (handler e) as [h|] eqn:Hhe; [|auto].
  exact (Hh e h Hhe db' Hm).
Qed.

Lemma hoare_weaken P P' E E' (m : M A) (Q Q' : A -> DB -> Prop) :
  props.hoare P' m Q' E' ->
  (forall db, P db -> P' db) ->
  (forall a db, Q' a db -> Q a db) ->
  (forall db, E' db -> E db) ->
  props.hoare P m Q E.
Proof.
  intros Hm HP HQ HE db Hdb. specialize (Hm db (HP db Hdb)).
  destruct (m db) as [[a|e] db']; auto.
Qed.

Lemma hoare_assume P E (fact : Prop) (m : M A) (Q : A -> DB -> Prop) :
  (fact -> props.hoare P m Q E) -> props.hoare (fun db => P db /\ fact) m Q E.
Proof. intros H db [Hdb Hfact]. exact (H Hfact db Hdb). Qed.

End triples.

(** ** Marks stay within [0, 100] *)

Section marks_range.


Lemma AuditLog_objects_create_in_range `{Ipv6} r :
  props.keeps_range (models.AuditLog_objects_create r).
Proof.
  intros db Hdb. unfold models.AuditLog_objects_create.
  destruct (models.get_db_prep_value (AuditLog.ip_address r)); exact Hdb.
Qed.

Lemma Student_save_in_range pk r :
  0 <= Student.marks r <= 100 -> props.keeps_range (models.Student_save pk r).
Proof.
  intros Hr db Hdb pk' stu. simpl.
  rewrite lookup_insert_Some. intros [[_ <-]|[_ Hl]]; [exact Hr|exact (Hdb _ _ Hl)].
Qed.

Lemma Student_delete_in_range pk : props.keeps_range (models.Student_delete pk).
Proof.
  intros db Hdb pk' stu. simpl.
  rewrite lookup_delete_Some. intros [_ Hl]. exact (Hdb _ _ Hl).
Qed.

Lemma Student_objects_create_in_range r :
  0 <= Student.marks r <= 100 -> props.keeps_range (models.Student_objects_create r).
Proof.
  intros Hr db Hdb. unfold models.Student_objects_create.
  destruct (select _ (students db)); [|exact Hdb].
  intros pk' stu. simpl.
  rewrite lookup_insert_Some. intros [[_ <-]|[_ Hl]]; [exact Hr|exact (Hdb _ _ Hl)].
Qed.

Lemma Student_objects_get_in_range name subject teacher :
  props.hoare props.marks_in_range (models.Student_objects_get name subject teacher)
        (fun a db => props.marks_in_range db /\ 0 <= Student.marks a.2 <= 100)
        props.marks_in_range.
Proof.
  intros db Hdb. unfold models.Student_objects_get.
  destruct (get _ _ _) as [[pk stu]|e] eqn:Hget; [|exact Hdb].
  apply get_Return in Hget as [Hl _]. split; [exact Hdb|exact (Hdb _ _ Hl)].
Qed.

Lemma get_object_or_404_in_range id teacher :
  props.hoare props.marks_in_range (models.get_object_or_404 id teacher)
        (fun a db => props.marks_in_range db /\ 0 <= Student.marks a.2 <= 100)
        props.marks_in_range.
Proof.
  intros db Hdb. unfold models.get_object_or_404, try_except,
    models.Student_objects_get_by_id.
  destruct (get _ _ _) as [[pk stu]|e] eqn:Hget.
  - apply get_Return in Hget as [Hl _]. split; [exact Hdb|exact (Hdb _ _ Hl)].
  - destruct e; exact Hdb.
Qed.

Lemma StudentCreateUpdateSerializer_in_range request data :
  serializers.StudentCreateUpdateSerializer request = inl data ->
  0 <= serializers.v_marks data <= 100.
Proof.
  unfold serializers.StudentCreateUpdateSerializer.
  destruct (serializers.run_field _ _ (data_name request)); [|discriminate].
  destruct (serializers.run_field _ _ (data_subject request)); [|discriminate].
  unfold serializers.run_field, serializers.IntegerField_run_validation.
  destruct (data_marks request) as [b|]; [|discriminate].
  destruct (serializers.validate_marks b) as [m|] eqn:Hvalid; [|discriminate].
  intros [= <-]. simpl. apply validate_marks_range in Hvalid. lia.
Qed.

Lemma MarksUpdateSerializer_in_range request data :
  serializers.MarksUpdateSerializer request = inl data ->
  0 <= serializers.v_new_marks data <= 100.
Proof.
  unfold serializers.MarksUpdateSerializer.
  destruct (serializers.run_field _ _ (data_student_id request)); [|discriminate].
  unfold serializers.run_field, serializers.IntegerField_run_validation.
  change serializers.MarksUpdateSerializer_validate_marks with serializers.validate_marks.
  destruct (data_marks request) as [b|]; [|discriminate].
  destruct (serializers.validate_marks b) as [m|] eqn:Hvalid; [|discriminate].
  intros [= <-]. simpl. apply validate_marks_range in Hvalid. lia.
Qed.

Lemma create_in_range `{Ipv6} teacher ip data :
  0 <= serializers.v_marks data <= 100 ->
  props.keeps_range (serializers.create teacher ip data).
Proof.
  intros Hdata. unfold serializers.create.
  eapply hoare_try_except with (E' := props.marks_in_range); [| |auto].
  - eapply hoare_bind; [apply Student_objects_get_in_range|].
    intros [pk stu]. cbn [fst snd]. unfold utils.calculate_new_marks.
    destruct (Z.gtb_spec (Student.marks stu + serializers.v_marks data) 100).
    + simpl. apply hoare_raise. now intros db [Hdb _].
    + simpl. apply hoare_assume. intros Hstu.
      eapply hoare_bind; [apply Student_save_in_range; simpl; lia|].
      intros ?. eapply hoare_bind; [apply AuditLog_objects_create_in_range|].
      intros ?. apply hoare_ret. auto.
  - intros e h He. destruct e as [[]| | | | |]; try discriminate.
    injection He as <-.
    eapply hoare_bind; [apply Student_objects_create_in_range; exact Hdata|].
    intros student. eapply hoare_bind; [apply AuditLog_objects_create_in_range|].
    intros ?. apply hoare_ret. auto.
Qed.

Lemma ajax_handlers_in_range failure e h :
  views.ajax_handlers failure e = Some h -> props.keeps_range h.
Proof.
  destruct e; intros [= <-]; apply hoare_ret; auto.
Qed.

Lemma StudentCreateView_post_in_range `{Ipv6} teacher request :
  props.keeps_range (views.StudentCreateView_post teacher request).
Proof.
  unfold views.StudentCreateView_post.
  eapply hoare_try_except with (E' := props.marks_in_range);
    [|intros e h; apply ajax_handlers_in_range|auto].
  destruct (serializers.StudentCreateUpdateSerializer request) as [data|errors] eqn:Hs.
  - apply hoare_atomic with (E' := props.marks_in_range); [|auto].
    eapply hoare_bind;
      [apply create_in_range, (StudentCreateUpdateSerializer_in_range request), Hs|].
    intros [[pk stu] message]. apply hoare_ret. auto.
  - apply hoare_ret. auto.
Qed.

Lemma StudentUpdateView_post_in_range `{Ipv6} teacher request :
  props.keeps_range (views.StudentUpdateView_post teacher request).
Proof.
  unfold views.StudentUpdateView_post.
  eapply hoare_try_except with (E' := props.marks_in_range);
    [|intros e h; apply ajax_handlers_in_range|auto].
  destruct (serializers.MarksUpdateSerializer request) as [data|errors] eqn:Hs.
  - apply MarksUpdateSerializer_in_range in Hs.
    apply hoare_atomic with (E' := props.marks_in_range); [|auto].
    eapply hoare_bind; [apply get_object_or_404_in_range|].
    intros [pk stu]. cbn [fst snd]. apply hoare_assume. intros _.
    eapply hoare_bind; [apply Student_save_in_range; exact Hs|].
    intros ?. eapply hoare_bind; [apply AuditLog_objects_create_in_range|].
    intros ?. apply hoare_ret. auto.
  - apply hoare_ret. auto.
Qed.

Lemma StudentDeleteView_post_in_range `{Ipv6} teacher request :
  props.keeps_range (views.StudentDeleteView_post teacher request).
Proof.
  unfold views.StudentDeleteView_post.
  eapply hoare_try_except with (E' := props.marks_in_range);
    [|intros e h; apply ajax_handlers_in_range|auto].
  destruct (serializers.StudentDeleteSerializer request) as [pk|errors] eqn:Hs.
  - apply hoare_atomic with (E' := props.marks_in_range); [|auto].
    eapply hoare_bind; [apply get_object_or_404_in_range|].
    intros [pk' stu]. cbn [fst snd]. apply hoare_assume. intros _.
    eapply hoare_bind; [apply AuditLog_objects_create_in_range|].
    intros ?. eapply hoare_bind; [apply Student_delete_in_range|].
    intros ?. apply hoare_ret. auto.
  - apply hoare_ret. auto.
Qed.


Lemma reads_students_in_range {A} (m : M A) :
  (forall db, students (m db).2 = students db) -> props.keeps_range m.
Proof.
  intros Hm db Hdb. specialize (Hm db).
  destruct (m db) as [[a|e] db']; simpl in Hm; intros pk stu; unfold props.in_range_after;
    rewrite ?Hm; try (intros pk' stu'; rewrite Hm); apply Hdb.
Qed.

Lemma check_auth_reads now request db : (utils.check_auth now request db).2 = db.
Proof.
  unfold utils.check_auth.
  destruct (COOKIES_session_token request) as [[|c r]|]; try reflexivity.
  unfold try_except, bind, models.SessionToken_objects_get.
  destruct (get _ _ _) as [[pk s]|e]; simpl.
  - destruct (negb _); reflexivity.
  - destruct e as [[]| | | | |]; reflexivity.
Qed.

Lemma require_authentication_in_range flag view now request :
  (forall teacher, props.keeps_range (view teacher request)) ->
  props.keeps_range (utils.require_authentication flag view now request).
Proof.
  intros Hview.
  assert (props.keeps_range (utils.check_auth now request)) as Hauth
    by (apply reads_students_in_range; intros db; now rewrite check_auth_reads).
  unfold utils.require_authentication, utils.authenticated_dispatch, utils.wrapper.
  destruct flag;
    (eapply hoare_bind; [exact Hauth|];
     intros [[] [teacher|]]; try apply Hview;
     destruct (utils.is_ajax request); apply hoare_ret; auto).
Qed.

Lemma LoginView_post_students `{Hashlib} `{Ipv6} now fresh_token request db :
  students (views.LoginView_post now fresh_token request db).2 = students db.
Proof.
  unfold views.LoginView_post.
  destruct (forms.LoginForm request) as [[username password]|errors]; [|reflexivity].
  unfold try_except, bind at 1, models.Teacher_objects_get.
  destruct (get _ _ _) as [[pk teacher]|e]; cbn [fst snd].
  - destruct (Teacher.check_password teacher password); [|reflexivity].
    unfold bind, models.create_token, bind, models.SessionToken_objects_filter_delete,
      models.SessionToken_objects_create, models.AuditLog_objects_create.
    cbn [sessions set_sessions].
    destruct (select _ _); [|reflexivity].
    cbn [fst snd AuditLog.ip_address].
    destruct (models.get_db_prep_value (utils.get_client_ip request)); reflexivity.
  - destruct e as [[]| | | | |]; reflexivity.
Qed.

Lemma LogoutView_post_students `{Ipv6} request db :
  students (views.LogoutView_post request db).2 = students db.
Proof.
  unfold views.LogoutView_post.
  destruct (COOKIES_session_token request) as [[|c r]|]; try reflexivity.
  unfold bind at 1, try_except, bind, models.SessionToken_objects_get,
    models.AuditLog_objects_create.
  destruct (get _ _ _) as [[pk s]|e]; cbn [fst snd AuditLog.ip_address].
  - destruct (models.get_db_prep_value (utils.get_client_ip request)); reflexivity.
  - destruct e as [[]| | | | |]; reflexivity.
Qed.

Lemma hoare_final {A} (m : M A) db :
  props.keeps_range m -> props.marks_in_range db -> props.marks_in_range (m db).2.
Proof.
  intros Hm Hdb. specialize (Hm db Hdb). now destruct (m db) as [[a|e] db'].
Qed.

Lemma run_in_range `{Hashlib} `{Ipv6} op db :
  props.marks_in_range db -> props.marks_in_range (props.run op db).
Proof.
  intros Hdb. destruct op as [now tok request|request|now request|now request|now request];
    unfold props.run.
  - intros pk stu. rewrite LoginView_post_students. apply Hdb.
  - intros pk stu. rewrite LogoutView_post_students. apply Hdb.
  - apply hoare_final; [|exact Hdb]. apply require_authentication_in_range.
    intros teacher. apply StudentCreateView_post_in_range.
  - apply hoare_final; [|exact Hdb]. apply require_authentication_in_range.
    intros teacher. apply StudentUpdateView_post_in_range.
  - apply hoare_final; [|exact Hdb]. apply require_authentication_in_range.
    intros teacher. apply StudentDeleteView_post_in_range.
Qed.

End marks_range.

(** C6: in every store the public operations (login, logout, add/merge,
    inline update, delete) can produce from one without students, every
    student's marks lie in [0, 100]. *)
Theorem marks_always_in_range `{Hashlib} `{Ipv6} (db : DB) :
  props.reachable db -> props.marks_in_range db.
Proof.
  induction 1 as [db Hempty|db op _ IH].
  - intros pk stu. rewrite Hempty, lookup_empty. discriminate.
  - now apply run_in_range.
Qed.

(** ** Sessions *)

Lemma token_hex_nonempty nbytes s :
  props.is_token_hex (S nbytes) s -> exists c r, s = c :: r.
Proof.
  intros [Hlen _]. destruct s as [|c r]; [simpl in Hlen; lia|eauto].
Qed.

Lemma check_auth_steps now request db c r :
  COOKIES_session_token request = Some (c :: r) ->
  utils.check_auth now request db
  = match get SessionTokenModel (models.has_token (c :: r)) (sessions db) with
    | Return session =>
        if negb (SessionToken.is_valid now session.2)
        then (Return (false, None), db)
        else (Return (true, Some (SessionToken.teacher session.2)), db)
    | Raise (DoesNotExist SessionTokenModel) => (Return (false, None), db)
    | Raise e => (Raise e, db)
    end.
Proof.
  intros Hcookie. unfold utils.check_auth. rewrite Hcookie.
  unfold try_except, bind, models.SessionToken_objects_get.
  destruct (get _ _ _) as [[pk s]|e]; cbn [fst snd].
  - destruct (negb _); reflexivity.
  - destruct e as [[]| | | | |]; reflexivity.
Qed.

Section create_token.

Variables (db : DB) (now : Z) (fresh_token : str) (teacher : Z).
Hypothesis Hfresh : props.no_collision fresh_token teacher db.

Lemma kept_other_teacher pk' s' :
  rows (props.kept_sessions teacher db) !! pk' = Some s' ->
  SessionToken.teacher s' <> teacher /\ SessionToken.token s' <> fresh_token.
Proof.
  intros Hl. apply delete_where_lookup in Hl as [Hl Hb].
  unfold models.of_teacher in Hb. simpl in Hb. apply bool_decide_eq_false in Hb.
  split; [exact Hb|]. exact (Hfresh pk' s' Hl Hb).
Qed.

Lemma create_token_returns :
  models.create_token now fresh_token teacher db
  = (Return (next_pk (sessions db), props.created_session now fresh_token teacher),
     props.after_create_token db now fresh_token teacher).
Proof.
  unfold models.create_token, bind, models.SessionToken_objects_filter_delete,
    models.SessionToken_objects_create.
  cbn [sessions set_sessions SessionToken.token].
  fold (props.kept_sessions teacher db).
  rewrite select_nil; [reflexivity|].
  intros pk' s' Hl. unfold models.has_token. simpl.
  apply bool_decide_eq_false. exact (proj2 (kept_other_teacher pk' s' Hl)).
Qed.

Lemma created_rows pk' s' :
  rows (sessions (props.after_create_token db now fresh_token teacher)) !! pk' = Some s' ->
  (pk' = next_pk (sessions db) /\ s' = props.created_session now fresh_token teacher)
  \/ (pk' <> next_pk (sessions db) /\ rows (props.kept_sessions teacher db) !! pk' = Some s').
Proof.
  unfold props.after_create_token. cbn [sessions set_sessions rows insert_row snd].
  rewrite lookup_insert_Some.
  intros [[<- <-]|[Hne Hl]]; [left|right]; auto.
Qed.

Lemma created_session_found :
  get SessionTokenModel (models.has_token fresh_token)
      (sessions (props.after_create_token db now fresh_token teacher))
  = Return (next_pk (sessions db), props.created_session now fresh_token teacher).
Proof.
  apply get_unique.
  - unfold props.after_create_token. cbn [sessions set_sessions rows insert_row snd].
    apply lookup_insert_eq.
  - unfold models.has_token. simpl. now apply bool_decide_eq_true.
  - intros pk' s' Hl HP. apply created_rows in Hl as [[-> _]|[_ Hl]]; [reflexivity|].
    apply kept_other_teacher in Hl as [_ Hl].
    unfold models.has_token in HP. simpl in HP. now apply bool_decide_eq_true in HP.
Qed.

Lemma created_session_only pk' s' :
  rows (sessions (props.after_create_token db now fresh_token teacher)) !! pk' = Some s' ->
  SessionToken.teacher s' = teacher ->
  pk' = next_pk (sessions db) /\ s' = props.created_session now fresh_token teacher.
Proof.
  intros Hl Ht. apply created_rows in Hl as [H|[_ Hl]]; [exact H|].
  apply kept_other_teacher in Hl as [Hl _]. contradiction.
Qed.

Lemma revoked_session_gone l :
  get SessionTokenModel (models.has_token fresh_token)
      (delete_row (next_pk (sessions db))
         (sessions (set_audit_logs l (props.after_create_token db now fresh_token teacher))))
  = Raise (DoesNotExist SessionTokenModel).
Proof.
  apply get_none. intros pk' s'. cbn [delete_row rows].
  rewrite lookup_delete_Some. intros [Hne Hl].
  change (sessions (set_audit_logs l ?d)) with (sessions d) in Hl.
  apply created_rows in Hl as [[-> _]|[_ Hl]]; [contradiction|].
  apply kept_other_teacher in Hl as [_ Hl].
  unfold models.has_token. simpl. now apply bool_decide_eq_false.
Qed.

Lemma created_single_session :
  props.single_session (sessions db) ->
  props.single_session (sessions (props.after_create_token db now fresh_token teacher)).
Proof.
  intros Hsingle pk1 s1 pk2 s2 H1 H2 Hsame.
  apply created_rows in H1 as [[-> ->]|[_ H1]], H2 as [[-> ->]|[_ H2]].
  - reflexivity.
  - apply kept_other_teacher in H2 as [H2 _]. now contradiction H2.
  - apply kept_other_teacher in H1 as [H1 _]. now contradiction H1.
  - apply delete_where_lookup in H1 as [H1 _], H2 as [H2 _]. eauto.
Qed.

End create_token.

(** C7: a token created for a teacher (a fresh [token_hex(32)] value that
    no other teacher's session carries) expires 8 hours after its creation;
    the gate accepts it at the creation time and at every time strictly
    before the expiry, refuses it at the expiry and after, and refuses it
    after a logout has deleted it; after the creation the new row is the
    teacher's only session, and no teacher has two sessions if none had
    before. *)
Theorem session_token_lifecycle `{Ipv6} (db : DB) (now : Z) (fresh_token : str) (teacher : Z) :
  props.is_token_hex 32 fresh_token ->
  props.no_collision fresh_token teacher db ->
  exists pk session db',
    models.create_token now fresh_token teacher db = (Return (pk, session), db')
    /\ SessionToken.token session = fresh_token
    /\ SessionToken.expires_at session = now + 8 * 3600 * 1000000
    /\ (forall request,
          COOKIES_session_token request = Some fresh_token ->
          utils.check_auth now request db' = (Return (true, Some teacher), db'))
    /\ (forall request t,
          COOKIES_session_token request = Some fresh_token ->
          t < SessionToken.expires_at session ->
          utils.check_auth t request db' = (Return (true, Some teacher), db'))
    /\ (forall request t,
          COOKIES_session_token request = Some fresh_token ->
          SessionToken.expires_at session <= t ->
          utils.check_auth t request db' = (Return (false, None), db'))
    /\ (forall logout request t,
          COOKIES_session_token logout = Some fresh_token ->
          props.recordable (utils.get_client_ip logout) = true ->
          COOKIES_session_token request = Some fresh_token ->
          exists db'',
            views.LogoutView_post logout db'
            = (Return (redirect "login" (delete_cookie "session_token")), db'')
            /\ utils.check_auth t request db'' = (Return (false, None), db''))
    /\ (forall pk' s',
          rows (sessions db') !! pk' = Some s' ->
          SessionToken.teacher s' = teacher ->
          pk' = pk /\ s' = session)
    /\ (props.single_session (sessions db) -> props.single_session (sessions db')).
Proof.
  intros Hhex Hfresh. destruct (token_hex_nonempty _ _ Hhex) as (c & r & Htok).
  set (db' := props.after_create_token db now fresh_token teacher).
  exists (next_pk (sessions db)), (props.created_session now fresh_token teacher), db'.
  split; [apply (create_token_returns db now fresh_token teacher Hfresh)|].
  split; [reflexivity|]. split; [reflexivity|].
  pose proof (created_session_found db now fresh_token teacher Hfresh) as Hfound.
  fold db' in Hfound.
  assert (forall request t,
            COOKIES_session_token request = Some fresh_token ->
            utils.check_auth t request db'
            = if t <? now + 8 * 3600 * 1000000
              then (Return (true, Some teacher), db')
              else (Return (false, None), db')) as Hcheck.
  { intros request t Hcookie. rewrite Htok in Hcookie.
    rewrite (check_auth_steps _ _ _ _ _ Hcookie), <- Htok, Hfound.
    cbn [snd]. unfold SessionToken.is_valid, props.created_session.
    cbn [SessionToken.expires_at SessionToken.teacher].
    unfold SessionToken.timedelta_hours.
    now destruct (t <? now + 8 * 3600 * 1000000). }
  cbn [props.created_session SessionToken.expires_at].
  unfold SessionToken.timedelta_hours.
  split.
  { intros request Hcookie. rewrite (Hcheck request now Hcookie).
    destruct (Z.ltb_spec now (now + 8 * 3600 * 1000000)); [reflexivity|lia]. }
  split.
  { intros request t Hcookie Ht. rewrite (Hcheck request t Hcookie).
    destruct (Z.ltb_spec t (now + 8 * 3600 * 1000000)); [reflexivity|lia]. }
  split.
  { intros request t Hcookie Ht. rewrite (Hcheck request t Hcookie).
    destruct (Z.ltb_spec t (now + 8 * 3600 * 1000000)); [lia|reflexivity]. }
  split.
  { intros logout request t Hlogout Hip Hcookie.
    unfold views.LogoutView_post. rewrite Hlogout, Htok.
    unfold bind at 1, try_except, bind at 1, models.SessionToken_objects_get.
    rewrite <- Htok, Hfound. cbn [fst snd].
    unfold bind at 1. rewrite AuditLog_objects_create_recordable by exact Hip.
    unfold models.SessionToken_delete, ret.
    eexists. split; [reflexivity|].
    rewrite Htok in Hcookie.
    rewrite (check_auth_steps _ _ _ _ _ Hcookie), <- Htok.
    cbn [sessions set_sessions].
    now rewrite (revoked_session_gone db now fresh_token teacher Hfresh). }
  split; [intros pk' s'; apply (created_session_only db now fresh_token teacher Hfresh)|].
  apply (created_single_session db now fresh_token teacher Hfresh).
Qed.

(** ** The authentication gate *)

Lemma check_auth_rejected db now request cause :
  props.rejected_for db now request cause ->
  utils.check_auth now request db = (Return (false, None), db).
Proof.
  destruct cause; simpl.
  - intros [Hcookie|Hcookie]; unfold utils.check_auth; now rewrite Hcookie.
  - intros (token & Hcookie & Hne & Hnone).
    destruct token as [|c r]; [contradiction|].
    rewrite (check_auth_steps _ _ _ _ _ Hcookie), get_none; [reflexivity|].
    intros pk s Hl. unfold models.has_token. simpl.
    apply bool_decide_eq_false. eauto.
  - intros (token & pk & s & Hcookie & Hne & Hl & Htoken & Huniq & Hexpired).
    destruct token as [|c r]; [contradiction|].
    rewrite (check_auth_steps _ _ _ _ _ Hcookie), (get_unique _ _ _ pk s Hl).
    + cbn [snd]. unfold SessionToken.is_valid.
      destruct (Z.ltb_spec now (SessionToken.expires_at s)); [lia|reflexivity].
    + unfold models.has_token. simpl. now apply bool_decide_eq_true.
    + intros pk' s' Hl' HP. unfold models.has_token in HP. simpl in HP.
      apply bool_decide_eq_true in HP. eauto.
Qed.

Lemma require_authentication_rejects flag view db now request cause :
  props.rejected_for db now request cause ->
  utils.require_authentication flag view now request db
  = (Return (props.rejection_response (utils.is_ajax request)), db).
Proof.
  intros Hrej. apply check_auth_rejected in Hrej.
  unfold utils.require_authentication, utils.authenticated_dispatch, utils.wrapper.
  destruct flag; unfold bind; rewrite Hrej; unfold props.rejection_response;
    now destruct (utils.is_ajax request).
Qed.

(** C9: two requests the gate turns down, each for any of the three causes
    (no token, unknown token, expired token), get the same response when
    they come from the same kind of caller: the 401 body
    [{'error': 'Authentication required'}] for an AJAX caller, the redirect
    to [login] otherwise; the store is not touched. *)
Theorem gate_rejections_indistinguishable (flag : bool) (view : utils.View)
    (db1 db2 : DB) (now1 now2 : Z) (request1 request2 : HttpRequest)
    (cause1 cause2 : props.rejection_cause) :
  props.rejected_for db1 now1 request1 cause1 ->
  props.rejected_for db2 now2 request2 cause2 ->
  utils.is_ajax request1 = utils.is_ajax request2 ->
  (utils.require_authentication flag view now1 request1 db1).1
  = (utils.require_authentication flag view now2 request2 db2).1
  /\ utils.require_authentication flag view now1 request1 db1
     = (Return (props.rejection_response (utils.is_ajax request1)), db1)
  /\ utils.require_authentication flag view now2 request2 db2
     = (Return (props.rejection_response (utils.is_ajax request2)), db2).
Proof.
  intros H1 H2 Hkind.
  rewrite (require_authentication_rejects flag view db1 now1 request1 cause1 H1),
    (require_authentication_rejects flag view db2 now2 request2 cause2 H2).
  rewrite Hkind. auto.
Qed.

(** ** Login *)

Lemma lstrip_idempotent s : lstrip (lstrip s) = lstrip s.
Proof.
  induction s as [|c r IH]; [reflexivity|]. simpl.
  destruct (isspace c) eqn:Hc; [exact IH|]. simpl. now rewrite Hc.
Qed.

Lemma lstrip_app_nonspace s c :
  isspace c = false -> lstrip (s ++ [c]) = lstrip s ++ [c].
Proof.
  intros Hc. induction s as [|d r IH]; simpl.
  - now rewrite Hc.
  - destruct (isspace d); [exact IH|reflexivity].
Qed.

Lemma rstrip_cons_nonspace c s :
  isspace c = false -> rstrip (c :: s) = c :: rstrip s.
Proof.
  intros Hc. unfold rstrip. simpl.
  now rewrite lstrip_app_nonspace, rev_app_distr.
Qed.

Lemma lstrip_head s : lstrip s = [] \/ exists c r, lstrip s = c :: r /\ isspace c = false.
Proof.
  induction s as [|c r IH]; [now left|]. simpl.
  destruct (isspace c) eqn:Hc; [exact IH|]. right. eauto.
Qed.

Lemma strip_idempotent s : strip (strip s) = strip s.
Proof.
  unfold strip at 2 3.
  destruct (lstrip_head s) as [->|(c & r & -> & Hc)]; [reflexivity|].
  rewrite (rstrip_cons_nonspace c r Hc). unfold strip. simpl. rewrite Hc.
  rewrite <- (rstrip_cons_nonspace c r Hc). unfold rstrip.
  now rewrite rev_involutive, lstrip_idempotent.
Qed.

Lemma CharField_clean_cases max_length value :
  (exists m msgs, forms.CharField_clean max_length value = forms.FieldErrors (m :: msgs))
  \/ (forms.CharField_clean max_length value = forms.Cleaned (strip (default [] value))
      /\ strip (default [] value) <> []).
Proof.
  unfold forms.CharField_clean.
  destruct (decide (strip (default [] value) = [])) as [E|E].
  - rewrite (bool_decide_eq_true_2 _ E). left. eauto.
  - rewrite (bool_decide_eq_false_2 _ E).
    destruct (_ ++ _) as [|m msgs]; [right; auto|left; eauto].
Qed.

Lemma username_field_cases request :
  (exists m msgs,
     forms.clean_field (forms.CharField_clean (Some 100%nat)) forms.clean_username
       (POST_username request) = forms.FieldErrors (m :: msgs))
  \/ (forms.clean_field (forms.CharField_clean (Some 100%nat)) forms.clean_username
        (POST_username request) = forms.Cleaned (props.submitted_username request)
      /\ (3 <= length (props.submitted_username request))%nat).
Proof.
  unfold forms.clean_field.
  destruct (CharField_clean_cases (Some 100%nat) (POST_username request))
    as [(m & msgs & ->)|[-> Hne]]; [left; eauto|].
  unfold forms.clean_username, props.submitted_username.
  destruct (strip (default [] (POST_username request))) as [|c r] eqn:E;
    [contradiction|].
  rewrite <- E, strip_idempotent.
  destruct (Nat.ltb_spec
              (length (html_escape (strip (default [] (POST_username request))))) 3);
    [left; eauto|right; auto].
Qed.

Lemma password_field_cases request :
  (exists m msgs,
     forms.clean_field (forms.CharField_clean None) forms.clean_password
       (POST_password request) = forms.FieldErrors (m :: msgs))
  \/ (exists password,
        forms.clean_field (forms.CharField_clean None) forms.clean_password
          (POST_password request) = forms.Cleaned password
        /\ (6 <= length password <= length (props.submitted_password request))%nat).
Proof.
  unfold forms.clean_field.
  destruct (CharField_clean_cases None (POST_password request))
    as [(m & msgs & ->)|[-> Hne]]; [left; eauto|].
  unfold forms.clean_password, props.submitted_password.
  pose proof (strip_length (default [] (POST_password request))) as Hlen.
  destruct (strip (default [] (POST_password request))) as [|c r] eqn:E;
    [contradiction|].
  destruct (Nat.ltb_spec (length (c :: r)) 6); [left; eauto|right].
  eexists. split; [reflexivity|]. lia.
Qed.

Lemma LoginForm_cases request :
  (exists e errors, forms.LoginForm request = inr (e :: errors))
  \/ (exists password,
        forms.LoginForm request = inl (props.submitted_username request, password)
        /\ (3 <= length (props.submitted_username request))%nat
        /\ (6 <= length password <= length (props.submitted_password request))%nat).
Proof.
  unfold forms.LoginForm.
  destruct (username_field_cases request) as [(m & msgs & ->)|[-> Hu]];
    destruct (password_field_cases request) as [(m' & msgs' & ->)|(p & -> & Hp)];
    simpl; eauto 10.
Qed.

(** C10: a login whose username, trimmed and HTML-escaped, has fewer than 3
    characters, or whose password has fewer than 6, is answered with the
    login form and its validation errors, whatever the store holds and
    without changing it; and when every password a teacher's stored hash
    accepts has fewer than 6 characters, no login under that teacher's
    username authenticates. *)
Theorem login_rejects_short_credentials `{Hashlib} `{Ipv6} (now : Z) (fresh_token : str)
    (request : HttpRequest) :
  ((length (props.submitted_username request) < 3)%nat
   \/ (length (props.submitted_password request) < 6)%nat ->
   exists e errors,
     forms.LoginForm request = inr (e :: errors)
     /\ forall db,
          views.LoginView_post now fresh_token request db
          = (Return (render views.login_template (e :: errors)), db))
  /\ (forall db,
        (forall pk teacher password,
           rows (teachers db) !! pk = Some teacher ->
           Teacher.username teacher = props.submitted_username request ->
           Teacher.check_password teacher password = true ->
           (length password < 6)%nat) ->
        ~ props.authenticates (views.LoginView_post now fresh_token request db).1
        /\ (views.LoginView_post now fresh_token request db).2 = db).
Proof.
  split.
  - intros Hshort.
    destruct (LoginForm_cases request) as [(e & errors & Hform)|(p & Hform & Hu & Hp)];
      [|lia].
    exists e, errors. split; [exact Hform|].
    intros db. unfold views.LoginView_post. now rewrite Hform.
  - intros db Hweak.
    assert (exists out, views.LoginView_post now fresh_token request db = (out, db)
                        /\ ~ props.authenticates out) as (out & -> & Hout);
      [|split; [exact Hout|reflexivity]].
    unfold views.LoginView_post, props.authenticates.
    destruct (LoginForm_cases request) as [(e & errors & ->)|(p & -> & Hu & Hp)].
    + eexists. split; [reflexivity|]. intros [cookie [=]].
    + unfold try_except, bind at 1, models.Teacher_objects_get.
      destruct (get _ _ _) as [[pk teacher]|e] eqn:Hget; cbn [fst snd].
      * apply get_Return in Hget as [Hl Hname]. simpl in Hname.
        apply bool_decide_eq_true in Hname.
        destruct (Teacher.check_password teacher p) eqn:Hcheck.
        -- specialize (Hweak pk teacher p Hl Hname Hcheck). lia.
        -- eexists. split; [reflexivity|]. intros [cookie [=]].
      * destruct e as [[]| | | | |];
          (eexists; split; [reflexivity|]; intros [cookie [=]]).
Qed.

(** ** Mutation and audit entry together *)

Lemma AuditLog_objects_create_cases `{Ipv6} r db :
  models.AuditLog_objects_create r db = (Raise IntegrityError, db)
  \/ models.AuditLog_objects_create r db
     = (Return tt, set_audit_logs (audit_logs db ++ [props.stored r]) db).
Proof.
  destruct (props.recordable (AuditLog.ip_address r)) eqn:Hip.
  - right. now apply AuditLog_objects_create_recordable.
  - left. now apply AuditLog_objects_create_unrecordable.
Qed.

Ltac audit_cases :=
  match goal with
  | |- context [models.AuditLog_objects_create ?r ?d] =>
      destruct (AuditLog_objects_create_cases r d) as [-> | ->]
  end.

Ltac settled :=
  intros [= <- <-]; first [left; reflexivity | right; eexists; reflexivity].

Lemma StudentCreateView_post_all_or_nothing `{Ipv6} teacher request :
  props.all_or_nothing (views.StudentCreateView_post teacher request).
Proof.
  intros db out db'. unfold views.StudentCreateView_post.
  destruct (serializers.StudentCreateUpdateSerializer request) as [data|errors];
    [|settled].
  unfold try_except at 1, atomic, bind at 1, serializers.create, try_except, bind at 1,
    models.Student_objects_get.
  destruct (get _ _ _) as [[pk stu]|e]; cbn [fst snd].
  - destruct (utils.calculate_new_marks _ _) as [[[] total] message];
      cbn [negb]; cbv beta iota; [|settled].
    unfold bind at 1, models.Student_save, bind at 1.
    audit_cases; settled.
  - destruct e as [[]| | | | |]; try settled.
    unfold bind at 1, models.Student_objects_create.
    destruct (select _ _); [|settled].
    cbn [insert_row fst snd]. unfold bind at 1.
    audit_cases; settled.
Qed.

Lemma StudentUpdateView_post_all_or_nothing `{Ipv6} teacher request :
  props.all_or_nothing (views.StudentUpdateView_post teacher request).
Proof.
  intros db out db'. unfold views.StudentUpdateView_post.
  destruct (serializers.MarksUpdateSerializer request) as [data|errors]; [|settled].
  unfold try_except at 1, atomic, bind at 1, models.get_object_or_404, try_except,
    models.Student_objects_get_by_id.
  destruct (get _ _ _) as [[pk stu]|e]; cbn [fst snd].
  - unfold bind at 1, models.Student_save, bind at 1.
    audit_cases; settled.
  - destruct e as [[]| | | | |]; settled.
Qed.

Lemma StudentDeleteView_post_all_or_nothing `{Ipv6} teacher request :
  props.all_or_nothing (views.StudentDeleteView_post teacher request).
Proof.
  intros db out db'. unfold views.StudentDeleteView_post.
  destruct (serializers.StudentDeleteSerializer request) as [id|errors]; [|settled].
  unfold try_except at 1, atomic, bind at 1, models.get_object_or_404, try_except,
    models.Student_objects_get_by_id.
  destruct (get _ _ _) as [[pk stu]|e]; cbn [fst snd].
  - unfold bind at 1.
    audit_cases; settled.
  - destruct e as [[]| | | | |]; settled.
Qed.

Lemma LogoutView_post_all_or_nothing `{Ipv6} request :
  props.all_or_nothing (views.LogoutView_post request).
Proof.
  intros db out db'. unfold views.LogoutView_post.
  destruct (COOKIES_session_token request) as [[|c r]|]; try settled.
  unfold bind at 1, try_except, bind at 1, models.SessionToken_objects_get.
  destruct (get _ _ _) as [[pk s]|e]; cbn [fst snd].
  - unfold bind at 1. audit_cases; settled.
  - destruct e as [[]| | | | |]; settled.
Qed.

Section failing_inputs.

#[local] Existing Instance samples.sample_addresses.

(** C2 at a failing input: alice, who holds a session, logs in again with
    valid credentials and the header [X-Forwarded-For: ,] (or from a
    connection that gives no client address).  The view raises
    [IntegrityError] when it writes the audit entry; by then her previous
    session is deleted and the new one stored, and the audit log has no
    entry for it. *)
Theorem login_commits_session_without_audit :
  let db := samples.db_logged_in in
  let result :=
    @views.LoginView_post samples.plain_hash samples.sample_addresses 5 samples.token_b
      (samples.login_request_no_address "alice" "secret1") db in
  let result' :=
    @views.LoginView_post samples.plain_hash samples.sample_addresses 5 samples.token_b
      (samples.login_request_unaddressed "alice" "secret1") db in
  result.1 = Raise IntegrityError
  /\ select (models.has_token samples.token_a) (sessions db)
     = [(1, props.created_session 0 samples.token_a 1)]
  /\ select (models.has_token samples.token_a) (sessions result.2) = []
  /\ select (models.has_token samples.token_b) (sessions result.2)
     = [(2, props.created_session 5 samples.token_b 1)]
  /\ audit_logs result.2 = audit_logs db
  /\ result' = result.
Proof. vm_compute. repeat split. Qed.

(** C5 at failing inputs: deleting or updating an id that does not exist
    (99), or one that belongs to another teacher (student 1 of teacher 1,
    asked for by teacher 2), is answered with status 500 and a generic
    failure message, not with a not-found result; the store is unchanged. *)
Theorem unowned_id_is_server_error :
  let db := samples.db_bob in
  let failed message :=
    Response [("success"%string, JBool false); ("error"%string, JStr (lit message))]
             HTTP_500_INTERNAL_SERVER_ERROR in
  views.StudentDeleteView_post 1 (samples.delete_request 99) db
  = (Return (failed "Failed to delete student"), db)
  /\ views.StudentDeleteView_post 2 (samples.delete_request 1) db
     = (Return (failed "Failed to delete student"), db)
  /\ views.StudentUpdateView_post 1 (samples.update_request 99 50) db
     = (Return (failed "Failed to update marks"), db)
  /\ views.StudentUpdateView_post 2 (samples.update_request 1 50) db
     = (Return (failed "Failed to update marks"), db)
  /\ HTTP_500_INTERNAL_SERVER_ERROR <> HTTP_404_NOT_FOUND.
Proof. vm_compute. repeat split. discriminate. Qed.

End failing_inputs.

(** ** The store's uniqueness constraints *)

Ltac changed :=
  intros [= <- <-]; cbn [students sessions set_students set_audit_logs];
  split; [eauto using props.students_change|reflexivity].

Lemma StudentCreateView_post_change `{Ipv6} teacher request db out db' :
  views.StudentCreateView_post teacher request db = (out, db') ->
  props.students_change (students db) (students db') /\ sessions db' = sessions db.
Proof.
  unfold views.StudentCreateView_post.
  destruct (serializers.StudentCreateUpdateSerializer request) as [data|errors];
    [|changed].
  unfold try_except at 1, atomic, bind at 1, serializers.create, try_except, bind at 1,
    models.Student_objects_get.
  destruct (get _ _ _) as [[pk stu]|e] eqn:Hget; cbn [fst snd].
  - apply get_Return in Hget as [Hrow _].
    destruct (utils.calculate_new_marks _ _) as [[[] total] message];
      cbn [negb]; cbv beta iota; [|changed].
    unfold bind at 1, models.Student_save, bind at 1.
    audit_cases; [changed|].
    intros [= <- <-]. cbn [students sessions set_students set_audit_logs].
    split; [exact (props.change_marks _ pk stu total Hrow)|reflexivity].
  - destruct e as [[]| | | | |]; try changed.
    unfold bind at 1, models.Student_objects_create.
    destruct (select _ _) eqn:Hfree; [|changed].
    cbn [insert_row fst snd]. unfold bind at 1.
    audit_cases; [changed|].
    intros [= <- <-]. cbn [students sessions set_students set_audit_logs].
    split; [|reflexivity].
    match goal with |- props.students_change ?t {| rows := <[_ := ?r]> _ |} =>
      exact (props.change_insert t r Hfree) end.
Qed.

Lemma StudentUpdateView_post_change `{Ipv6} teacher request db out db' :
  views.StudentUpdateView_post teacher request db = (out, db') ->
  props.students_change (students db) (students db') /\ sessions db' = sessions db.
Proof.
  unfold views.StudentUpdateView_post.
  destruct (serializers.MarksUpdateSerializer request) as [data|errors]; [|changed].
  unfold try_except at 1, atomic, bind at 1, models.get_object_or_404, try_except,
    models.Student_objects_get_by_id.
  destruct (get _ _ _) as [[pk stu]|e] eqn:Hget; cbn [fst snd].
  - apply get_Return in Hget as [Hrow _].
    unfold bind at 1, models.Student_save, bind at 1.
    audit_cases; [changed|].
    intros [= <- <-]. cbn [students sessions set_students set_audit_logs].
    split; [exact (props.change_marks _ pk stu _ Hrow)|reflexivity].
  - destruct e as [[]| | | | |]; changed.
Qed.

Lemma StudentDeleteView_post_change `{Ipv6} teacher request db out db' :
  views.StudentDeleteView_post teacher request db = (out, db') ->
  props.students_change (students db) (students db') /\ sessions db' = sessions db.
Proof.
  unfold views.StudentDeleteView_post.
  destruct (serializers.StudentDeleteSerializer request) as [id|errors]; [|changed].
  unfold try_except at 1, atomic, bind at 1, models.get_object_or_404, try_except,
    models.Student_objects_get_by_id.
  destruct (get _ _ _) as [[pk stu]|e]; cbn [fst snd].
  - unfold bind at 1. audit_cases; changed.
  - destruct e as [[]| | | | |]; changed.
Qed.

Lemma require_authentication_change flag view now request db :
  (forall teacher db out db',
     view teacher request db = (out, db') ->
     props.students_change (students db) (students db') /\ sessions db' = sessions db) ->
  props.students_change (students db)
    (students (utils.require_authentication flag view now request db).2)
  /\ sessions (utils.require_authentication flag view now request db).2 = sessions db.
Proof.
  intros Hview.
  destruct (utils.require_authentication flag view now request db) as [out db'] eqn:E.
  revert E.
  unfold utils.require_authentication, utils.authenticated_dispatch, utils.wrapper.
  pose proof (check_auth_reads now request db) as Hreads.
  destruct flag; unfold bind;
    (destruct (utils.check_auth now request db) as [[[[] [teacher|]]|e] db1];
     simpl in Hreads; subst db1; try apply Hview;
     try destruct (utils.is_ajax request); changed).
Qed.

Lemma students_change_unique t t' :
  props.students_change t t' -> props.unique_together t -> props.unique_together t'.
Proof.
  intros [|pk stu marks Hrow|r Hfree|pk] Huniq; [exact Huniq| | |];
    intros pk1 r1 pk2 r2; cbn [update_row insert_row delete_row rows snd].
  - rewrite !lookup_insert_Some.
    intros [[<- <-]|[Hne1 H1]] [[<- <-]|[Hne2 H2]] Hn Hs Ht; simpl in *; eauto.
  - assert (forall pk' r', rows t !! pk' = Some r' ->
              Student.name r = Student.name r' ->
              Student.subject r = Student.subject r' ->
              Student.teacher r = Student.teacher r' -> False) as Hnone.
    { intros pk' r' Hl Hn Hs Ht.
      assert (In (pk', r') (select (models.same_identity (Student.name r)
                (Student.subject r) (Student.teacher r)) t)) as Hin;
        [|rewrite Hfree in Hin; exact Hin].
      apply select_In. split; [exact Hl|]. unfold models.same_identity. simpl.
      now rewrite !bool_decide_eq_true_2. }
    rewrite !lookup_insert_Some.
    intros [[E1 <-]|[Hne1 H1]] [[E2 <-]|[Hne2 H2]] Hn Hs Ht.
    + congruence.
    + exfalso. eauto.
    + exfalso. eauto.
    + eauto.
  - rewrite !lookup_delete_Some. intros [_ H1] [_ H2]. eauto.
Qed.

Lemma delete_where_unique_token P t :
  props.unique_token t -> props.unique_token (delete_where P t).
Proof.
  intros Huniq pk1 s1 pk2 s2 H1 H2.
  apply delete_where_lookup in H1 as [H1 _], H2 as [H2 _]. eauto.
Qed.

Lemma delete_row_unique_token pk t :
  props.unique_token t -> props.unique_token (delete_row pk t).
Proof.
  intros Huniq pk1 s1 pk2 s2. cbn [delete_row rows].
  rewrite !lookup_delete_Some. intros [_ H1] [_ H2]. eauto.
Qed.

Lemma insert_row_unique_token s t :
  select (models.has_token (SessionToken.token s)) t = [] ->
  props.unique_token t -> props.unique_token (insert_row s t).2.
Proof.
  intros Hfree Huniq.
  assert (forall pk' s', rows t !! pk' = Some s' ->
            SessionToken.token s' = SessionToken.token s -> False) as Hnone.
  { intros pk' s' Hl Htok.
    assert (In (pk', s') (select (models.has_token (SessionToken.token s)) t)) as Hin;
      [|rewrite Hfree in Hin; exact Hin].
    apply select_In. split; [exact Hl|]. unfold models.has_token. simpl.
    now apply bool_decide_eq_true. }
  intros pk1 s1 pk2 s2. cbn [insert_row rows snd]. rewrite !lookup_insert_Some.
  intros [[E1 <-]|[Hne1 H1]] [[E2 <-]|[Hne2 H2]] Htok.
  - congruence.
  - exfalso. eauto.
  - exfalso. eauto.
  - eauto.
Qed.

Lemma create_token_unique_token now fresh_token teacher db :
  props.unique_token (sessions db) ->
  props.unique_token (sessions (models.create_token now fresh_token teacher db).2).
Proof.
  intros Huniq.
  unfold models.create_token, bind, models.SessionToken_objects_filter_delete,
    models.SessionToken_objects_create.
  cbn [sessions set_sessions SessionToken.token].
  destruct (select _ _) eqn:Hfree; cbn [snd sessions set_sessions].
  - apply (insert_row_unique_token (props.created_session now fresh_token teacher) _ Hfree).
    apply delete_where_unique_token, Huniq.
  - apply delete_where_unique_token, Huniq.
Qed.

Lemma LoginView_post_unique_token `{Hashlib} `{Ipv6} now fresh_token request db :
  props.unique_token (sessions db) ->
  props.unique_token (sessions (views.LoginView_post now fresh_token request db).2).
Proof.
  intros Huniq. unfold views.LoginView_post.
  destruct (forms.LoginForm request) as [[username password]|errors]; [|exact Huniq].
  unfold try_except, bind at 1, models.Teacher_objects_get.
  destruct (get _ _ _) as [[pk teacher]|e]; cbn [fst snd].
  - destruct (Teacher.check_password teacher password); [|exact Huniq].
    unfold bind at 1.
    pose proof (create_token_unique_token now fresh_token pk db Huniq) as Hnew.
    destruct (models.create_token now fresh_token pk db) as [[session|e] db1];
      cbn [snd] in Hnew; [|destruct e as [[]| | | | |]; exact Hnew].
    unfold bind. audit_cases; exact Hnew.
  - destruct e as [[]| | | | |]; exact Huniq.
Qed.

Lemma LogoutView_post_unique_token `{Ipv6} request db :
  props.unique_token (sessions db) ->
  props.unique_token (sessions (views.LogoutView_post request db).2).
Proof.
  intros Huniq. unfold views.LogoutView_post.
  destruct (COOKIES_session_token request) as [[|c r]|]; try exact Huniq.
  unfold bind at 1, try_except, bind at 1, models.SessionToken_objects_get.
  destruct (get _ _ _) as [[pk s]|e]; cbn [fst snd].
  - unfold bind at 1. audit_cases; [exact Huniq|].
    cbn. now apply delete_row_unique_token.
  - destruct e as [[]| | | | |]; exact Huniq.
Qed.

(** Every public operation keeps both uniqueness constraints. *)
Lemma run_keeps_constraints `{Hashlib} `{Ipv6} op db :
  props.unique_together (students db) -> props.unique_token (sessions db) ->
  props.unique_together (students (props.run op db))
  /\ props.unique_token (sessions (props.run op db)).
Proof.
  intros Hstu Hses.
  destruct op as [now tok request|request|now request|now request|now request];
    unfold props.run.
  - rewrite LoginView_post_students. split; [exact Hstu|].
    now apply LoginView_post_unique_token.
  - rewrite LogoutView_post_students. split; [exact Hstu|].
    now apply LogoutView_post_unique_token.
  - destruct (require_authentication_change false views.StudentCreateView_post
                now request db) as [Hc Hs];
      [intros ? ? ? ?; apply StudentCreateView_post_change|].
    unfold views.add_student. rewrite Hs.
    split; [exact (students_change_unique _ _ Hc Hstu)|exact Hses].
  - destruct (require_authentication_change false views.StudentUpdateView_post
                now request db) as [Hc Hs];
      [intros ? ? ? ?; apply StudentUpdateView_post_change|].
    unfold views.update_marks. rewrite Hs.
    split; [exact (students_change_unique _ _ Hc Hstu)|exact Hses].
  - destruct (require_authentication_change false views.StudentDeleteView_post
                now request db) as [Hc Hs];
      [intros ? ? ? ?; apply StudentDeleteView_post_change|].
    unfold views.delete_student. rewrite Hs.
    split; [exact (students_change_unique _ _ Hc Hstu)|exact Hses].
Qed.

(** No reachable store holds two students with the same name, subject and
    teacher. *)
Lemma reachable_unique_together `{Hashlib} `{Ipv6} db :
  props.reachable db -> props.unique_together (students db).
Proof.
  induction 1 as [db Hempty|db op _ IH].
  - intros pk1 r1 pk2 r2 H1. rewrite Hempty, lookup_empty in H1. discriminate.
  - destruct op as [now tok request|request|now request|now request|now request];
      unfold props.run.
    + now rewrite LoginView_post_students.
    + now rewrite LogoutView_post_students.
    + apply (students_change_unique (students db)); [|exact IH].
      apply (require_authentication_change false views.StudentCreateView_post).
      intros ? ? ? ?. apply StudentCreateView_post_change.
    + apply (students_change_unique (students db)); [|exact IH].
      apply (require_authentication_change false views.StudentUpdateView_post).
      intros ? ? ? ?. apply StudentUpdateView_post_change.
    + apply (students_change_unique (students db)); [|exact IH].
      apply (require_authentication_change false views.StudentDeleteView_post).
      intros ? ? ? ?. apply StudentDeleteView_post_change.
Qed.

(** ** The properties on the sample data *)

Section sample_data.

#[local] Existing Instance samples.sample_addresses.

Lemma db_bob_students : rows (students samples.db_bob) = {[ 1 := samples.bob ]}.
Proof. vm_compute. reflexivity. Qed.

Lemma db_bob_unique : props.unique_together (students samples.db_bob).
Proof.
  intros pk1 r1 pk2 r2 H1 H2 _ _ _. rewrite db_bob_students in H1, H2.
  apply lookup_singleton_Some in H1 as [<- _], H2 as [<- _]. reflexivity.
Qed.

Lemma merge_over_cap_leaves_store_witness :
  rows (students samples.db_bob) !! 1 = Some samples.bob
  /\ Student.marks samples.bob + 40 > 100
  /\ exists response db',
       views.StudentCreateView_post 1 (samples.add_request "Bob" "Math" 40) samples.db_bob
       = (Return response, db')
       /\ props.is_error response = true
       /\ rows (students db') !! 1 = Some samples.bob
       /\ audit_logs db' = audit_logs samples.db_bob
       /\ db' = samples.db_bob.
Proof.
  split; [reflexivity|]. split; [simpl; lia|].
  apply (merge_over_cap_leaves_store samples.db_bob 1 _ 1 samples.bob 40).
  - reflexivity.
  - reflexivity.
  - exact db_bob_unique.
  - split; reflexivity.
  - reflexivity.
  - simpl. lia.
Defined.

Lemma inline_update_overwrites_witness :
  rows (students samples.db_bob) !! 1 = Some samples.bob
  /\ exists db',
       views.StudentUpdateView_post 1 (samples.update_request 1 95) samples.db_bob
       = (Return (Response [("success"%string, JBool true);
                            ("message"%string, JStr (lit "Marks updated successfully"))]
                           200), db')
       /\ rows (students db') !! 1 = Some (props.with_marks samples.bob 95)
       /\ (Student.marks samples.bob <> 0 ->
           Student.marks <$> rows (students db') !! 1
           <> Some (Student.marks samples.bob + 95)).
Proof.
  split; [reflexivity|].
  apply (inline_update_overwrites samples.db_bob 1 _ 1 samples.bob 95).
  - reflexivity.
  - reflexivity.
  - reflexivity.
  - reflexivity.
  - lia.
  - reflexivity.
Defined.

(** C4, as stated: bob is a student of teacher 1 and 95 is a valid mark, but
    the inline update sent with the header [X-Forwarded-For: ,] is answered
    with status 500 and the stored marks stay 70: the audit entry cannot
    be written, and the update is rolled back with it. *)
Lemma inline_update_without_address_keeps_marks :
  rows (students samples.db_bob) !! 1 = Some samples.bob
  /\ Student.teacher samples.bob = 1
  /\ serializers.MarksUpdateSerializer (samples.update_request_no_address 1 95)
     = inl {| serializers.v_student_id := 1; serializers.v_new_marks := 95 |}
  /\ views.StudentUpdateView_post 1 (samples.update_request_no_address 1 95)
       samples.db_bob
     = (Return (props.failed "Failed to update marks"), samples.db_bob)
  /\ Student.marks
       <$> rows (students (views.StudentUpdateView_post 1
                             (samples.update_request_no_address 1 95)
                             samples.db_bob).2) !! 1
     <> Some 95.
Proof.
  assert (views.StudentUpdateView_post 1 (samples.update_request_no_address 1 95)
            samples.db_bob
          = (Return (props.failed "Failed to update marks"), samples.db_bob))
    as Hresult.
  { apply (inline_update_rolled_back samples.db_bob 1 _ 1 samples.bob 95);
      [now rewrite db_bob_students|reflexivity|reflexivity|reflexivity|lia|reflexivity]. }
  rewrite Hresult. cbn [snd]. rewrite db_bob_students.
  repeat split. discriminate.
Qed.

Lemma marks_always_in_range_witness :
  @props.reachable samples.plain_hash samples.sample_addresses samples.db_bob
  /\ props.marks_in_range samples.db_bob.
Proof.
  assert (@props.reachable samples.plain_hash samples.sample_addresses samples.db_bob)
    as Hreach.
  { unfold samples.db_bob, samples.db_logged_in.
    apply props.reachable_step, props.reachable_step, props.reachable_init.
    reflexivity. }
  split; [exact Hreach|].
  exact (@marks_always_in_range samples.plain_hash samples.sample_addresses samples.db_bob Hreach).
Defined.

Lemma db_logged_in_sessions :
  rows (sessions samples.db_logged_in)
  = {[ 1 := props.created_session 0 samples.token_a 1 ]}.
Proof. vm_compute. reflexivity. Qed.

Lemma token_b_no_collision : props.no_collision samples.token_b 1 samples.db_logged_in.
Proof.
  intros pk s Hl Hother. rewrite db_logged_in_sessions in Hl.
  apply lookup_singleton_Some in Hl as [_ <-]. now contradiction Hother.
Qed.

Lemma session_token_lifecycle_witness :
  props.is_token_hex 32 samples.token_b
  /\ exists pk session db',
       models.create_token 5 samples.token_b 1 samples.db_logged_in
       = (Return (pk, session), db')
       /\ utils.check_auth 5 (samples.browser_request (Some samples.token_b)) db'
          = (Return (true, Some 1), db')
       /\ utils.check_auth (5 + 8 * 3600 * 1000000)
            (samples.browser_request (Some samples.token_b)) db'
          = (Return (false, None), db').
Proof.
  assert (props.is_token_hex 32 samples.token_b) as Hhex by (split; reflexivity).
  split; [exact Hhex|].
  destruct (session_token_lifecycle samples.db_logged_in 5 samples.token_b 1 Hhex
              token_b_no_collision)
    as (pk & session & db' & Hcreate & _ & Hexp & Hnow & _ & Hafter & _).
  exists pk, session, db'. split; [exact Hcreate|]. split.
  - apply Hnow. reflexivity.
  - apply Hafter; [reflexivity|]. rewrite Hexp. lia.
Defined.

Lemma gate_rejections_indistinguishable_witness :
  props.rejected_for samples.db_teachers 0 (samples.browser_request None) props.token_absent
  /\ props.rejected_for samples.db_teachers 0
       (samples.browser_request (Some samples.token_b)) props.token_unknown
  /\ (utils.require_authentication false views.StudentCreateView_post 0
        (samples.browser_request None) samples.db_teachers).1
     = (utils.require_authentication false views.StudentCreateView_post 0
          (samples.browser_request (Some samples.token_b)) samples.db_teachers).1.
Proof.
  assert (props.rejected_for samples.db_teachers 0 (samples.browser_request None)
            props.token_absent) as H1 by (left; reflexivity).
  assert (props.rejected_for samples.db_teachers 0
            (samples.browser_request (Some samples.token_b)) props.token_unknown) as H2.
  { exists samples.token_b. split; [reflexivity|]. split; [discriminate|].
    intros pk s Hl. simpl in Hl. rewrite lookup_empty in Hl. discriminate. }
  split; [exact H1|]. split; [exact H2|].
  apply (gate_rejections_indistinguishable false views.StudentCreateView_post
           _ _ 0 0 _ _ _ _ H1 H2).
  reflexivity.
Defined.

Lemma carol_only_short_passwords pk teacher password :
  rows (teachers samples.db_teachers) !! pk = Some teacher ->
  Teacher.username teacher
  = props.submitted_username (samples.login_request "carol" "abc") ->
  @Teacher.check_password samples.plain_hash teacher password = true ->
  (length password < 6)%nat.
Proof.
  intros Hl Hname Hcheck. simpl in Hl.
  apply lookup_insert_Some in Hl as [[_ <-]|[_ Hl]]; [discriminate Hname|].
  apply lookup_singleton_Some in Hl as [_ <-].
  unfold Teacher.check_password in Hcheck. apply bool_decide_eq_true in Hcheck.
  unfold sha256_hexdigest, samples.plain_hash in Hcheck. simpl in Hcheck.
  change (password ++ lit "5a17" = lit "abc" ++ lit "5a17") in Hcheck.
  apply app_inv_tail in Hcheck. subst password. simpl. lia.
Qed.

Lemma login_rejects_short_credentials_witness :
  (length (props.submitted_password (samples.login_request "carol" "abc")) < 6)%nat
  /\ (exists e errors, forall db,
        @views.LoginView_post samples.plain_hash samples.sample_addresses 0 samples.token_a
          (samples.login_request "carol" "abc") db
        = (Return (render views.login_template (e :: errors)), db))
  /\ ~ props.authenticates
         (@views.LoginView_post samples.plain_hash samples.sample_addresses 0 samples.token_a
            (samples.login_request "carol" "abc") samples.db_teachers).1.
Proof.
  assert (length (props.submitted_password (samples.login_request "carol" "abc")) < 6)%nat
    as Hshort by (simpl; lia).
  split; [exact Hshort|].
  destruct (@login_rejects_short_credentials samples.plain_hash samples.sample_addresses
              0 samples.token_a
              (samples.login_request "carol" "abc")) as [Hform Hweak].
  split.
  - destruct (Hform (or_intror Hshort)) as (e & errors & _ & Hall). eauto.
  - exact (proj1 (Hweak samples.db_teachers carol_only_short_passwords)).
Defined.

(** The scenario of a teacher's session: ("Bob", "Math") is created with 70,
    a merge of 40 is turned down, a merge of 20 gives 90, the inline update
    writes 95, and the delete removes the row; each step that changed the
    store left one audit entry. *)
Example portal_scenario :
  let step := @props.run samples.plain_hash samples.sample_addresses in
  let db1 := samples.db_bob in
  let db2 := step (props.op_add_student 2 (samples.add_request "Bob" "Math" 40)) db1 in
  let db3 := step (props.op_add_student 3 (samples.add_request "Bob" "Math" 20)) db2 in
  let db4 := step (props.op_update_marks 4 (samples.update_request 1 95)) db3 in
  let db5 := step (props.op_delete_student 5 (samples.delete_request 1)) db4 in
  let marks_of db := Student.marks <$> rows (students db) !! 1 in
  marks_of db1 = Some 70
  /\ marks_of db2 = Some 70
  /\ marks_of db3 = Some 90
  /\ marks_of db4 = Some 95
  /\ marks_of db5 = None
  /\ map AuditLog.action (audit_logs db5)
     = ["LOGIN"; "CREATE_STUDENT"; "UPDATE_MARKS"; "INLINE_UPDATE"; "DELETE_STUDENT"]%string.
Proof. vm_compute. repeat split. Qed.

End sample_data.

(** * Further properties *)
(** ** Client address *)

Lemma before_comma_app a b :
  ~ In 44%N a -> utils.before_comma (a ++ 44%N :: b) = a.
Proof.
  induction a as [|c a IH]; intros Hnot; simpl; [reflexivity|].
  destruct (N.eqb_spec c 44) as [->|_]; [exfalso; apply Hnot; now left|].
  rewrite IH; [reflexivity|]. intros Hin. apply Hnot. now right.
Qed.

Lemma before_comma_whole s : ~ In 44%N s -> utils.before_comma s = s.
Proof.
  induction s as [|c s IH]; intros Hnot; simpl; [reflexivity|].
  destruct (N.eqb_spec c 44) as [->|_]; [exfalso; apply Hnot; now left|].
  rewrite IH; [reflexivity|]. intros Hin. apply Hnot. now right.
Qed.

Lemma before_comma_no_comma s : ~ In 44%N (utils.before_comma s).
Proof.
  induction s as [|c s IH]; simpl; [tauto|].
  destruct (N.eqb_spec c 44) as [->|Hne]; simpl; [tauto|].
  intros [Hc|Hin]; [now apply Hne|now apply IH].
Qed.

(** X1: [get_client_ip] answers with the first comma-separated entry of a
    non-empty [X-Forwarded-For] header, as it is written (the whole header
    when it has no comma, the empty string when it starts with one), and
    with [REMOTE_ADDR] when the header is missing or empty; an address taken
    from the header never holds a comma. *)
Theorem get_client_ip_first_entry (request : HttpRequest) :
  (forall first rest,
     HTTP_X_FORWARDED_FOR request = Some (first ++ 44%N :: rest) ->
     ~ In 44%N first ->
     utils.get_client_ip request = Some first)
  /\ (forall header,
        HTTP_X_FORWARDED_FOR request = Some header -> header <> [] ->
        ~ In 44%N header ->
        utils.get_client_ip request = Some header)
  /\ (HTTP_X_FORWARDED_FOR request = None \/ HTTP_X_FORWARDED_FOR request = Some [] ->
      utils.get_client_ip request = REMOTE_ADDR request)
  /\ (forall header,
        HTTP_X_FORWARDED_FOR request = Some header -> header <> [] ->
        exists ip, utils.get_client_ip request = Some ip /\ ~ In 44%N ip).
Proof.
  unfold utils.get_client_ip. repeat split.
  - intros first rest -> Hnot.
    destruct (first ++ 44%N :: rest) as [|c r] eqn:E;
      [now destruct first|].
    rewrite <- E. now rewrite before_comma_app.
  - intros [|c r] -> Hne Hnot; [contradiction|]. now rewrite before_comma_whole.
  - intros [->| ->]; reflexivity.
  - intros [|c r] -> Hne; [contradiction|].
    eexists. split; [reflexivity|]. apply before_comma_no_comma.
Qed.

Lemma get_client_ip_first_entry_witness :
  utils.get_client_ip (samples.login_request_no_address "alice" "secret1") = Some []
  /\ utils.get_client_ip (samples.login_request_unaddressed "alice" "secret1") = None.
Proof.
  destruct (get_client_ip_first_entry (samples.login_request_no_address "alice" "secret1"))
    as (Hfirst & _).
  destruct (get_client_ip_first_entry (samples.login_request_unaddressed "alice" "secret1"))
    as (_ & _ & Hnone & _).
  split.
  - apply (Hfirst [] []); [reflexivity|]. intros [].
  - apply Hnone. now left.
Defined.

(** ** HTML escaping *)

Lemma replace_cons old new c s :
  replace old new (c :: s) = (if (c =? old)%N then new else [c]) ++ replace old new s.
Proof. reflexivity. Qed.

Lemma replace_app old new s t :
  replace old new (s ++ t) = replace old new s ++ replace old new t.
Proof. unfold replace. apply flat_map_app. Qed.

(** The five replacements of [html.escape], done one after the other, come
    to one replacement per character. *)
Lemma html_escape_cons c s :
  html_escape (c :: s) = props.escape_char c ++ html_escape s.
Proof.
  unfold html_escape, props.escape_char.
  rewrite (replace_cons 38).
  destruct (N.eqb_spec c 38) as [->|H38]; [now rewrite !replace_app|].
  rewrite !replace_app.
  destruct (N.eqb_spec c 60) as [->|H60]; [reflexivity|].
  destruct (N.eqb_spec c 62) as [->|H62]; [reflexivity|].
  destruct (N.eqb_spec c 34) as [->|H34]; [reflexivity|].
  destruct (N.eqb_spec c 39) as [->|H39]; [reflexivity|].
  cbn [replace flat_map app].
  rewrite (proj2 (N.eqb_neq c 60) H60). cbn [flat_map app].
  rewrite (proj2 (N.eqb_neq c 62) H62). cbn [flat_map app].
  rewrite (proj2 (N.eqb_neq c 34) H34). cbn [flat_map app].
  rewrite (proj2 (N.eqb_neq c 39) H39). reflexivity.
Qed.

Lemma escape_char_plain c :
  props.is_html_special c = false -> props.escape_char c = [c].
Proof.
  unfold props.is_html_special, props.escape_char. intros H.
  repeat (apply orb_false_iff in H as [H ?]).
  now repeat match goal with E : (_ =? _)%N = false |- _ => rewrite E; clear E end.
Qed.

Lemma escape_char_special c :
  props.is_html_special c = true -> exists r, props.escape_char c = 38%N :: r.
Proof.
  unfold props.is_html_special, props.escape_char. intros H.
  destruct (c =? 38)%N; [eexists; reflexivity|].
  destruct (c =? 60)%N; [eexists; reflexivity|].
  destruct (c =? 62)%N; [eexists; reflexivity|].
  destruct (c =? 34)%N; [eexists; reflexivity|].
  destruct (c =? 39)%N; [eexists; reflexivity|discriminate].
Qed.

Lemma escape_char_no_markup c :
  Forall (fun d => props.is_markup d = false) (props.escape_char c).
Proof.
  unfold props.escape_char.
  destruct (N.eqb_spec c 38); [repeat constructor|].
  destruct (N.eqb_spec c 60); [repeat constructor|].
  destruct (N.eqb_spec c 62); [repeat constructor|].
  destruct (N.eqb_spec c 34); [repeat constructor|].
  destruct (N.eqb_spec c 39); [repeat constructor|].
  constructor; [|constructor]. unfold props.is_markup.
  now repeat (apply orb_false_iff; split); apply N.eqb_neq.
Qed.

Lemma html_escape_no_markup s :
  Forall (fun d => props.is_markup d = false) (html_escape s).
Proof.
  induction s as [|c s IH]; [constructor|].
  rewrite html_escape_cons. apply Forall_app. split; [apply escape_char_no_markup|exact IH].
Qed.

Lemma html_escape_plain s :
  Forall (fun c => props.is_html_special c = false) s -> html_escape s = s.
Proof.
  induction 1 as [|c s Hc _ IH]; [reflexivity|].
  now rewrite html_escape_cons, (escape_char_plain c Hc), IH.
Qed.

Lemma html_escape_special s c :
  In c s -> props.is_html_special c = true -> In 38%N (html_escape s).
Proof.
  induction s as [|d s IH]; [intros []|].
  intros [->|Hin] Hc; rewrite html_escape_cons; apply in_or_app.
  - left. destruct (escape_char_special c Hc) as [r ->]. now left.
  - right. now apply IH.
Qed.

(** ** Names, subjects and marks through the hooks *)

Lemma letter_or_space_not_special c :
  letter_or_space c = true -> props.is_html_special c = false.
Proof. unfold letter_or_space, isspace, props.is_html_special. by_bounds. Qed.

Lemma name_hooks_shape hook :
  In hook props.name_hooks ->
  exists f, props.validator_shape f /\ forall value, hook value = props.hook_of f value.
Proof.
  intros [<-|[<-|[<-|[<-|[]]]]].
  - exists utils.validate_name. split; [apply name_validators_shape; simpl; auto|].
    now intros [|c r].
  - exists utils.validate_subject. split; [apply name_validators_shape; simpl; auto|].
    now intros [|c r].
  - exists forms.validate_name. split; [apply name_validators_shape; simpl; auto|].
    now intros [|c r].
  - exists forms.validate_subject. split; [apply name_validators_shape; simpl; auto|].
    now intros [|c r].
Qed.

Lemma name_rule_plain s :
  props.name_rule isspace s ->
  Forall (fun c => props.is_html_special c = false) (strip s).
Proof.
  intros [_ Hall]. eapply Forall_impl; [exact Hall|].
  intros c Hc. apply letter_or_space_not_special.
  rewrite letter_or_space_split. now apply orb_true_iff.
Qed.

(** A value whose escaped form passes the rule had nothing to escape. *)
Lemma escaped_name_rule_plain t :
  props.name_rule isspace (html_escape t) ->
  Forall (fun c => props.is_html_special c = false) t.
Proof.
  intros Hrule. apply Forall_forall. intros c Hc. apply list_elem_of_In in Hc.
  destruct (props.is_html_special c) eqn:Hspecial; [exfalso|reflexivity].
  pose proof (html_escape_special t c Hc Hspecial) as Hamp.
  assert (In 38%N (strip (html_escape t))) as Hin
    by (apply (strip_keeps _ _ Hamp); reflexivity).
  pose proof (name_rule_plain _ Hrule) as Hplain.
  rewrite Forall_forall in Hplain. apply list_elem_of_In in Hin.
  specialize (Hplain _ Hin). discriminate.
Qed.

Lemma hook_of_spec f value :
  props.validator_shape f -> value <> [] ->
  (forall n, props.hook_of f value = forms.Cleaned n ->
             n = strip value /\ props.name_rule isspace value
             /\ html_escape n = n /\ props.hook_of f n = forms.Cleaned n)
  /\ (props.name_rule isspace value ->
      props.hook_of f value = forms.Cleaned (strip value)).
Proof.
  intros Hshape Hne.
  assert (props.name_rule isspace value ->
          html_escape (strip value) = strip value
          /\ f (strip value) = Valid (strip value)) as Hgood.
  { intros Hrule. split; [apply html_escape_plain, name_rule_plain, Hrule|].
    destruct (validator_shape_accepts f (strip value) Hshape) as [Hiff Hval].
    rewrite <- (strip_idempotent value) at 2. apply Hval, Hiff.
    unfold props.name_rule. rewrite strip_idempotent. exact Hrule. }
  assert (forall v, v <> [] -> props.hook_of f v
            = match f (html_escape (strip v)) with
              | Invalid result => forms.FieldErrors [result]
              | Valid result => forms.Cleaned result
              end) as Hunfold by (intros [|c r] Hv; [contradiction|reflexivity]).
  split.
  - intros n Hn. rewrite (Hunfold value Hne) in Hn.
    destruct (f (html_escape (strip value))) as [result|msg] eqn:Hf; [|discriminate].
    injection Hn as ->.
    destruct (validator_shape_accepts f (html_escape (strip value)) Hshape)
      as [Hiff Hval].
    assert (props.accepts f (html_escape (strip value))) as Hacc by (eexists; exact Hf).
    pose proof (proj1 Hiff Hacc) as Hrule'.
    pose proof (escaped_name_rule_plain _ Hrule') as Hplain.
    rewrite (html_escape_plain _ Hplain) in Hf, Hrule'.
    assert (props.name_rule isspace value) as Hrule
      by (unfold props.name_rule in *; now rewrite strip_idempotent in Hrule').
    destruct (Hgood Hrule) as [Hesc Hvalid]. rewrite Hvalid in Hf. injection Hf as <-.
    split; [reflexivity|]. split; [exact Hrule|]. split; [exact Hesc|].
    assert (strip value <> []) as Hne'.
    { destruct Hrule as [Hlen _]. intros E. rewrite E in Hlen. simpl in Hlen. lia. }
    rewrite (Hunfold _ Hne'), strip_idempotent, Hesc, Hvalid. reflexivity.
  - intros Hrule. destruct (Hgood Hrule) as [Hesc Hvalid].
    now rewrite (Hunfold value Hne), Hesc, Hvalid.
Qed.

(** X2: the name and subject hooks of [StudentSerializer] and [StudentForm]
    accept a non-empty value exactly when, trimmed, it has at least 2
    characters, all letters or whitespace.  The value they hand on is the
    trimmed input: escaping never changes an accepted value, and validating
    it again returns it unchanged. *)
Theorem name_hooks_keep_trimmed_value (hook : str -> forms.cleaned str) (value : str) :
  In hook props.name_hooks -> value <> [] ->
  (forall n, hook value = forms.Cleaned n ->
             n = strip value /\ props.name_rule isspace value
             /\ html_escape n = n /\ hook n = forms.Cleaned n)
  /\ (props.name_rule isspace value -> hook value = forms.Cleaned (strip value)).
Proof.
  intros Hin Hne. destruct (name_hooks_shape hook Hin) as (f & Hshape & Hhook).
  rewrite !Hhook. destruct (hook_of_spec f value Hshape Hne) as [H1 H2].
  split; [|exact H2]. intros n Hn. rewrite Hhook. now apply H1.
Qed.

Lemma name_hooks_keep_trimmed_value_witness :
  In serializers.validate_name props.name_hooks
  /\ lit " Bob " <> []
  /\ serializers.validate_name (lit " Bob ") = forms.Cleaned (lit "Bob")
  /\ serializers.validate_name (lit "Bob") = forms.Cleaned (lit "Bob").
Proof.
  assert (In serializers.validate_name props.name_hooks) as Hin by (simpl; auto).
  assert (lit " Bob " <> []) as Hne by discriminate.
  split; [exact Hin|]. split; [exact Hne|].
  destruct (name_hooks_keep_trimmed_value serializers.validate_name (lit " Bob ") Hin Hne)
    as [Hback _].
  assert (serializers.validate_name (lit " Bob ") = forms.Cleaned (lit "Bob")) as Hrun
    by reflexivity.
  split; [exact Hrun|]. exact (proj2 (proj2 (proj2 (Hback _ Hrun)))).
Defined.

(** X3: every layer has the same rule for marks: [utils.validate_marks],
    the [validate_marks] hooks of both serializers, [StudentForm.clean_marks]
    and the form's [IntegerField(min_value=0, max_value=100)] accept an
    integer exactly when it lies in [0, 100] and hand it on unchanged; the
    four hand-written checks reject the others with the same message. *)
Theorem marks_rule_in_every_layer (marks : Z) :
  (0 <= marks <= 100 ->
   utils.validate_marks (Some marks) = Valid marks
   /\ serializers.validate_marks marks = forms.Cleaned marks
   /\ serializers.MarksUpdateSerializer_validate_marks marks = forms.Cleaned marks
   /\ forms.clean_marks marks = forms.Cleaned marks
   /\ forms.IntegerField_clean 0 100 (Some marks) = forms.Cleaned marks)
  /\ (~ 0 <= marks <= 100 ->
      utils.validate_marks (Some marks) = Invalid props.marks_message
      /\ serializers.validate_marks marks = forms.FieldErrors [props.marks_message]
      /\ serializers.MarksUpdateSerializer_validate_marks marks
         = forms.FieldErrors [props.marks_message]
      /\ forms.clean_marks marks = forms.FieldErrors [props.marks_message]
      /\ exists msg msgs,
           forms.IntegerField_clean 0 100 (Some marks) = forms.FieldErrors (msg :: msgs)).
Proof.
  unfold serializers.validate_marks, serializers.MarksUpdateSerializer_validate_marks,
    utils.validate_marks, forms.clean_marks, forms.IntegerField_clean.
  split; intros Hrange.
  - destruct (Z.ltb_spec marks 0); [lia|]. destruct (Z.gtb_spec marks 100); [lia|].
    destruct (Z.ltb_spec 100 marks); [lia|]. simpl. auto.
  - destruct (Z.ltb_spec marks 0), (Z.gtb_spec marks 100), (Z.ltb_spec 100 marks);
      try lia; simpl; repeat split; eauto.
Qed.

Lemma marks_rule_in_every_layer_witness :
  0 <= 70 <= 100 /\ ~ 0 <= 101 <= 100
  /\ serializers.validate_marks 70 = forms.Cleaned 70
  /\ forms.clean_marks 101 = forms.FieldErrors [props.marks_message].
Proof.
  split; [lia|]. split; [lia|].
  destruct (marks_rule_in_every_layer 70) as [Hin _].
  destruct (marks_rule_in_every_layer 101) as [_ Hout].
  split.
  - apply Hin. lia.
  - apply Hout. lia.
Defined.

(** ** Passwords *)

(** X4: a password set with [set_password] is accepted by [check_password],
    whatever the salt; when the hash has no collisions it is the only
    password accepted; the username is untouched. *)
Theorem set_password_then_check `{Hashlib} (self : Teacher.row) (raw_password salt : str) :
  Teacher.check_password (Teacher.set_password self raw_password salt) raw_password = true
  /\ Teacher.username (Teacher.set_password self raw_password salt) = Teacher.username self
  /\ (Inj (=) (=) sha256_hexdigest ->
      forall other,
        Teacher.check_password (Teacher.set_password self raw_password salt) other = true ->
        other = raw_password).
Proof.
  unfold Teacher.check_password, Teacher.set_password. simpl.
  split; [now apply bool_decide_eq_true|]. split; [reflexivity|].
  intros Hinj other Hcheck. apply bool_decide_eq_true in Hcheck.
  apply Hinj in Hcheck. now apply app_inv_tail in Hcheck.
Qed.

Lemma set_password_then_check_witness :
  @Teacher.check_password samples.plain_hash samples.alice (lit "secret1") = true
  /\ forall other,
       @Teacher.check_password samples.plain_hash samples.alice other = true ->
       other = lit "secret1".
Proof.
  destruct (@set_password_then_check samples.plain_hash
              {| Teacher.username := lit "alice"; Teacher.password_hash := [];
                 Teacher.salt := [] |} (lit "secret1") (lit "5a17")) as (Hok & _ & Honly).
  split; [exact Hok|]. apply Honly. intros x y E. exact E.
Defined.

(** ** Login as a whole *)

Lemma LoginForm_valid request username password :
  forms.LoginForm request = inl (username, password) ->
  username = props.submitted_username request
  /\ (3 <= length username)%nat
  /\ password = props.trimmed_password request
  /\ (6 <= length password)%nat.
Proof.
  unfold forms.LoginForm.
  destruct (username_field_cases request) as [(m & msgs & ->)|[-> Hu]]; [discriminate|].
  unfold forms.clean_field at 1.
  destruct (CharField_clean_cases None (POST_password request))
    as [(m & msgs & ->)|[-> Hne]]; [discriminate|].
  unfold forms.clean_password, props.trimmed_password.
  destruct (strip (default [] (POST_password request))) as [|c r] eqn:E; [contradiction|].
  destruct (Nat.ltb_spec (length (c :: r)) 6); [discriminate|].
  intros [= <- <-]. auto.
Qed.

Lemma Teacher_objects_get_found db username pk teacher :
  props.names_teacher db username pk teacher ->
  models.Teacher_objects_get username db = (Return (pk, teacher), db).
Proof.
  intros (Hrow & Hname & Honly). unfold models.Teacher_objects_get.
  rewrite (get_unique TeacherModel _ _ pk teacher Hrow); [reflexivity| |].
  - simpl. now apply bool_decide_eq_true.
  - intros pk' t' Hl HP. simpl in HP. apply bool_decide_eq_true in HP. eauto.
Qed.

Lemma check_auth_after_login db l now fresh_token teacher request t :
  props.is_token_hex 32 fresh_token ->
  props.no_collision fresh_token teacher db ->
  COOKIES_session_token request = Some fresh_token ->
  t < now + 8 * 3600 * 1000000 ->
  utils.check_auth t request
    (set_audit_logs l (props.after_create_token db now fresh_token teacher))
  = (Return (true, Some teacher),
     set_audit_logs l (props.after_create_token db now fresh_token teacher)).
Proof.
  intros Hhex Hfresh Hcookie Ht.
  destruct (token_hex_nonempty _ _ Hhex) as (c & r & Htok).
  rewrite Htok in Hcookie. rewrite (check_auth_steps _ _ _ _ _ Hcookie), <- Htok.
  change (sessions (set_audit_logs l ?d)) with (sessions d).
  rewrite (created_session_found db now fresh_token teacher Hfresh).
  cbn [snd]. unfold SessionToken.is_valid, props.created_session.
  cbn [SessionToken.expires_at SessionToken.teacher].
  unfold SessionToken.timedelta_hours.
  destruct (Z.ltb_spec t (now + 8 * 3600 * 1000000)); [reflexivity|lia].
Qed.

(** X5: a login with well-formed credentials that name one teacher and pass
    [check_password], with a fresh token and a recordable client address,
    answers with the redirect to [home] carrying the token as an 8-hour
    [session_token] cookie; it replaces the teacher's sessions by the new
    one, appends one LOGIN entry, which holds the client address as the
    address column takes it (a valid IPv6 address in its normal form), and
    leaves the students alone.  From then until the expiry, the gate lets a
    request with that cookie through to any view, as that teacher. *)
Theorem login_opens_session `{Hashlib} `{Ipv6} (db : DB) (now : Z) (fresh_token : str)
    (request : HttpRequest) (username password : str) (pk : Z) (teacher : Teacher.row) :
  forms.LoginForm request = inl (username, password) ->
  props.names_teacher db username pk teacher ->
  Teacher.check_password teacher password = true ->
  props.is_token_hex 32 fresh_token ->
  props.no_collision fresh_token pk db ->
  props.recordable (utils.get_client_ip request) = true ->
  exists db',
    views.LoginView_post now fresh_token request db
    = (Return (redirect "home" (props.session_cookie fresh_token request)), db')
    /\ sessions db' = sessions (props.after_create_token db now fresh_token pk)
    /\ audit_logs db' = audit_logs db ++ [props.login_entry pk request]
    /\ students db' = students db
    /\ teachers db' = teachers db
    /\ forall flag view later t,
         COOKIES_session_token later = Some fresh_token ->
         t < now + 8 * 3600 * 1000000 ->
         utils.require_authentication flag view t later db' = view pk later db'.
Proof.
  intros Hform Hteacher Hcheck Hhex Hfresh Hip.
  exists (set_audit_logs (audit_logs db ++ [props.login_entry pk request])
            (props.after_create_token db now fresh_token pk)).
  split.
  - unfold views.LoginView_post. rewrite Hform.
    unfold try_except, bind at 1.
    rewrite (Teacher_objects_get_found db username pk teacher Hteacher).
    cbn [fst snd]. rewrite Hcheck. unfold bind at 1.
    rewrite (create_token_returns db now fresh_token pk Hfresh).
    cbn [fst snd]. unfold bind.
    rewrite AuditLog_objects_create_recordable by exact Hip.
    reflexivity.
  - repeat split.
    intros flag view later t Hcookie Ht.
    unfold utils.require_authentication, utils.authenticated_dispatch, utils.wrapper.
    destruct flag; unfold bind;
      now rewrite (check_auth_after_login db _ now fresh_token pk later t
                     Hhex Hfresh Hcookie Ht).
Qed.

(** X6: a well-formed login that fails changes nothing in the store, and
    tells the two failures apart: an unknown username puts "Invalid
    credentials" on the [username] field, a wrong password for a known
    username puts it on the [password] field. *)
Theorem login_failures `{Hashlib} `{Ipv6} (db : DB) (now : Z) (fresh_token : str)
    (request : HttpRequest) (username password : str) :
  forms.LoginForm request = inl (username, password) ->
  ((forall pk teacher, rows (teachers db) !! pk = Some teacher ->
                       Teacher.username teacher <> username) ->
   views.LoginView_post now fresh_token request db
   = (Return (render views.login_template
                [("username"%string, lit "Invalid credentials")]), db))
  /\ (forall pk teacher,
        props.names_teacher db username pk teacher ->
        Teacher.check_password teacher password = false ->
        views.LoginView_post now fresh_token request db
        = (Return (render views.login_template
                     [("password"%string, lit "Invalid credentials")]), db)).
Proof.
  intros Hform. unfold views.LoginView_post. rewrite Hform. split.
  - intros Hnone. unfold try_except, bind at 1, models.Teacher_objects_get.
    rewrite (get_none TeacherModel); [reflexivity|].
    intros pk teacher Hl. simpl. apply bool_decide_eq_false. eauto.
  - intros pk teacher Hteacher Hcheck. unfold try_except, bind at 1.
    rewrite (Teacher_objects_get_found db username pk teacher Hteacher).
    cbn [fst snd]. now rewrite Hcheck.
Qed.

(** A login either finds a teacher for the submitted credentials, or
    neither authenticates nor changes the store. *)
Lemma LoginView_post_matched `{Hashlib} `{Ipv6} db now fresh_token request out db' :
  views.LoginView_post now fresh_token request db = (out, db') ->
  (exists pk teacher,
    rows (teachers db) !! pk = Some teacher
    /\ Teacher.username teacher = props.submitted_username request
    /\ Teacher.check_password teacher (props.trimmed_password request) = true
    /\ (3 <= length (Teacher.username teacher))%nat
    /\ Forall (fun c => props.is_markup c = false) (Teacher.username teacher)
    /\ (6 <= length (props.trimmed_password request))%nat)
  \/ (db' = db /\ ~ props.authenticates out).
Proof.
  unfold views.LoginView_post.
  destruct (forms.LoginForm request) as [[username password]|errors] eqn:Hform.
  - apply LoginForm_valid in Hform as (-> & Hu & -> & Hp).
    unfold try_except, bind at 1, models.Teacher_objects_get.
    destruct (get _ _ _) as [[pk teacher]|e] eqn:Hget; cbn [fst snd].
    + apply get_Return in Hget as [Hrow Hname]. simpl in Hname.
      apply bool_decide_eq_true in Hname.
      destruct (Teacher.check_password teacher _) eqn:Hcheck.
      * intros _. left. exists pk, teacher. rewrite Hname.
        repeat split; auto; try lia. apply html_escape_no_markup.
      * intros [= <- <-]. right. split; [reflexivity|]. now intros [cookie [=]].
    + destruct e as [[]| | | | |];
        (intros [= <- <-]; right; split; [reflexivity|]; now intros [cookie [=]]).
  - intros [= <- <-]. right. split; [reflexivity|]. now intros [cookie [=]].
Qed.

(** X7: whenever a login authenticates, or so much as changes the session
    table, the store holds a teacher whose username is the submitted one,
    trimmed and HTML-escaped, and whose hash accepts the submitted password,
    trimmed.  That username has at least 3 characters and none of [<], [>],
    double quote or apostrophe, and that password at least 6: a teacher
    registered with other credentials cannot log in. *)
Theorem login_only_with_matching_teacher `{Hashlib} `{Ipv6} (db : DB) (now : Z)
    (fresh_token : str) (request : HttpRequest) :
  props.authenticates (views.LoginView_post now fresh_token request db).1
  \/ sessions (views.LoginView_post now fresh_token request db).2 <> sessions db ->
  exists pk teacher,
    rows (teachers db) !! pk = Some teacher
    /\ Teacher.username teacher = props.submitted_username request
    /\ Teacher.check_password teacher (props.trimmed_password request) = true
    /\ (3 <= length (Teacher.username teacher))%nat
    /\ Forall (fun c => props.is_markup c = false) (Teacher.username teacher)
    /\ (6 <= length (props.trimmed_password request))%nat.
Proof.
  destruct (views.LoginView_post now fresh_token request db) as [out db'] eqn:E.
  cbn [fst snd].
  destruct (LoginView_post_matched db now fresh_token request out db' E)
    as [Hfound|[-> Hnot]]; [intros _; exact Hfound|].
  intros [Hauth|Hs]; [now contradiction Hnot|now contradiction Hs].
Qed.

Lemma LoginForm_trims_password request password :
  forms.LoginForm (props.with_password request (Some (strip password)))
  = forms.LoginForm (props.with_password request (Some password)).
Proof.
  assert (forms.clean_field (forms.CharField_clean None) forms.clean_password
            (Some (strip password))
          = forms.clean_field (forms.CharField_clean None) forms.clean_password
              (Some password)) as Hfield.
  { unfold forms.clean_field, forms.CharField_clean.
    change (default [] (Some (strip password))) with (strip password).
    change (default [] (Some password)) with password.
    now rewrite strip_idempotent. }
  unfold forms.LoginForm. cbn [POST_username POST_password props.with_password].
  now rewrite Hfield.
Qed.

(** X8: the password field is trimmed before it is checked.  A login
    answers a password and its trimmed form alike, with the same response
    and the same store; so a teacher every accepted password of whom
    starts or ends with whitespace can never log in: no request under that
    username authenticates, and none changes the store. *)
Theorem login_locks_out_padded_password `{Hashlib} `{Ipv6} (db : DB) (now : Z)
    (fresh_token : str) (request : HttpRequest) :
  (forall password,
     views.LoginView_post now fresh_token
       (props.with_password request (Some (strip password))) db
     = views.LoginView_post now fresh_token
         (props.with_password request (Some password)) db)
  /\ ((forall pk teacher password,
         rows (teachers db) !! pk = Some teacher ->
         Teacher.username teacher = props.submitted_username request ->
         Teacher.check_password teacher password = true ->
         strip password <> password) ->
      ~ props.authenticates (views.LoginView_post now fresh_token request db).1
      /\ (views.LoginView_post now fresh_token request db).2 = db).
Proof.
  split.
  - intros password. unfold views.LoginView_post.
    now rewrite (LoginForm_trims_password request password).
  - intros Hpadded.
    destruct (views.LoginView_post now fresh_token request db) as [out db'] eqn:E.
    cbn [fst snd].
    destruct (LoginView_post_matched db now fresh_token request out db' E)
      as [(pk & teacher & Hrow & Hname & Hcheck & _)|[-> Hnot]]; [|now split].
    exfalso. apply (Hpadded pk teacher _ Hrow Hname Hcheck).
    apply strip_idempotent.
Qed.

(** ** Lookups under a uniqueness constraint *)

Lemma get_cases {R} model (P : Z * R -> bool) (t : Table R) :
  (forall pk1 r1 pk2 r2, rows t !! pk1 = Some r1 -> rows t !! pk2 = Some r2 ->
     P (pk1, r1) = true -> P (pk2, r2) = true -> pk1 = pk2) ->
  (exists pk r, get model P t = Return (pk, r)
                /\ rows t !! pk = Some r /\ P (pk, r) = true)
  \/ (get model P t = Raise (DoesNotExist model)
      /\ forall pk r, rows t !! pk = Some r -> P (pk, r) = false).
Proof.
  intros Huniq.
  destruct (select P t) as [|[pk r] l] eqn:E.
  - right. split; [unfold get; now rewrite E|].
    intros pk r Hl. destruct (P (pk, r)) eqn:HP; [|reflexivity].
    assert (In (pk, r) (select P t)) as Hin by (apply select_In; auto).
    rewrite E in Hin. destruct Hin.
  - left. exists pk, r.
    assert (In (pk, r) (select P t)) as Hin by (rewrite E; now left).
    apply select_In in Hin as [Hl HP].
    split; [|auto]. apply get_unique; eauto.
Qed.

(** ** Logout *)

(** X9: a logout whose cookie names a stored session, sent from a
    recordable address, deletes exactly that session (expired or not),
    appends one LOGOUT entry for its teacher, with the client address as
    the address column takes it, and answers with the redirect to [login]
    that clears the cookie.  From then on the gate turns the cookie down. *)
Theorem logout_revokes_session `{Ipv6} (db : DB) (request : HttpRequest) (pk : Z)
    (session : SessionToken.row) :
  props.holds_session db request pk session ->
  props.recordable (utils.get_client_ip request) = true ->
  views.LogoutView_post request db
  = (Return props.logout_response,
     props.after_logout db pk (SessionToken.teacher session) request)
  /\ forall flag view now later,
       COOKIES_session_token later = COOKIES_session_token request ->
       utils.require_authentication flag view now later
         (props.after_logout db pk (SessionToken.teacher session) request)
       = (Return (props.rejection_response (utils.is_ajax later)),
          props.after_logout db pk (SessionToken.teacher session) request).
Proof.
  intros (Hcookie & Hne & Hrow & Honly) Hip. split.
  - unfold views.LogoutView_post. rewrite Hcookie.
    destruct (SessionToken.token session) as [|c r] eqn:Htok; [contradiction|].
    unfold bind at 1, try_except, bind at 1, models.SessionToken_objects_get.
    rewrite (get_unique SessionTokenModel _ _ pk session Hrow).
    + cbn [fst snd]. unfold bind at 1.
      rewrite AuditLog_objects_create_recordable by exact Hip.
      reflexivity.
    + unfold models.has_token. simpl. now apply bool_decide_eq_true.
    + intros pk' s' Hl HP. unfold models.has_token in HP. simpl in HP.
      apply bool_decide_eq_true in HP. eauto.
  - intros flag view now later Hlater.
    apply (require_authentication_rejects flag view _ now later props.token_unknown).
    exists (SessionToken.token session).
    split; [now rewrite Hlater|]. split; [exact Hne|].
    intros pk' s' Hl Htok. simpl in Hl.
    apply lookup_delete_Some in Hl as [Hpk Hl]. apply Hpk. symmetry. eauto.
Qed.

(** X10: a logout changes nothing and still answers with the redirect when
    the request has no cookie, an empty one, or one no stored session
    carries.  When the cookie names a session but the client address is
    not recordable, the audit entry fails first: the view raises
    [IntegrityError] and the session is left in place. *)
Theorem logout_without_effect `{Ipv6} (db : DB) (request : HttpRequest) :
  ((COOKIES_session_token request = None
    \/ COOKIES_session_token request = Some []
    \/ exists token, COOKIES_session_token request = Some token
         /\ forall pk s, rows (sessions db) !! pk = Some s ->
                         SessionToken.token s <> token) ->
   views.LogoutView_post request db = (Return props.logout_response, db))
  /\ (forall pk session,
        props.holds_session db request pk session ->
        props.recordable (utils.get_client_ip request) = false ->
        views.LogoutView_post request db = (Raise IntegrityError, db)).
Proof.
  split.
  - unfold views.LogoutView_post.
    intros [Hcookie|[Hcookie|(token & Hcookie & Hnone)]]; rewrite Hcookie;
      [reflexivity|reflexivity|].
    destruct token as [|c r]; [reflexivity|].
    unfold bind at 1, try_except, bind at 1, models.SessionToken_objects_get.
    rewrite (get_none SessionTokenModel); [reflexivity|].
    intros pk s Hl. unfold models.has_token. simpl.
    apply bool_decide_eq_false. eauto.
  - intros pk session (Hcookie & Hne & Hrow & Honly) Hip.
    unfold views.LogoutView_post. rewrite Hcookie.
    destruct (SessionToken.token session) as [|c r] eqn:Htok; [contradiction|].
    unfold bind at 1, try_except, bind at 1, models.SessionToken_objects_get.
    rewrite (get_unique SessionTokenModel _ _ pk session Hrow).
    + cbn [fst snd]. unfold bind at 1, models.AuditLog_objects_create.
      cbn [AuditLog.ip_address]. unfold props.recordable in Hip.
      destruct (utils.get_client_ip request) as [[|a l]|]; try discriminate; reflexivity.
    + unfold models.has_token. simpl. now apply bool_decide_eq_true.
    + intros pk' s' Hl HP. unfold models.has_token in HP. simpl in HP.
      apply bool_decide_eq_true in HP. eauto.
Qed.

(** ** The gate, completely *)

(** X11: on a store whose tokens are unique the gate never raises and never
    writes: either it hands the request to the view with the teacher of a
    stored, unexpired session that carries the cookie's token, or it
    answers with the rejection response and the view is not run. *)
Theorem gate_admits_or_rejects (flag : bool) (view : utils.View) (db : DB)
    (now : Z) (request : HttpRequest) :
  props.unique_token (sessions db) ->
  (exists pk session,
     rows (sessions db) !! pk = Some session
     /\ COOKIES_session_token request = Some (SessionToken.token session)
     /\ now < SessionToken.expires_at session
     /\ utils.require_authentication flag view now request db
        = view (SessionToken.teacher session) request db)
  \/ (utils.check_auth now request db = (Return (false, None), db)
      /\ utils.require_authentication flag view now request db
         = (Return (props.rejection_response (utils.is_ajax request)), db)).
Proof.
  intros Huniq.
  assert (forall cause, props.rejected_for db now request cause ->
            utils.check_auth now request db = (Return (false, None), db)
            /\ utils.require_authentication flag view now request db
               = (Return (props.rejection_response (utils.is_ajax request)), db))
    as Hrej.
  { intros cause Hc. split; [now apply (check_auth_rejected db now request cause)|].
    now apply (require_authentication_rejects flag view db now request cause). }
  destruct (COOKIES_session_token request) as [[|c r]|] eqn:Hcookie.
  - right. apply (Hrej props.token_absent). right. exact Hcookie.
  - destruct (get_cases SessionTokenModel (models.has_token (c :: r)) (sessions db))
      as [(pk & s & Hget & Hl & HP)|[Hget Hnone]].
    + intros pk1 s1 pk2 s2 H1 H2 HP1 HP2. unfold models.has_token in HP1, HP2.
      simpl in HP1, HP2. apply bool_decide_eq_true in HP1, HP2.
      apply (Huniq pk1 s1 pk2 s2 H1 H2). congruence.
    + unfold models.has_token in HP. simpl in HP. apply bool_decide_eq_true in HP.
      destruct (Z.ltb_spec now (SessionToken.expires_at s)) as [Hlt|Hge].
      * left. exists pk, s. rewrite HP. repeat split; auto.
        unfold utils.require_authentication, utils.authenticated_dispatch, utils.wrapper.
        destruct flag; unfold bind;
          rewrite (check_auth_steps _ _ _ _ _ Hcookie), Hget; cbn [snd];
          unfold SessionToken.is_valid;
          (destruct (Z.ltb_spec now (SessionToken.expires_at s)); [reflexivity|lia]).
      * right. apply (Hrej props.token_expired).
        exists (c :: r), pk, s. split; [exact Hcookie|]. split; [discriminate|].
        split; [exact Hl|]. split; [exact HP|]. split; [|exact Hge].
        intros pk' s' Hl' Htok. apply (Huniq pk' s' pk s Hl' Hl). congruence.
    + right. apply (Hrej props.token_unknown).
      exists (c :: r). split; [exact Hcookie|]. split; [discriminate|].
      intros pk s Hl. specialize (Hnone pk s Hl). unfold models.has_token in Hnone.
      simpl in Hnone. now apply bool_decide_eq_false in Hnone.
  - right. apply (Hrej props.token_absent). left. exact Hcookie.
Qed.

(** ** Substrings *)

Lemma startswith_app p s b : startswith p s = true -> startswith p (s ++ b) = true.
Proof.
  revert s. induction p as [|a p IH]; intros [|c s]; simpl; try easy.
  intros H. apply andb_true_iff in H as [-> H]. simpl. auto.
Qed.

Lemma startswith_refl p : startswith p p = true.
Proof. induction p as [|a p IH]; simpl; [reflexivity|]. now rewrite N.eqb_refl. Qed.

Lemma contains_app_l p s b : contains p s = true -> contains p (s ++ b) = true.
Proof.
  induction s as [|c s IH]; simpl.
  - rewrite orb_false_r. intros H. destruct p; [|discriminate]. now destruct b.
  - intros H. apply orb_true_iff in H as [H|H].
    + change (c :: s ++ b) with ((c :: s) ++ b).
      now rewrite (startswith_app p (c :: s) b H).
    + rewrite (IH H). apply orb_true_r.
Qed.

Lemma contains_app_r p a s : contains p s = true -> contains p (a ++ s) = true.
Proof.
  intros H. induction a as [|c a IH]; [exact H|].
  simpl. rewrite IH. apply orb_true_r.
Qed.

Lemma contains_self p : contains p p = true.
Proof. destruct p; simpl; [reflexivity|]. now rewrite N.eqb_refl, startswith_refl. Qed.

Lemma created_message_marked name :
  contains (lit "added successfully") (props.created_message name) = true.
Proof.
  unfold props.created_message.
  change (lit " added successfully") with ([32%N] ++ lit "added successfully").
  rewrite !app_assoc. apply contains_app_r, contains_self.
Qed.

(** ** The add/merge handler, step by step *)

Lemma same_identity_true name subject teacher pk stu :
  models.same_identity name subject teacher (pk, stu) = true
  <-> Student.name stu = name /\ Student.subject stu = subject
      /\ Student.teacher stu = teacher.
Proof.
  unfold models.same_identity. simpl.
  rewrite !andb_true_iff, !bool_decide_eq_true. tauto.
Qed.

Lemma same_identity_false name subject teacher pk stu :
  models.same_identity name subject teacher (pk, stu) = false
  <-> ~ (Student.name stu = name /\ Student.subject stu = subject
         /\ Student.teacher stu = teacher).
Proof.
  rewrite <- (same_identity_true name subject teacher pk stu).
  destruct (models.same_identity name subject teacher (pk, stu)); split; congruence.
Qed.

Lemma StudentCreateView_post_created `{Ipv6} db teacher request data :
  serializers.StudentCreateUpdateSerializer request = inl data ->
  props.fresh_identity db teacher data ->
  props.recordable (utils.get_client_ip request) = true ->
  views.StudentCreateView_post teacher request db
  = (Return (Response
               (props.saved_fields (props.created_message (serializers.v_name data))
                  (next_pk (students db)) (serializers.v_marks data)
                ++ props.student_field (next_pk (students db))
                     (props.new_student teacher data))
               HTTP_201_CREATED),
     props.recorded (props.created_entry teacher request data)
       (insert_row (props.new_student teacher data) (students db)).2 db).
Proof.
  intros Hser Hfresh Hip. unfold views.StudentCreateView_post. rewrite Hser.
  unfold try_except at 1, atomic, bind at 1, serializers.create, try_except, bind at 1,
    models.Student_objects_get.
  rewrite (get_none StudentModel)
    by (intros pk stu Hl; apply same_identity_false; exact (Hfresh pk stu Hl)).
  cbn [fst snd]. unfold bind at 1, models.Student_objects_create.
  cbn [Student.name Student.subject Student.teacher].
  rewrite (select_nil _ (students db))
    by (intros pk stu Hl; apply same_identity_false; exact (Hfresh pk stu Hl)).
  cbn [insert_row fst snd]. unfold bind at 1.
  rewrite AuditLog_objects_create_recordable by exact Hip.
  cbn [fst snd]. unfold ret.
  change (lit "Student " ++ serializers.v_name data ++ lit " added successfully")
    with (props.created_message (serializers.v_name data)).
  rewrite created_message_marked. reflexivity.
Qed.

Lemma StudentCreateView_post_merged `{Ipv6} db teacher request data pk stu :
  serializers.StudentCreateUpdateSerializer request = inl data ->
  rows (students db) !! pk = Some stu ->
  props.identifies data teacher stu ->
  props.unique_together (students db) ->
  Student.marks stu + serializers.v_marks data <= 100 ->
  props.recordable (utils.get_client_ip request) = true ->
  let total := Student.marks stu + serializers.v_marks data in
  let message := props.merged_message (serializers.v_name data) total in
  views.StudentCreateView_post teacher request db
  = (Return (Response
               (props.saved_fields message pk total
                ++ (if contains (lit "added successfully") message
                    then props.student_field pk (props.with_marks stu total)
                    else []))
               HTTP_201_CREATED),
     props.recorded (props.merged_entry teacher request data (Student.marks stu))
       (update_row pk (props.with_marks stu total) (students db)) db).
Proof.
  intros Hser Hrow (Hname & Hsubject & Hteacher) Huniq Hcap Hip total message.
  assert (models.Student_objects_get (serializers.v_name data)
            (serializers.v_subject data) teacher db = (Return (pk, stu), db)) as Hget.
  { rewrite <- Hname, <- Hsubject, <- Hteacher.
    exact (Student_objects_get_found db pk stu Hrow Huniq). }
  unfold views.StudentCreateView_post. rewrite Hser.
  unfold try_except at 1, atomic, bind at 1, serializers.create, try_except, bind at 1.
  rewrite Hget. cbn [fst snd]. unfold utils.calculate_new_marks.
  destruct (Z.gtb_spec (Student.marks stu + serializers.v_marks data) 100) as [|_]; [lia|].
  cbn [negb]; cbv beta iota.
  unfold bind at 1, models.Student_save, bind at 1.
  rewrite AuditLog_objects_create_recordable by exact Hip.
  cbn [fst snd]. unfold ret, bind. subst message total.
  unfold props.merged_message.
  destruct (contains _ _); reflexivity.
Qed.

(** X12: a valid add request for a name and subject the teacher does not
    have yet, from a recordable address, creates the student under the next
    key with exactly the validated marks, which lie in [0, 100], appends
    one CREATE_STUDENT entry, with the client address as the address column
    takes it, and answers 201 with the new row under [student]. *)
Theorem add_creates_student `{Ipv6} (db : DB) (teacher : Z) (request : HttpRequest)
    (data : serializers.StudentData) :
  serializers.StudentCreateUpdateSerializer request = inl data ->
  props.fresh_identity db teacher data ->
  props.recordable (utils.get_client_ip request) = true ->
  exists db',
    views.StudentCreateView_post teacher request db
    = (Return (Response
                 (props.saved_fields (props.created_message (serializers.v_name data))
                    (next_pk (students db)) (serializers.v_marks data)
                  ++ props.student_field (next_pk (students db))
                       (props.new_student teacher data))
                 HTTP_201_CREATED), db')
    /\ rows (students db') !! next_pk (students db)
       = Some (props.new_student teacher data)
    /\ (forall pk, pk <> next_pk (students db) ->
          rows (students db') !! pk = rows (students db) !! pk)
    /\ audit_logs db' = audit_logs db ++ [props.created_entry teacher request data]
    /\ sessions db' = sessions db
    /\ data_marks request = Some (serializers.v_marks data)
    /\ 0 <= serializers.v_marks data <= 100.
Proof.
  intros Hser Hfresh Hip.
  eexists. split; [exact (StudentCreateView_post_created db teacher request data
                            Hser Hfresh Hip)|].
  cbn. split; [apply lookup_insert_eq|].
  split; [intros pk Hpk; now apply lookup_insert_ne|].
  split; [reflexivity|]. split; [reflexivity|].
  unfold serializers.StudentCreateUpdateSerializer in Hser.
  destruct (serializers.run_field _ _ (data_name request)); [|discriminate].
  destruct (serializers.run_field _ _ (data_subject request)); [|discriminate].
  unfold serializers.run_field, serializers.IntegerField_run_validation in Hser.
  destruct (data_marks request) as [m|]; [|discriminate].
  destruct (serializers.validate_marks m) as [v|] eqn:Hv; [|discriminate].
  apply validate_marks_range in Hv as [-> Hrange].
  injection Hser as <-. cbn. auto.
Qed.

(** X13: a valid add request that names a student the teacher already has,
    with a total of at most 100, from a recordable address, stores the sum
    in that row and changes no other row, appends one UPDATE_MARKS entry
    with the old marks, the total and the client address as the address
    column takes it, and answers 201 with the total. *)
Theorem add_merges_marks `{Ipv6} (db : DB) (teacher : Z) (request : HttpRequest)
    (data : serializers.StudentData) (pk : Z) (stu : Student.row) :
  serializers.StudentCreateUpdateSerializer request = inl data ->
  rows (students db) !! pk = Some stu ->
  props.identifies data teacher stu ->
  props.unique_together (students db) ->
  Student.marks stu + serializers.v_marks data <= 100 ->
  props.recordable (utils.get_client_ip request) = true ->
  let total := Student.marks stu + serializers.v_marks data in
  exists extra db',
    views.StudentCreateView_post teacher request db
    = (Return (Response
                 (props.saved_fields
                    (props.merged_message (serializers.v_name data) total) pk total
                  ++ extra)
                 HTTP_201_CREATED), db')
    /\ (extra = [] \/ extra = props.student_field pk (props.with_marks stu total))
    /\ rows (students db') !! pk = Some (props.with_marks stu total)
    /\ (forall pk', pk' <> pk -> rows (students db') !! pk' = rows (students db) !! pk')
    /\ next_pk (students db') = next_pk (students db)
    /\ audit_logs db'
       = audit_logs db ++ [props.merged_entry teacher request data (Student.marks stu)].
Proof.
  intros Hser Hrow Hid Huniq Hcap Hip total.
  pose proof (StudentCreateView_post_merged db teacher request data pk stu
                Hser Hrow Hid Huniq Hcap Hip) as Hpost.
  cbv zeta in Hpost. fold total in Hpost.
  eexists _, _. split; [exact Hpost|].
  split; [destruct (contains _ _); auto|].
  cbn. split; [apply lookup_insert_eq|].
  split; [intros pk' Hpk'; now apply lookup_insert_ne|]. auto.
Qed.

(** X14: the handler tells a creation from a merge by looking for the words
    "added successfully" in the message, and the merge message quotes the
    student's name: a merge for a student whose name contains those words
    is answered like a creation, with the row under [student]. *)
Theorem merge_answered_as_creation `{Ipv6} (db : DB) (teacher : Z) (request : HttpRequest)
    (data : serializers.StudentData) (pk : Z) (stu : Student.row) :
  serializers.StudentCreateUpdateSerializer request = inl data ->
  rows (students db) !! pk = Some stu ->
  props.identifies data teacher stu ->
  props.unique_together (students db) ->
  Student.marks stu + serializers.v_marks data <= 100 ->
  props.recordable (utils.get_client_ip request) = true ->
  contains (lit "added successfully") (serializers.v_name data) = true ->
  let total := Student.marks stu + serializers.v_marks data in
  (views.StudentCreateView_post teacher request db).1
  = Return (Response
              (props.saved_fields
                 (props.merged_message (serializers.v_name data) total) pk total
               ++ props.student_field pk (props.with_marks stu total))
              HTTP_201_CREATED).
Proof.
  intros Hser Hrow Hid Huniq Hcap Hip Hwords total.
  rewrite (StudentCreateView_post_merged db teacher request data pk stu
             Hser Hrow Hid Huniq Hcap Hip).
  cbn [fst]. fold total.
  assert (contains (lit "added successfully")
            (props.merged_message (serializers.v_name data) total) = true) as ->;
    [|reflexivity].
  unfold props.merged_message. apply contains_app_r, contains_app_l, Hwords.
Qed.

Lemma fresh_identity_select db teacher data :
  props.fresh_identity db teacher data ->
  select (models.same_identity (serializers.v_name data) (serializers.v_subject data)
            teacher) (students db) = [].
Proof.
  intros Hfresh. apply select_nil. intros pk stu Hl.
  apply same_identity_false. exact (Hfresh pk stu Hl).
Qed.

Lemma StudentCreateView_post_over_cap `{Ipv6} db teacher request data pk stu :
  serializers.StudentCreateUpdateSerializer request = inl data ->
  rows (students db) !! pk = Some stu ->
  props.identifies data teacher stu ->
  props.unique_together (students db) ->
  Student.marks stu + serializers.v_marks data > 100 ->
  views.StudentCreateView_post teacher request db
  = (Return (props.failed "Server error occurred"), db).
Proof.
  intros Hser Hrow (Hname & Hsubject & Hteacher) Huniq Hcap.
  unfold views.StudentCreateView_post. rewrite Hser.
  destruct data as [name subject b]. simpl in Hname, Hsubject, Hcap. subst name subject.
  unfold try_except, atomic, bind.
  now rewrite (create_over_cap db teacher _ stu pk b Hrow Hteacher Huniq Hcap).
Qed.

(** X15: two valid add requests for the same new name and subject, with
    marks [a] then [b]: the first creates the row with [a]; the second
    merges into it.  When [a + b <= 100] the row ends with [a + b] and the
    log with a CREATE_STUDENT and an UPDATE_MARKS entry, each with the
    address of its request as the address column takes it; when
    [a + b > 100] the second request is answered with status 500 and
    changes nothing, the row keeps [a]. *)
Theorem add_twice_sums_or_refuses `{Ipv6} (db : DB) (teacher : Z)
    (request1 request2 : HttpRequest) (data1 data2 : serializers.StudentData) :
  serializers.StudentCreateUpdateSerializer request1 = inl data1 ->
  serializers.StudentCreateUpdateSerializer request2 = inl data2 ->
  serializers.v_name data2 = serializers.v_name data1 ->
  serializers.v_subject data2 = serializers.v_subject data1 ->
  props.fresh_identity db teacher data1 ->
  props.unique_together (students db) ->
  props.recordable (utils.get_client_ip request1) = true ->
  props.recordable (utils.get_client_ip request2) = true ->
  let a := serializers.v_marks data1 in
  let b := serializers.v_marks data2 in
  let pk := next_pk (students db) in
  exists response1 db1 response2 db2,
    views.StudentCreateView_post teacher request1 db = (Return response1, db1)
    /\ views.StudentCreateView_post teacher request2 db1 = (Return response2, db2)
    /\ rows (students db1) !! pk = Some (props.new_student teacher data1)
    /\ (a + b <= 100 ->
        status_code response2 = 201
        /\ rows (students db2) !! pk
           = Some (props.with_marks (props.new_student teacher data1) (a + b))
        /\ audit_logs db2
           = audit_logs db ++ [props.created_entry teacher request1 data1;
                               props.merged_entry teacher request2 data2 a])
    /\ (a + b > 100 ->
        response2 = props.failed "Server error occurred" /\ db2 = db1).
Proof.
  intros Hser1 Hser2 Hname Hsubject Hfresh Huniq Hip1 Hip2 a b pk.
  pose proof (StudentCreateView_post_created db teacher request1 data1 Hser1 Hfresh Hip1)
    as Hpost1.
  set (db1 := props.recorded (props.created_entry teacher request1 data1)
                (insert_row (props.new_student teacher data1) (students db)).2 db)
    in Hpost1.
  assert (rows (students db1) !! pk = Some (props.new_student teacher data1)) as Hrow
    by apply lookup_insert_eq.
  assert (props.identifies data2 teacher (props.new_student teacher data1)) as Hid
    by (repeat split; simpl; congruence).
  assert (props.unique_together (students db1)) as Huniq1.
  { apply (students_change_unique (students db)); [|exact Huniq].
    apply props.change_insert. exact (fresh_identity_select db teacher data1 Hfresh). }
  destruct (Z_le_gt_dec (a + b) 100) as [Hle|Hgt].
  - pose proof (StudentCreateView_post_merged db1 teacher request2 data2 pk _
                  Hser2 Hrow Hid Huniq1 Hle Hip2) as Hpost2.
    cbv zeta in Hpost2.
    eexists _, db1, _, _. split; [exact Hpost1|]. split; [exact Hpost2|].
    split; [exact Hrow|]. split; [|intros; lia].
    intros _. split; [reflexivity|]. cbn. split; [apply lookup_insert_eq|].
    now rewrite <- app_assoc.
  - pose proof (StudentCreateView_post_over_cap db1 teacher request2 data2 pk _
                  Hser2 Hrow Hid Huniq1 Hgt) as Hpost2.
    eexists _, db1, _, _. split; [exact Hpost1|]. split; [exact Hpost2|].
    split; [exact Hrow|]. split; [intros; lia|]. auto.
Qed.

(** ** Inline update and delete, step by step *)

Lemma StudentUpdateView_post_updated `{Ipv6} db teacher request pk stu new_marks :
  rows (students db) !! pk = Some stu ->
  Student.teacher stu = teacher ->
  data_student_id request = Some pk ->
  data_marks request = Some new_marks ->
  0 <= new_marks <= 100 ->
  props.recordable (utils.get_client_ip request) = true ->
  views.StudentUpdateView_post teacher request db
  = (Return (props.done "Marks updated successfully"),
     props.recorded (props.inline_entry teacher request stu new_marks)
       (update_row pk (props.with_marks stu new_marks) (students db)) db).
Proof.
  intros Hrow Hteacher Hid Hmarks Hrange Hip.
  unfold views.StudentUpdateView_post.
  rewrite (MarksUpdateSerializer_valid request pk new_marks Hid Hmarks Hrange).
  cbn [serializers.v_student_id serializers.v_new_marks].
  unfold try_except, atomic, bind at 1.
  rewrite (get_object_or_404_found db pk teacher stu Hrow Hteacher).
  cbn [fst snd]. unfold bind at 1, models.Student_save.
  unfold bind. rewrite AuditLog_objects_create_recordable by exact Hip.
  reflexivity.
Qed.

Lemma StudentDeleteView_post_deleted `{Ipv6} db teacher request pk stu :
  rows (students db) !! pk = Some stu ->
  Student.teacher stu = teacher ->
  data_student_id request = Some pk ->
  props.recordable (utils.get_client_ip request) = true ->
  views.StudentDeleteView_post teacher request db
  = (Return (props.done "Student deleted successfully"),
     props.recorded (props.deleted_entry teacher request stu)
       (delete_row pk (students db)) db).
Proof.
  intros Hrow Hteacher Hid Hip.
  unfold views.StudentDeleteView_post.
  rewrite (StudentDeleteSerializer_valid request pk Hid).
  unfold try_except, atomic, bind at 1.
  rewrite (get_object_or_404_found db pk teacher stu Hrow Hteacher).
  cbn [fst snd]. unfold bind at 1.
  rewrite AuditLog_objects_create_recordable by exact Hip.
  reflexivity.
Qed.

(** X16: two inline updates of an owned student, with marks [m1] then
    [m2]: the row ends with [m2], its name, subject and teacher as before,
    and the log gains two INLINE_UPDATE entries, the second with [m1] as
    its old marks, each with the address of its request as the address
    column takes it. *)
Theorem inline_update_last_write_wins `{Ipv6} (db : DB) (teacher : Z)
    (request1 request2 : HttpRequest) (pk : Z) (stu : Student.row) (m1 m2 : Z) :
  rows (students db) !! pk = Some stu ->
  Student.teacher stu = teacher ->
  data_student_id request1 = Some pk -> data_marks request1 = Some m1 ->
  data_student_id request2 = Some pk -> data_marks request2 = Some m2 ->
  0 <= m1 <= 100 -> 0 <= m2 <= 100 ->
  props.recordable (utils.get_client_ip request1) = true ->
  props.recordable (utils.get_client_ip request2) = true ->
  exists db1 db2,
    views.StudentUpdateView_post teacher request1 db
    = (Return (props.done "Marks updated successfully"), db1)
    /\ views.StudentUpdateView_post teacher request2 db1
       = (Return (props.done "Marks updated successfully"), db2)
    /\ rows (students db2) !! pk = Some (props.with_marks stu m2)
    /\ (forall pk', pk' <> pk -> rows (students db2) !! pk' = rows (students db) !! pk')
    /\ audit_logs db2
       = audit_logs db
         ++ [props.inline_entry teacher request1 stu m1;
             props.inline_entry teacher request2 (props.with_marks stu m1) m2].
Proof.
  intros Hrow Hteacher Hid1 Hm1 Hid2 Hm2 Hr1 Hr2 Hip1 Hip2.
  pose proof (StudentUpdateView_post_updated db teacher request1 pk stu m1
                Hrow Hteacher Hid1 Hm1 Hr1 Hip1) as Hpost1.
  set (db1 := props.recorded _ _ db) in Hpost1.
  assert (rows (students db1) !! pk = Some (props.with_marks stu m1)) as Hrow1
    by apply lookup_insert_eq.
  pose proof (StudentUpdateView_post_updated db1 teacher request2 pk _ m2
                Hrow1 Hteacher Hid2 Hm2 Hr2 Hip2) as Hpost2.
  eexists db1, _. split; [exact Hpost1|]. split; [exact Hpost2|].
  cbn. split; [apply lookup_insert_eq|].
  split; [|now rewrite <- app_assoc].
  intros pk' Hpk'. now rewrite !lookup_insert_ne.
Qed.

(** X17: deleting an owned student from a recordable address removes
    exactly that row and appends one DELETE_STUDENT entry with its last
    marks and the client address as the address column takes it.  The key
    is then gone: on the store that results, a delete or inline update of
    it is answered with status 500 and changes nothing. *)
Theorem delete_removes_student `{Ipv6} (db : DB) (teacher : Z) (request : HttpRequest)
    (pk : Z) (stu : Student.row) :
  rows (students db) !! pk = Some stu ->
  Student.teacher stu = teacher ->
  data_student_id request = Some pk ->
  props.recordable (utils.get_client_ip request) = true ->
  exists db',
    views.StudentDeleteView_post teacher request db
    = (Return (props.done "Student deleted successfully"), db')
    /\ rows (students db') !! pk = None
    /\ (forall pk', pk' <> pk -> rows (students db') !! pk' = rows (students db) !! pk')
    /\ audit_logs db' = audit_logs db ++ [props.deleted_entry teacher request stu]
    /\ (forall who later, data_student_id later = Some pk ->
          views.StudentDeleteView_post who later db'
          = (Return (props.failed "Failed to delete student"), db'))
    /\ (forall who later new_marks, data_student_id later = Some pk ->
          data_marks later = Some new_marks -> 0 <= new_marks <= 100 ->
          views.StudentUpdateView_post who later db'
          = (Return (props.failed "Failed to update marks"), db')).
Proof.
  intros Hrow Hteacher Hid Hip.
  eexists. split; [exact (StudentDeleteView_post_deleted db teacher request pk stu
                            Hrow Hteacher Hid Hip)|].
  set (db' := props.recorded _ _ db).
  assert (rows (students db') !! pk = None) as Hgone by apply lookup_delete_eq.
  split; [exact Hgone|].
  split; [intros pk' Hpk'; now apply lookup_delete_ne|].
  split; [reflexivity|]. split.
  - intros who later Hlater.
    apply (delete_unowned_is_server_error db' who later pk); [|exact Hlater].
    intros stu' Hl. rewrite Hgone in Hl. discriminate.
  - intros who later new_marks Hlater Hmarks Hrange.
    apply (update_unowned_is_server_error db' who later pk new_marks);
      [|exact Hlater|exact Hmarks|exact Hrange].
    intros stu' Hl. rewrite Hgone in Hl. discriminate.
Qed.

(** ** What a handler may touch *)

Lemma AuditLog_objects_create_logged `{Ipv6} r db :
  models.AuditLog_objects_create r db = (Raise IntegrityError, db)
  \/ (models.AuditLog_objects_create r db
      = (Return tt, set_audit_logs (audit_logs db ++ [props.stored r]) db)
      /\ props.recordable (AuditLog.ip_address r) = true).
Proof.
  destruct (props.recordable (AuditLog.ip_address r)) eqn:Hip.
  - right. split; [now apply AuditLog_objects_create_recordable|reflexivity].
  - left. now apply AuditLog_objects_create_unrecordable.
Qed.

Ltac audit_logged :=
  match goal with
  | |- context [models.AuditLog_objects_create ?r ?d] =>
      destruct (AuditLog_objects_create_logged r d) as [-> | [-> ?]]
  end.

Ltac untouched :=
  intros [= <- <-]; split; [apply props.owned_none|];
  split; [reflexivity|]; split; [reflexivity|]; left; reflexivity.

Ltac touched :=
  intros [= <- <-]; cbn [students sessions teachers set_students set_audit_logs];
  split; [|split; [reflexivity|]; split; [reflexivity|];
           right; eexists; split; [reflexivity|];
           split; [reflexivity|]; split; [simpl; tauto|]; split; [reflexivity|assumption]].

Lemma StudentCreateView_post_effect `{Ipv6} teacher request db out db' :
  views.StudentCreateView_post teacher request db = (out, db') ->
  props.handler_effect teacher ["CREATE_STUDENT"; "UPDATE_MARKS"]%string request db db'.
Proof.
  unfold views.StudentCreateView_post, props.handler_effect, props.logged.
  destruct (serializers.StudentCreateUpdateSerializer request) as [data|errors];
    [|untouched].
  unfold try_except at 1, atomic, bind at 1, serializers.create, try_except, bind at 1,
    models.Student_objects_get.
  destruct (get _ _ _) as [[pk stu]|e] eqn:Hget; cbn [fst snd].
  - apply get_Return in Hget as [Hrow Hid].
    apply same_identity_true in Hid as (_ & _ & Hteacher).
    destruct (utils.calculate_new_marks _ _) as [[[] total] message];
      cbn [negb]; cbv beta iota; [|untouched].
    unfold bind at 1, models.Student_save, bind at 1.
    audit_logged; [untouched|]. touched.
    exact (props.owned_marks teacher _ pk stu total Hrow Hteacher).
  - destruct e as [[]| | | | |]; try untouched.
    unfold bind at 1, models.Student_objects_create.
    destruct (select _ _); [|untouched].
    cbn [insert_row fst snd]. unfold bind at 1.
    audit_logged; [untouched|]. touched.
    match goal with |- props.owned_change _ ?t {| rows := <[_ := ?r]> _ |} =>
      exact (props.owned_insert teacher t r eq_refl) end.
Qed.

Lemma owned_by_true id teacher pk stu :
  models.owned_by id teacher (pk, stu) = true -> pk = id /\ Student.teacher stu = teacher.
Proof.
  unfold models.owned_by. simpl. rewrite andb_true_iff, !bool_decide_eq_true. tauto.
Qed.

Lemma StudentUpdateView_post_effect `{Ipv6} teacher request db out db' :
  views.StudentUpdateView_post teacher request db = (out, db') ->
  props.handler_effect teacher ["INLINE_UPDATE"]%string request db db'.
Proof.
  unfold views.StudentUpdateView_post, props.handler_effect, props.logged.
  destruct (serializers.MarksUpdateSerializer request) as [data|errors]; [|untouched].
  unfold try_except at 1, atomic, bind at 1, models.get_object_or_404, try_except,
    models.Student_objects_get_by_id.
  destruct (get _ _ _) as [[pk stu]|e] eqn:Hget; cbn [fst snd].
  - apply get_Return in Hget as [Hrow Hown]. apply owned_by_true in Hown as [_ Hteacher].
    unfold bind at 1, models.Student_save, bind at 1.
    audit_logged; [untouched|]. touched.
    exact (props.owned_marks teacher _ pk stu _ Hrow Hteacher).
  - destruct e as [[]| | | | |]; untouched.
Qed.

Lemma StudentDeleteView_post_effect `{Ipv6} teacher request db out db' :
  views.StudentDeleteView_post teacher request db = (out, db') ->
  props.handler_effect teacher ["DELETE_STUDENT"]%string request db db'.
Proof.
  unfold views.StudentDeleteView_post, props.handler_effect, props.logged.
  destruct (serializers.StudentDeleteSerializer request) as [id|errors]; [|untouched].
  unfold try_except at 1, atomic, bind at 1, models.get_object_or_404, try_except,
    models.Student_objects_get_by_id.
  destruct (get _ _ _) as [[pk stu]|e] eqn:Hget; cbn [fst snd].
  - apply get_Return in Hget as [Hrow Hown]. apply owned_by_true in Hown as [_ Hteacher].
    unfold bind at 1.
    audit_logged; [untouched|]. unfold bind, models.Student_delete. touched.
    exact (props.owned_delete teacher _ pk stu Hrow Hteacher).
  - destruct e as [[]| | | | |]; untouched.
Qed.

Lemma handlers_effect `{Ipv6} view actions teacher request db out db' :
  In (view, actions) props.handlers ->
  view teacher request db = (out, db') ->
  props.handler_effect teacher actions request db db'.
Proof.
  intros [[= <- <-]|[[= <- <-]|[[= <- <-]|[]]]].
  - apply StudentCreateView_post_effect.
  - apply StudentUpdateView_post_effect.
  - apply StudentDeleteView_post_effect.
Qed.

Lemma owned_change_other_rows teacher t t' pk stu :
  props.owned_change teacher t t' -> props.keys_below t ->
  Student.teacher stu <> teacher ->
  rows t' !! pk = Some stu <-> rows t !! pk = Some stu.
Proof.
  intros [|pk0 stu0 marks Hrow Ht|r Ht|pk0 stu0 Hrow Ht] Hkeys Hother;
    cbn [update_row insert_row delete_row rows snd]; [reflexivity| | |].
  - rewrite lookup_insert_Some. split.
    + intros [[_ <-]|[_ Hl]]; [now contradiction Hother|exact Hl].
    + intros Hl. right. split; [|exact Hl]. intros ->. congruence.
  - rewrite lookup_insert_Some. split.
    + intros [[_ <-]|[_ Hl]]; [now contradiction Hother|exact Hl].
    + intros Hl. right. split; [|exact Hl]. intros <-.
      specialize (Hkeys _ _ Hl). lia.
  - rewrite lookup_delete_Some. split.
    + now intros [_ Hl].
    + intros Hl. split; [|exact Hl]. intros ->. congruence.
Qed.

Lemma owned_change_kept_identity teacher t t' pk stu' :
  props.owned_change teacher t t' -> props.keys_below t ->
  rows t' !! pk = Some stu' ->
  (exists stu, rows t !! pk = Some stu
               /\ Student.name stu' = Student.name stu
               /\ Student.subject stu' = Student.subject stu
               /\ Student.teacher stu' = Student.teacher stu)
  \/ (rows t !! pk = None /\ pk = next_pk t /\ Student.teacher stu' = teacher).
Proof.
  intros [|pk0 stu0 marks Hrow Ht|r Ht|pk0 stu0 Hrow Ht] Hkeys;
    cbn [update_row insert_row delete_row rows snd].
  - intros Hl. left. eauto.
  - rewrite lookup_insert_Some. intros [[<- <-]|[_ Hl]]; left; eauto.
  - rewrite lookup_insert_Some. intros [[<- <-]|[_ Hl]]; [right|left; eauto].
    split; [|auto]. destruct (rows t !! next_pk t) as [r0|] eqn:E; [|reflexivity].
    specialize (Hkeys _ _ E). lia.
  - rewrite lookup_delete_Some. intros [_ Hl]. left. eauto.
Qed.

(** X18: whatever the request, a call of the add/merge, inline-update or
    delete handler by one teacher leaves every row of every other teacher
    exactly as it was, and never changes the name, subject or owner of a
    row that stays: a key keeps its student, a new key holds a row of the
    caller.  Teachers and sessions are not touched. *)
Theorem handlers_keep_to_own_rows `{Ipv6} (view : utils.View) (actions : list string)
    (teacher : Z) (request : HttpRequest) (db : DB) :
  In (view, actions) props.handlers ->
  props.keys_below (students db) ->
  let db' := (view teacher request db).2 in
  (forall pk stu, Student.teacher stu <> teacher ->
     rows (students db') !! pk = Some stu <-> rows (students db) !! pk = Some stu)
  /\ (forall pk stu', rows (students db') !! pk = Some stu' ->
        (exists stu, rows (students db) !! pk = Some stu
                     /\ Student.name stu' = Student.name stu
                     /\ Student.subject stu' = Student.subject stu
                     /\ Student.teacher stu' = Student.teacher stu)
        \/ (rows (students db) !! pk = None /\ Student.teacher stu' = teacher))
  /\ teachers db' = teachers db
  /\ sessions db' = sessions db.
Proof.
  intros Hin Hkeys db'. subst db'.
  destruct (view teacher request db) as [out db'] eqn:E. cbn [snd].
  destruct (handlers_effect view actions teacher request db out db' Hin E)
    as (Hchange & Hteachers & Hsessions & _).
  split; [intros pk stu; now apply owned_change_other_rows|].
  split; [|auto].
  intros pk stu' Hl.
  destruct (owned_change_kept_identity teacher _ _ pk stu' Hchange Hkeys Hl)
    as [Hkept|(Hnone & _ & Hnew)]; auto.
Qed.

(** ** The gate in front of a handler *)

Lemma check_auth_admits now request db teacher db1 :
  utils.check_auth now request db = (Return (true, Some teacher), db1) ->
  db1 = db /\ props.has_live_session db now request teacher.
Proof.
  unfold utils.check_auth.
  destruct (COOKIES_session_token request) as [[|c r]|] eqn:Hcookie; try discriminate.
  unfold try_except, bind, models.SessionToken_objects_get.
  destruct (get _ _ _) as [[pk s]|e] eqn:Hget; cbn [fst snd].
  - apply get_Return in Hget as [Hrow Htok].
    unfold models.has_token in Htok. simpl in Htok. apply bool_decide_eq_true in Htok.
    unfold SessionToken.is_valid.
    destruct (Z.ltb_spec now (SessionToken.expires_at s)) as [Hlt|]; [|discriminate].
    cbn [negb]. intros [= <- <-]. split; [reflexivity|].
    exists pk, s. rewrite Htok. auto.
  - destruct e as [[]| | | | |]; discriminate.
Qed.

Lemma require_authentication_effect (Q : Z -> DB -> DB -> Prop) flag view now request
    db out db' :
  (forall teacher db out db', view teacher request db = (out, db') -> Q teacher db db') ->
  utils.require_authentication flag view now request db = (out, db') ->
  db' = db \/ exists teacher, props.has_live_session db now request teacher
                              /\ Q teacher db db'.
Proof.
  intros Hview.
  unfold utils.require_authentication, utils.authenticated_dispatch, utils.wrapper.
  pose proof (check_auth_reads now request db) as Hreads.
  destruct flag; unfold bind;
    (destruct (utils.check_auth now request db) as [[[[] [teacher|]]|e] db1] eqn:Hauth;
     simpl in Hreads; subst db1;
     [intros Hrun; right; exists teacher;
      split; [exact (proj2 (check_auth_admits _ _ _ _ _ Hauth))|exact (Hview _ _ _ _ Hrun)]
     |try destruct (utils.is_ajax request); intros [= <- <-]; left; reflexivity ..]).
Qed.

(** ** What login and logout may touch *)

Lemma create_token_effect now fresh_token teacher db out db' :
  models.create_token now fresh_token teacher db = (out, db') ->
  teachers db' = teachers db /\ students db' = students db
  /\ audit_logs db' = audit_logs db
  /\ (sessions db' = props.kept_sessions teacher db
      \/ sessions db'
         = (insert_row (props.created_session now fresh_token teacher)
              (props.kept_sessions teacher db)).2).
Proof.
  unfold models.create_token, bind, models.SessionToken_objects_filter_delete,
    models.SessionToken_objects_create.
  cbn [sessions set_sessions SessionToken.token].
  destruct (select _ _); intros [= <- <-]; cbn; auto.
Qed.

Lemma LoginView_post_effect `{Hashlib} `{Ipv6} now fresh_token request db out db' :
  views.LoginView_post now fresh_token request db = (out, db') ->
  teachers db' = teachers db /\ students db' = students db
  /\ (db' = db
      \/ exists teacher row,
           rows (teachers db) !! teacher = Some row
           /\ Teacher.username row = props.submitted_username request
           /\ (sessions db' = props.kept_sessions teacher db
               \/ sessions db'
                  = (insert_row (props.created_session now fresh_token teacher)
                       (props.kept_sessions teacher db)).2)
           /\ props.logged teacher ["LOGIN"]%string request db db').
Proof.
  unfold views.LoginView_post.
  destruct (forms.LoginForm request) as [[username password]|errors] eqn:Hform;
    [|intros [= <- <-]; auto].
  apply LoginForm_valid in Hform as (-> & _ & _ & _).
  unfold try_except, bind at 1, models.Teacher_objects_get.
  destruct (get _ _ _) as [[pk teacher]|e] eqn:Hget; cbn [fst snd].
  - apply get_Return in Hget as [Hrow Hname]. simpl in Hname.
    apply bool_decide_eq_true in Hname.
    destruct (Teacher.check_password teacher password); [|intros [= <- <-]; auto].
    unfold bind at 1.
    destruct (models.create_token now fresh_token pk db) as [[session|e] db1] eqn:Htoken;
      apply create_token_effect in Htoken as (Ht & Hs & Ha & Hses).
    + unfold bind. audit_logged; intros [= <- <-]; cbn; (split; [exact Ht|]);
        (split; [exact Hs|]); right; exists pk, teacher;
        (split; [exact Hrow|]); (split; [exact Hname|]); (split; [exact Hses|]).
      * left. exact Ha.
      * right. eexists. split; [cbn; now rewrite Ha|]. cbn. tauto.
    + destruct e as [[]| | | | |]; intros [= <- <-];
        (split; [exact Ht|]); (split; [exact Hs|]); right; exists pk, teacher;
        (split; [exact Hrow|]); (split; [exact Hname|]); (split; [exact Hses|]);
        left; exact Ha.
  - destruct e as [[]| | | | |]; intros [= <- <-]; auto.
Qed.

Lemma LogoutView_post_effect `{Ipv6} request db out db' :
  views.LogoutView_post request db = (out, db') ->
  db' = db
  \/ exists pk session,
       rows (sessions db) !! pk = Some session
       /\ COOKIES_session_token request = Some (SessionToken.token session)
       /\ props.recordable (utils.get_client_ip request) = true
       /\ db' = props.after_logout db pk (SessionToken.teacher session) request.
Proof.
  unfold views.LogoutView_post.
  destruct (COOKIES_session_token request) as [[|c r]|]; try (intros [= <- <-]; auto).
  unfold bind at 1, try_except, bind at 1, models.SessionToken_objects_get.
  destruct (get _ _ _) as [[pk s]|e] eqn:Hget; cbn [fst snd].
  - apply get_Return in Hget as [Hrow Htok].
    unfold models.has_token in Htok. simpl in Htok. apply bool_decide_eq_true in Htok.
    unfold bind at 1. audit_logged; intros [= <- <-]; [auto|].
    right. exists pk, s. rewrite Htok. auto.
  - destruct e as [[]| | | | |]; intros [= <- <-]; auto.
Qed.

(** ** Keys and sessions *)

Lemma keys_below_insert {R} (r : R) (t : Table R) :
  props.keys_below t -> props.keys_below (insert_row r t).2.
Proof.
  intros Hkeys pk r'. cbn [insert_row rows next_pk snd]. rewrite lookup_insert_Some.
  intros [[<- _]|[_ Hl]]; [lia|]. specialize (Hkeys _ _ Hl). lia.
Qed.

Lemma keys_below_update {R} pk0 (r r0 : R) (t : Table R) :
  rows t !! pk0 = Some r0 ->
  props.keys_below t -> props.keys_below (update_row pk0 r t).
Proof.
  intros Hrow Hkeys pk r'. cbn [update_row rows next_pk]. rewrite lookup_insert_Some.
  intros [[<- _]|[_ Hl]]; eauto.
Qed.

Lemma keys_below_delete {R} pk0 (t : Table R) :
  props.keys_below t -> props.keys_below (delete_row pk0 t).
Proof.
  intros Hkeys pk r'. cbn [delete_row rows next_pk]. rewrite lookup_delete_Some.
  intros [_ Hl]. eauto.
Qed.

Lemma keys_below_delete_where {R} (P : Z * R -> bool) (t : Table R) :
  props.keys_below t -> props.keys_below (delete_where P t).
Proof.
  intros Hkeys pk r' Hl. apply delete_where_lookup in Hl as [Hl _].
  exact (Hkeys _ _ Hl).
Qed.

Lemma owned_change_keys_below teacher t t' :
  props.owned_change teacher t t' -> props.keys_below t -> props.keys_below t'.
Proof.
  intros [|pk stu marks Hrow _|r _|pk stu _ _] Hkeys.
  - exact Hkeys.
  - exact (keys_below_update pk _ stu t Hrow Hkeys).
  - now apply keys_below_insert.
  - now apply keys_below_delete.
Qed.

Lemma single_session_kept teacher db :
  props.single_session (sessions db) ->
  props.single_session (props.kept_sessions teacher db).
Proof.
  intros Hsingle pk1 s1 pk2 s2 H1 H2.
  apply delete_where_lookup in H1 as [H1 _], H2 as [H2 _]. eauto.
Qed.

Lemma single_session_created now fresh_token teacher db :
  props.single_session (sessions db) ->
  props.single_session
    (insert_row (props.created_session now fresh_token teacher)
       (props.kept_sessions teacher db)).2.
Proof.
  intros Hsingle pk1 s1 pk2 s2. cbn [insert_row rows snd].
  assert (forall pk s, rows (props.kept_sessions teacher db) !! pk = Some s ->
            SessionToken.teacher s <> teacher) as Hkept.
  { intros pk s Hl. apply delete_where_lookup in Hl as [_ Hb].
    unfold models.of_teacher in Hb. simpl in Hb. now apply bool_decide_eq_false in Hb. }
  rewrite !lookup_insert_Some.
  intros [[E1 <-]|[_ H1]] [[E2 <-]|[_ H2]] Hsame; simpl in Hsame.
  - congruence.
  - exfalso. apply (Hkept _ _ H2). now rewrite Hsame.
  - exfalso. now apply (Hkept _ _ H1).
  - exact (single_session_kept teacher db Hsingle pk1 s1 pk2 s2 H1 H2 Hsame).
Qed.

Lemma single_session_delete pk0 t :
  props.single_session t -> props.single_session (delete_row pk0 t).
Proof.
  intros Hsingle pk1 s1 pk2 s2. cbn [delete_row rows].
  rewrite !lookup_delete_Some. intros [_ H1] [_ H2]. eauto.
Qed.

Lemma run_sessions `{Hashlib} `{Ipv6} op db :
  props.single_session (sessions db) -> props.keys_below (sessions db) ->
  props.single_session (sessions (props.run op db))
  /\ props.keys_below (sessions (props.run op db)).
Proof.
  intros Hsingle Hkeys.
  destruct op as [now tok request|request|now request|now request|now request];
    unfold props.run.
  - destruct (views.LoginView_post now tok request db) as [out db'] eqn:E. cbn [snd].
    apply LoginView_post_effect in E
      as (_ & _ & [->|(teacher & row & _ & _ & [Hses|Hses] & _)]);
      [auto|rewrite Hses ..].
    + split; [now apply single_session_kept|now apply keys_below_delete_where].
    + split; [now apply single_session_created|].
      now apply keys_below_insert, keys_below_delete_where.
  - destruct (views.LogoutView_post request db) as [out db'] eqn:E. cbn [snd].
    apply LogoutView_post_effect in E as [->|(pk & s & _ & _ & _ & ->)]; [auto|].
    cbn. split; [now apply single_session_delete|now apply keys_below_delete].
  - destruct (require_authentication_change false views.StudentCreateView_post
                now request db) as [_ Hs];
      [intros ? ? ? ?; apply StudentCreateView_post_change|].
    unfold views.add_student. rewrite Hs. auto.
  - destruct (require_authentication_change false views.StudentUpdateView_post
                now request db) as [_ Hs];
      [intros ? ? ? ?; apply StudentUpdateView_post_change|].
    unfold views.update_marks. rewrite Hs. auto.
  - destruct (require_authentication_change false views.StudentDeleteView_post
                now request db) as [_ Hs];
      [intros ? ? ? ?; apply StudentDeleteView_post_change|].
    unfold views.delete_student. rewrite Hs. auto.
Qed.

Lemma gated_handler_effect `{Ipv6} view actions now request db out db' :
  In (view, actions) props.handlers ->
  utils.require_authentication false view now request db = (out, db') ->
  db' = db
  \/ exists teacher, props.has_live_session db now request teacher
                     /\ props.handler_effect teacher actions request db db'.
Proof.
  intros Hin.
  apply (require_authentication_effect
           (fun teacher db db' => props.handler_effect teacher actions request db db')).
  intros teacher db0 out0 db0'. now apply handlers_effect.
Qed.

Lemma run_students_teachers `{Hashlib} `{Ipv6} op db :
  props.keys_below (students db) ->
  props.keys_below (students (props.run op db))
  /\ teachers (props.run op db) = teachers db.
Proof.
  intros Hkeys.
  assert (forall view actions now request,
            In (view, actions) props.handlers ->
            props.keys_below
              (students (utils.require_authentication false view now request db).2)
            /\ teachers (utils.require_authentication false view now request db).2
               = teachers db) as Hgated.
  { intros view actions now request Hin.
    destruct (utils.require_authentication false view now request db)
      as [out db'] eqn:E. cbn [snd].
    apply (gated_handler_effect view actions now request db out db' Hin) in E
      as [->|(teacher & _ & Hchange & Hteachers & _)]; [auto|].
    split; [exact (owned_change_keys_below teacher _ _ Hchange Hkeys)|exact Hteachers]. }
  destruct op as [now tok request|request|now request|now request|now request];
    unfold props.run.
  - rewrite LoginView_post_students. split; [exact Hkeys|].
    destruct (views.LoginView_post now tok request db) as [out db'] eqn:E. cbn [snd].
    now apply LoginView_post_effect in E as (Ht & _).
  - rewrite LogoutView_post_students. split; [exact Hkeys|].
    destruct (views.LogoutView_post request db) as [out db'] eqn:E. cbn [snd].
    now apply LogoutView_post_effect in E as [->|(pk & s & _ & _ & _ & ->)].
  - apply (Hgated _ ["CREATE_STUDENT"; "UPDATE_MARKS"]%string). simpl. auto.
  - apply (Hgated _ ["INLINE_UPDATE"]%string). simpl. auto.
  - apply (Hgated _ ["DELETE_STUDENT"]%string). simpl. auto.
Qed.

(** X19: each of the five operations, whatever its request, takes a
    well-formed store to a well-formed store: no two students of a teacher
    share name and subject, no two sessions share a token, no teacher holds
    two sessions, all marks lie in [0, 100], and every key in use lies
    below its table's next key.  None of them changes the teachers. *)
Theorem operations_keep_store_well_formed `{Hashlib} `{Ipv6} (op : props.operation) (db : DB) :
  props.well_formed db ->
  props.well_formed (props.run op db) /\ teachers (props.run op db) = teachers db.
Proof.
  intros (Hstu & Htok & Hsingle & Hrange & Hkstu & Hkses).
  destruct (run_keeps_constraints op db Hstu Htok) as [Hstu' Htok'].
  destruct (run_sessions op db Hsingle Hkses) as [Hsingle' Hkses'].
  destruct (run_students_teachers op db Hkstu) as [Hkstu' Hteachers].
  split; [|exact Hteachers].
  split; [exact Hstu'|]. split; [exact Htok'|]. split; [exact Hsingle'|].
  split; [now apply run_in_range|]. split; [exact Hkstu'|exact Hkses'].
Qed.

(** X20: the audit log only grows, by at most one entry per operation.
    The entry carries an action of that operation and the request's client
    address as the address column takes it (in its normal form when it is a
    valid IPv6 address), which is not empty, and it is written for a stored
    teacher with the submitted username (login), for the holder of the
    cookie's session (logout), or for the holder of an unexpired session
    with the cookie's token (add/merge, inline update, delete). *)
Theorem audit_log_grows_by_one_entry `{Hashlib} `{Ipv6} (op : props.operation) (db : DB) :
  audit_logs (props.run op db) = audit_logs db
  \/ exists entry,
       audit_logs (props.run op db) = audit_logs db ++ [entry]
       /\ In (AuditLog.action entry) (props.actions_of op)
       /\ AuditLog.ip_address entry
          = models.get_db_prep_value (utils.get_client_ip (props.request_of op))
       /\ props.recordable (AuditLog.ip_address entry) = true
       /\ props.acts_for db op (AuditLog.teacher entry).
Proof.
  assert (forall view actions now request,
            In (view, actions) props.handlers ->
            audit_logs (utils.require_authentication false view now request db).2
            = audit_logs db
            \/ exists entry,
                 audit_logs (utils.require_authentication false view now request db).2
                 = audit_logs db ++ [entry]
                 /\ In (AuditLog.action entry) actions
                 /\ AuditLog.ip_address entry
                    = models.get_db_prep_value (utils.get_client_ip request)
                 /\ props.recordable (AuditLog.ip_address entry) = true
                 /\ props.has_live_session db now request (AuditLog.teacher entry))
    as Hgated.
  { intros view actions now request Hin.
    destruct (utils.require_authentication false view now request db)
      as [out db'] eqn:E. cbn [snd].
    apply (gated_handler_effect view actions now request db out db' Hin) in E
      as [->|(teacher & Hlive & _ & _ & _ & [Hlog|Hlog])]; [auto|auto|].
    destruct Hlog as (entry & Hlog & <- & Hact & Hip & Hrec).
    apply get_db_prep_value_recordable in Hrec.
    right. exists entry. rewrite Hip. auto. }
  destruct op as [now tok request|request|now request|now request|now request];
    unfold props.run; cbn [props.actions_of props.request_of props.acts_for].
  - destruct (views.LoginView_post now tok request db) as [out db'] eqn:E. cbn [snd].
    apply LoginView_post_effect in E
      as (_ & _ & [->|(teacher & row & Hrow & Hname & _ & [Hlog|Hlog])]); auto.
    destruct Hlog as (entry & Hlog & <- & Hact & Hip & Hrec).
    apply get_db_prep_value_recordable in Hrec.
    right. exists entry. rewrite Hip. eauto 10.
  - destruct (views.LogoutView_post request db) as [out db'] eqn:E. cbn [snd].
    apply LogoutView_post_effect in E as [->|(pk & s & Hrow & Hcookie & Hrec & ->)];
      [auto|].
    apply get_db_prep_value_recordable in Hrec.
    right. eexists. split; [reflexivity|]. cbn. eauto 10.
  - apply (Hgated views.StudentCreateView_post). simpl. auto.
  - apply (Hgated views.StudentUpdateView_post). simpl. auto.
  - apply (Hgated views.StudentDeleteView_post). simpl. auto.
Qed.

(** ** A token that is already taken *)

(** X21: when the fresh token is already the token of another teacher's
    session, [create_token] raises [IntegrityError] after it has deleted
    the teacher's own sessions: they are gone, nothing else changed, and a
    login with valid credentials ends in that exception. *)
Theorem create_token_collision `{Hashlib} `{Ipv6} (db : DB) (now : Z) (fresh_token : str)
    (request : HttpRequest) (username password : str) (pk : Z) (teacher : Teacher.row)
    (taken : Z) (session : SessionToken.row) :
  rows (sessions db) !! taken = Some session ->
  SessionToken.token session = fresh_token ->
  SessionToken.teacher session <> pk ->
  forms.LoginForm request = inl (username, password) ->
  props.names_teacher db username pk teacher ->
  Teacher.check_password teacher password = true ->
  models.create_token now fresh_token pk db
  = (Raise IntegrityError, set_sessions (props.kept_sessions pk db) db)
  /\ views.LoginView_post now fresh_token request db
     = (Raise IntegrityError, set_sessions (props.kept_sessions pk db) db)
  /\ (forall pk' s', rows (props.kept_sessions pk db) !! pk' = Some s' ->
        SessionToken.teacher s' <> pk)
  /\ (forall pk' s', rows (sessions db) !! pk' = Some s' ->
        SessionToken.teacher s' <> pk ->
        rows (props.kept_sessions pk db) !! pk' = Some s').
Proof.
  intros Hrow Htok Hother Hform Hteacher Hcheck.
  assert (models.create_token now fresh_token pk db
          = (Raise IntegrityError, set_sessions (props.kept_sessions pk db) db))
    as Hcreate.
  { unfold models.create_token, bind, models.SessionToken_objects_filter_delete,
      models.SessionToken_objects_create.
    cbn [sessions set_sessions SessionToken.token].
    fold (props.kept_sessions pk db).
    destruct (select _ _) as [|x l] eqn:Hsel; [|reflexivity].
    exfalso.
    assert (In (taken, session)
              (select (models.has_token fresh_token) (props.kept_sessions pk db)))
      as Hin; [|rewrite Hsel in Hin; exact Hin].
    apply select_In. split.
    - apply delete_where_lookup. split; [exact Hrow|].
      unfold models.of_teacher. simpl. now apply bool_decide_eq_false.
    - unfold models.has_token. simpl. now apply bool_decide_eq_true. }
  split; [exact Hcreate|]. split.
  - unfold views.LoginView_post. rewrite Hform.
    unfold try_except, bind at 1.
    rewrite (Teacher_objects_get_found db username pk teacher Hteacher).
    cbn [fst snd]. rewrite Hcheck. unfold bind at 1. now rewrite Hcreate.
  - split.
    + intros pk' s' Hl. apply delete_where_lookup in Hl as [_ Hb].
      unfold models.of_teacher in Hb. simpl in Hb. now apply bool_decide_eq_false in Hb.
    + intros pk' s' Hl Hne. apply delete_where_lookup. split; [exact Hl|].
      unfold models.of_teacher. simpl. now apply bool_decide_eq_false.
Qed.

(** ** The two list queries *)

Section student_list.

Context `{Collation}.
Hypothesis collate_total : Total collate_le.
Hypothesis collate_trans : Transitive collate_le.

Lemma by_name_subject_total : Total views.by_name_subject.
Proof.
  intros a b. unfold views.by_name_subject.
  destruct (collate_total (Student.name a.2) (Student.name b.2)) as [Hab|Hba].
  - destruct (decide (collate_le (Student.name b.2) (Student.name a.2))) as [Hba|Hba];
      [|left; left; auto].
    destruct (collate_total (Student.subject a.2) (Student.subject b.2));
      [left|right]; right; auto.
  - destruct (decide (collate_le (Student.name a.2) (Student.name b.2))) as [Hab|Hab];
      [|right; left; auto].
    destruct (collate_total (Student.subject a.2) (Student.subject b.2));
      [left|right]; right; auto.
Qed.

Lemma by_name_subject_trans : Transitive views.by_name_subject.
Proof.
  intros a b c. unfold views.by_name_subject.
  intros [[Hab Hnba]|(Hab & Hba & Hsab)] [[Hbc Hncb]|(Hbc & Hcb & Hsbc)].
  - left. split; [etransitivity; eauto|]. intros Hca. apply Hnba. etransitivity; eauto.
  - left. split; [etransitivity; eauto|]. intros Hca. apply Hnba. etransitivity; eauto.
  - left. split; [etransitivity; eauto|]. intros Hca. apply Hncb. etransitivity; eauto.
  - right. split; [etransitivity; eauto|]. split; etransitivity; eauto.
Qed.

Lemma StronglySorted_lookup {A} (R : relation A) (l : list A) i j a b :
  StronglySorted R l -> (i < j)%nat -> l !! i = Some a -> l !! j = Some b -> R a b.
Proof.
  intros Hsorted. revert i j. induction Hsorted as [|x l _ IH Hall]; intros i j Hij.
  - intros Hi. rewrite lookup_nil in Hi. discriminate.
  - destruct j as [|j]; [lia|]. destruct i as [|i]; simpl.
    + intros [= <-] Hj. rewrite Forall_forall in Hall. apply Hall.
      eapply list_elem_of_lookup_2, Hj.
    + apply IH. lia.
Qed.

(** X22: the student list of a teacher holds exactly the teacher's stored
    rows, each once.  Under a collation that is total and transitive it is
    in the order of [order_by('name', 'subject')]: of two rows of the list
    the earlier one has the name that collates first or equal, and where
    the two names collate equal, the subject that collates first or
    equal. *)
Theorem student_list_own_rows_sorted (teacher : Z) (db : DB) :
  (forall pk stu,
     In (pk, stu) (views.StudentListView_students teacher db)
     <-> rows (students db) !! pk = Some stu /\ Student.teacher stu = teacher)
  /\ NoDup (views.StudentListView_students teacher db)
  /\ (forall i j a b,
        (i < j)%nat ->
        views.StudentListView_students teacher db !! i = Some a ->
        views.StudentListView_students teacher db !! j = Some b ->
        collate_le (Student.name a.2) (Student.name b.2)
        /\ (collate_le (Student.name b.2) (Student.name a.2) ->
            collate_le (Student.subject a.2) (Student.subject b.2))).
Proof.
  split; [|split].
  - unfold views.StudentListView_students.
    pose proof (merge_sort_Permutation views.by_name_subject
                  (select (views.taught_by teacher) (students db))) as Hperm.
    intros pk stu. rewrite <- list_elem_of_In, Hperm, list_elem_of_In, select_In.
    unfold views.taught_by. simpl. now rewrite bool_decide_eq_true.
  - unfold views.StudentListView_students.
    rewrite (merge_sort_Permutation views.by_name_subject). apply select_NoDup.
  - intros i j a b Hij Hi Hj.
    assert (views.by_name_subject a b) as [[Hle Hnot]|(Hle & Hge & Hsubject)].
    { apply (StronglySorted_lookup _ _ i j a b
               (@StronglySorted_merge_sort _ _ _ by_name_subject_trans
                  by_name_subject_total _) Hij Hi Hj). }
    + split; [exact Hle|]. intros Hge. contradiction.
    + split; [exact Hle|]. intros _. exact Hsubject.
Qed.

End student_list.

Lemma AuditLogView_logs_app teacher db entry :
  views.AuditLogView_logs teacher (set_audit_logs (audit_logs db ++ [entry]) db)
  = if bool_decide (AuditLog.teacher entry = teacher)
    then entry :: take 99 (views.AuditLogView_logs teacher db)
    else views.AuditLogView_logs teacher db.
Proof.
  unfold views.AuditLogView_logs. cbn [audit_logs set_audit_logs].
  rewrite List.filter_app, rev_app_distr. simpl.
  destruct (bool_decide (AuditLog.teacher entry = teacher)); [|reflexivity].
  simpl. f_equal. rewrite take_take. reflexivity.
Qed.

(** X23: the audit list of a teacher shows at most 100 entries, all of that
    teacher, in the reverse of the order they were written.  One more entry
    of the teacher comes first and pushes the others down, the hundredth
    out; an entry of another teacher does not change the list. *)
Theorem audit_list_newest_hundred (teacher : Z) (db : DB) (entry : AuditLog.row) :
  (length (views.AuditLogView_logs teacher db) <= 100)%nat
  /\ Forall (fun e => AuditLog.teacher e = teacher /\ In e (audit_logs db))
       (views.AuditLogView_logs teacher db)
  /\ (forall older newer, audit_logs db = older ++ newer ->
        Forall (fun e => AuditLog.teacher e = teacher) newer ->
        (length newer <= 100)%nat ->
        take (length newer) (views.AuditLogView_logs teacher db) = rev newer)
  /\ (AuditLog.teacher entry = teacher ->
      views.AuditLogView_logs teacher (set_audit_logs (audit_logs db ++ [entry]) db)
      = entry :: take 99 (views.AuditLogView_logs teacher db))
  /\ (AuditLog.teacher entry <> teacher ->
      views.AuditLogView_logs teacher (set_audit_logs (audit_logs db ++ [entry]) db)
      = views.AuditLogView_logs teacher db).
Proof.
  split; [unfold views.AuditLogView_logs; rewrite length_take; lia|].
  split.
  { unfold views.AuditLogView_logs. apply Forall_take, Forall_forall.
    intros e He. apply list_elem_of_In, in_rev, filter_In in He as [Hin He].
    now apply bool_decide_eq_true in He. }
  split.
  { intros older newer Hlog Hall Hlen. unfold views.AuditLogView_logs.
    rewrite Hlog, List.filter_app, rev_app_distr.
    assert (List.filter (fun r => bool_decide (AuditLog.teacher r = teacher)) newer
            = newer) as ->.
    { clear Hlen Hlog. induction Hall as [|e l He _ IH]; [reflexivity|].
      simpl. rewrite (bool_decide_eq_true_2 _ He). now rewrite IH. }
    rewrite take_take, Nat.min_l by exact Hlen.
    rewrite take_app_le by (rewrite length_rev; lia).
    apply take_ge. rewrite length_rev. lia. }
  split; intros Hentry; rewrite AuditLogView_logs_app.
  - now rewrite (bool_decide_eq_true_2 _ Hentry).
  - now rewrite (bool_decide_eq_false_2 _ Hentry).
Qed.

(** ** The form and the serializer of a student *)

Lemma CharField_layers_agree value n :
  forms.CharField_clean (Some 100%nat) value = forms.Cleaned n
  <-> serializers.CharField_run_validation 100 value = forms.Cleaned n.
Proof.
  unfold forms.CharField_clean, serializers.CharField_run_validation.
  destruct value as [data|]; [|split; intros E; [vm_compute in E|]; discriminate E].
  change (default [] (Some data)) with data.
  destruct (bool_decide (strip data = [])); [split; intros E; discriminate E|].
  destruct (100 <? length (strip data))%nat; [split; intros E; discriminate E|].
  destruct (existsb _ (strip data)); [split; intros E; discriminate E|]. reflexivity.
Qed.

Lemma marks_layers_agree value m :
  forms.clean_int_field (forms.IntegerField_clean 0 100) forms.clean_marks value
  = forms.Cleaned m
  <-> serializers.run_field serializers.IntegerField_run_validation
        serializers.validate_marks value = forms.Cleaned m.
Proof.
  unfold forms.clean_int_field, serializers.run_field, forms.IntegerField_clean,
    serializers.IntegerField_run_validation, forms.clean_marks,
    serializers.validate_marks, utils.validate_marks.
  destruct value as [k|]; [|split; intros E; discriminate E].
  repeat (match goal with
          | |- context [Z.ltb ?a ?b] => destruct (Z.ltb_spec a b)
          | |- context [Z.gtb ?a ?b] => destruct (Z.gtb_spec a b)
          end; try lia; simpl);
    try (split; intros E; discriminate E); reflexivity.
Qed.

Lemma text_layers_agree (hook : str -> forms.cleaned str) value n :
  forms.clean_field (forms.CharField_clean (Some 100%nat)) hook value = forms.Cleaned n
  <-> serializers.run_field (serializers.CharField_run_validation 100) hook value
      = forms.Cleaned n.
Proof.
  unfold forms.clean_field, serializers.run_field.
  destruct (forms.CharField_clean (Some 100%nat) value) as [a|msgs] eqn:E1.
  - apply CharField_layers_agree in E1. now rewrite E1.
  - destruct (serializers.CharField_run_validation 100 value) as [b|msgs'] eqn:E2.
    + apply CharField_layers_agree in E2. congruence.
    + split; intros E; discriminate E.
Qed.

Lemma StudentForm_marks_errors value msgs :
  forms.clean_int_field (forms.IntegerField_clean 0 100) forms.clean_marks value
  = forms.FieldErrors msgs ->
  ~ In props.marks_message msgs.
Proof.
  unfold forms.clean_int_field, forms.IntegerField_clean, forms.clean_marks.
  destruct value as [k|]; [|intros [= <-] [E|[]]; discriminate E].
  destruct (Z.ltb_spec 100 k), (Z.ltb_spec k 0); try lia; simpl.
  - intros [= <-] [E|[]]. discriminate E.
  - intros [= <-] [E|[]]. discriminate E.
  - destruct (Z.ltb_spec k 0), (Z.gtb_spec k 100); try lia. discriminate.
Qed.

(** X24: [StudentForm] and [StudentCreateUpdateSerializer] are two copies
    of one validation: on the same name, subject and marks they accept
    together and hand on the same cleaned values.  In the form the range
    check of [clean_marks] can never fire, its [IntegerField] has already
    turned the value down: the form never reports "Marks must be between 0
    and 100".  The hooks of [LoginSerializer] are those of [LoginForm]. *)
Theorem form_and_serializer_agree (request : HttpRequest) :
  (forall name subject marks,
     forms.StudentForm (data_name request) (data_subject request) (data_marks request)
     = inl (name, subject, marks)
     <-> serializers.StudentCreateUpdateSerializer request
         = inl {| serializers.v_name := name; serializers.v_subject := subject;
                  serializers.v_marks := marks |})
  /\ (forall errors,
        forms.StudentForm (data_name request) (data_subject request) (data_marks request)
        = inr errors ->
        ~ In ("marks"%string, props.marks_message) errors)
  /\ (forall value,
        serializers.LoginSerializer_validate_username value = forms.clean_username value
        /\ serializers.LoginSerializer_validate_password value
           = forms.clean_password value).
Proof.
  split; [|split].
  - intros name subject marks.
    unfold forms.StudentForm, serializers.StudentCreateUpdateSerializer.
    change serializers.validate_name with forms.clean_name.
    change serializers.validate_subject with forms.clean_subject.
    split; intros E.
    + destruct (forms.clean_field _ _ (data_name request)) as [a|] eqn:E1;
        destruct (forms.clean_field _ _ (data_subject request)) as [b|] eqn:E2;
        destruct (forms.clean_int_field _ _ (data_marks request)) as [c|] eqn:E3;
        try discriminate E.
      injection E as -> -> ->.
      apply text_layers_agree in E1. apply text_layers_agree in E2.
      apply marks_layers_agree in E3. now rewrite E1, E2, E3.
    + destruct (serializers.run_field _ _ (data_name request)) as [a|] eqn:E1;
        destruct (serializers.run_field _ _ (data_subject request)) as [b|] eqn:E2;
        destruct (serializers.run_field _ _ (data_marks request)) as [c|] eqn:E3;
        try discriminate E.
      injection E as -> -> ->.
      apply text_layers_agree in E1. apply text_layers_agree in E2.
      apply marks_layers_agree in E3. now rewrite E1, E2, E3.
  - intros errors. unfold forms.StudentForm.
    destruct (forms.clean_int_field _ _ (data_marks request)) as [c|msgs] eqn:E3.
    + destruct (forms.clean_field _ _ (data_name request)) as [a|m1];
        destruct (forms.clean_field _ _ (data_subject request)) as [b|m2];
        try discriminate; intros [= <-]; cbn [forms.errors_of];
        rewrite ?app_nil_r, ?in_app_iff, !in_map_iff;
        intros Hin; decompose [or ex and] Hin; discriminate.
    + pose proof (StudentForm_marks_errors _ _ E3) as Hnot.
      destruct (forms.clean_field _ _ (data_name request)) as [a|m1];
        destruct (forms.clean_field _ _ (data_subject request)) as [b|m2];
        intros [= <-]; cbn [forms.errors_of app];
        rewrite ?in_app_iff, !in_map_iff;
        intros Hin; decompose [or ex and] Hin; try discriminate; congruence.
  - intros [|c r]; split; reflexivity.
Qed.

(** ** The further properties on the sample data *)

Section further_sample_data.

#[local] Existing Instance samples.sample_addresses.

Lemma alice_named :
  props.names_teacher samples.db_teachers (lit "alice") 1 samples.alice.
Proof.
  split; [reflexivity|]. split; [reflexivity|].
  intros pk' t' Hl Hname. simpl in Hl.
  apply lookup_insert_Some in Hl as [[<- _]|[_ Hl]]; [reflexivity|].
  apply lookup_singleton_Some in Hl as [_ <-]. discriminate Hname.
Qed.

Lemma token_a_hex : props.is_token_hex 32 samples.token_a.
Proof. split; reflexivity. Qed.

Lemma db_teachers_no_sessions token teacher :
  props.no_collision token teacher samples.db_teachers.
Proof. intros pk s Hl. simpl in Hl. rewrite lookup_empty in Hl. discriminate. Qed.

Lemma login_opens_session_witness :
  utils.get_client_ip samples.proxied_login = Some samples.address_long
  /\ exists db',
       @views.LoginView_post samples.plain_hash samples.sample_addresses 0 samples.token_a
         samples.proxied_login samples.db_teachers
       = (Return (redirect "home"
                    (props.session_cookie samples.token_a samples.proxied_login)), db')
       /\ audit_logs db' = [props.login_entry 1 samples.proxied_login]
       /\ map AuditLog.ip_address (audit_logs db') = [Some samples.address_short]
       /\ utils.require_authentication false views.StudentCreateView_post 7
            (samples.add_request "Bob" "Math" 70) db'
          = views.StudentCreateView_post 1 (samples.add_request "Bob" "Math" 70) db'.
Proof.
  split; [reflexivity|].
  destruct (@login_opens_session samples.plain_hash samples.sample_addresses
              samples.db_teachers 0 samples.token_a samples.proxied_login
              (lit "alice") (lit "secret1") 1 samples.alice eq_refl alice_named eq_refl
              token_a_hex (db_teachers_no_sessions _ _) eq_refl)
    as (db' & Hpost & _ & Hlog & _ & _ & Hgate).
  exists db'. split; [exact Hpost|]. split; [exact Hlog|].
  split; [now rewrite Hlog|].
  apply Hgate; [reflexivity|lia].
Defined.

Lemma login_failures_witness :
  @views.LoginView_post samples.plain_hash samples.sample_addresses 0 samples.token_a
    (samples.login_request "mallory" "secret1") samples.db_teachers
  = (Return (render views.login_template
               [("username"%string, lit "Invalid credentials")]), samples.db_teachers)
  /\ @views.LoginView_post samples.plain_hash samples.sample_addresses 0 samples.token_a
       (samples.login_request "alice" "secret2") samples.db_teachers
     = (Return (render views.login_template
                  [("password"%string, lit "Invalid credentials")]), samples.db_teachers).
Proof.
  split.
  - apply (proj1 (@login_failures samples.plain_hash samples.sample_addresses
                    samples.db_teachers 0 samples.token_a
                    (samples.login_request "mallory" "secret1")
                    (lit "mallory") (lit "secret1") eq_refl)).
    intros pk teacher Hl. simpl in Hl.
    apply lookup_insert_Some in Hl as [[_ <-]|[_ Hl]]; [discriminate|].
    apply lookup_singleton_Some in Hl as [_ <-]. discriminate.
  - apply (proj2 (@login_failures samples.plain_hash samples.sample_addresses
                    samples.db_teachers 0 samples.token_a
                    (samples.login_request "alice" "secret2")
                    (lit "alice") (lit "secret2") eq_refl) 1 samples.alice alice_named).
    reflexivity.
Defined.

Lemma login_only_with_matching_teacher_witness :
  props.authenticates
    (@views.LoginView_post samples.plain_hash samples.sample_addresses 0 samples.token_a
       (samples.login_request "alice" "secret1") samples.db_teachers).1
  /\ exists pk teacher,
       rows (teachers samples.db_teachers) !! pk = Some teacher
       /\ Teacher.username teacher = lit "alice"
       /\ @Teacher.check_password samples.plain_hash teacher (lit "secret1") = true.
Proof.
  assert (props.authenticates
            (@views.LoginView_post samples.plain_hash samples.sample_addresses 0 samples.token_a
               (samples.login_request "alice" "secret1") samples.db_teachers).1) as Hauth.
  { eexists. vm_compute. reflexivity. }
  split; [exact Hauth|].
  destruct (@login_only_with_matching_teacher samples.plain_hash samples.sample_addresses
              samples.db_teachers 0
              samples.token_a (samples.login_request "alice" "secret1") (or_introl Hauth))
    as (pk & teacher & Hrow & Hname & Hcheck & _).
  exists pk, teacher. auto.
Defined.

Lemma erin_only_padded_passwords pk teacher password :
  rows (teachers samples.db_erin) !! pk = Some teacher ->
  @Teacher.check_password samples.plain_hash teacher password = true ->
  strip password <> password.
Proof.
  intros Hl Hcheck. simpl in Hl. apply lookup_singleton_Some in Hl as [_ <-].
  unfold Teacher.check_password in Hcheck. apply bool_decide_eq_true in Hcheck.
  unfold sha256_hexdigest, samples.plain_hash in Hcheck. simpl in Hcheck.
  change (password ++ lit "9c02" = lit "secret1 " ++ lit "9c02") in Hcheck.
  apply app_inv_tail in Hcheck. subst password. discriminate.
Qed.

Lemma login_locks_out_padded_password_witness :
  @Teacher.check_password samples.plain_hash samples.erin (lit "secret1 ") = true
  /\ @views.LoginView_post samples.plain_hash samples.sample_addresses 0 samples.token_a
       (samples.login_request "erin" "secret1") samples.db_erin
     = @views.LoginView_post samples.plain_hash samples.sample_addresses 0 samples.token_a
         (samples.login_request "erin" "secret1 ") samples.db_erin
  /\ ~ props.authenticates
         (@views.LoginView_post samples.plain_hash samples.sample_addresses 0
            samples.token_a (samples.login_request "erin" "secret1 ") samples.db_erin).1
  /\ (@views.LoginView_post samples.plain_hash samples.sample_addresses 0 samples.token_a
        (samples.login_request "erin" "secret1 ") samples.db_erin).2 = samples.db_erin.
Proof.
  destruct (@login_locks_out_padded_password samples.plain_hash samples.sample_addresses
              samples.db_erin 0 samples.token_a (samples.login_request "erin" "secret1 "))
    as [Htrim Hlock].
  split; [reflexivity|]. split; [exact (Htrim (lit "secret1 "))|].
  apply Hlock. intros pk teacher password Hl _.
  exact (erin_only_padded_passwords pk teacher password Hl).
Defined.

Lemma db_logged_in_session :
  rows (sessions samples.db_logged_in) !! 1
  = Some (props.created_session 0 samples.token_a 1).
Proof. now rewrite db_logged_in_sessions. Qed.

Lemma db_logged_in_single pk s :
  rows (sessions samples.db_logged_in) !! pk = Some s ->
  pk = 1 /\ s = props.created_session 0 samples.token_a 1.
Proof.
  intros Hl. rewrite db_logged_in_sessions in Hl.
  apply lookup_singleton_Some in Hl as [<- <-]. auto.
Qed.

Lemma alice_holds_session request :
  COOKIES_session_token request = Some samples.token_a ->
  props.holds_session samples.db_logged_in request 1
    (props.created_session 0 samples.token_a 1).
Proof.
  intros Hcookie. split; [exact Hcookie|]. split; [discriminate|].
  split; [exact db_logged_in_session|].
  intros pk' s' Hl _. now apply db_logged_in_single in Hl.
Qed.

Lemma db_logged_in_unique_token : props.unique_token (sessions samples.db_logged_in).
Proof.
  intros pk1 s1 pk2 s2 H1 H2 _.
  apply db_logged_in_single in H1 as [-> _], H2 as [-> _]. reflexivity.
Qed.

Lemma logout_revokes_session_witness :
  views.LogoutView_post samples.proxied_logout samples.db_logged_in
  = (Return props.logout_response,
     props.after_logout samples.db_logged_in 1 1 samples.proxied_logout)
  /\ map AuditLog.ip_address
       (audit_logs (props.after_logout samples.db_logged_in 1 1 samples.proxied_logout))
     = [Some (lit "10.0.0.1"); Some samples.address_short]
  /\ utils.require_authentication false views.StudentCreateView_post 7
       (samples.add_request "Bob" "Math" 70)
       (props.after_logout samples.db_logged_in 1 1 samples.proxied_logout)
     = (Return (props.rejection_response true),
        props.after_logout samples.db_logged_in 1 1 samples.proxied_logout).
Proof.
  destruct (logout_revokes_session samples.db_logged_in samples.proxied_logout 1
              (props.created_session 0 samples.token_a 1)
              (alice_holds_session samples.proxied_logout eq_refl) eq_refl)
    as [Hpost Hgate].
  split; [exact Hpost|]. split; [reflexivity|].
  exact (Hgate false views.StudentCreateView_post 7
           (samples.add_request "Bob" "Math" 70) eq_refl).
Defined.

Lemma logout_without_effect_witness :
  views.LogoutView_post (samples.browser_request None) samples.db_logged_in
  = (Return props.logout_response, samples.db_logged_in)
  /\ views.LogoutView_post (samples.unaddressed_request (Some samples.token_a))
       samples.db_logged_in
     = (Raise IntegrityError, samples.db_logged_in).
Proof.
  split.
  - apply (proj1 (logout_without_effect samples.db_logged_in
                    (samples.browser_request None))).
    left. reflexivity.
  - apply (proj2 (logout_without_effect samples.db_logged_in
                    (samples.unaddressed_request (Some samples.token_a)))
             1 (props.created_session 0 samples.token_a 1)
             (alice_holds_session (samples.unaddressed_request (Some samples.token_a))
                eq_refl)).
    reflexivity.
Defined.

Lemma gate_admits_or_rejects_witness :
  utils.require_authentication false views.StudentCreateView_post 7
    (samples.add_request "Bob" "Math" 70) samples.db_logged_in
  = views.StudentCreateView_post 1 (samples.add_request "Bob" "Math" 70)
      samples.db_logged_in.
Proof.
  destruct (gate_admits_or_rejects false views.StudentCreateView_post
              samples.db_logged_in 7 (samples.add_request "Bob" "Math" 70)
              db_logged_in_unique_token)
    as [(pk & session & Hl & _ & _ & Hrun)|[Hauth _]].
  - apply db_logged_in_single in Hl as [_ ->]. exact Hrun.
  - exfalso. vm_compute in Hauth. discriminate Hauth.
Defined.

Lemma db_logged_in_no_students : rows (students samples.db_logged_in) = ∅.
Proof. vm_compute. reflexivity. Qed.

Lemma bob_is_new marks :
  props.fresh_identity samples.db_logged_in 1 (samples.bob_data marks).
Proof.
  intros pk stu Hl. rewrite db_logged_in_no_students, lookup_empty in Hl. discriminate.
Qed.

Lemma db_logged_in_unique : props.unique_together (students samples.db_logged_in).
Proof.
  intros pk1 r1 pk2 r2 H1. rewrite db_logged_in_no_students, lookup_empty in H1.
  discriminate.
Qed.

Lemma db_bob_row : rows (students samples.db_bob) !! 1 = Some samples.bob.
Proof. now rewrite db_bob_students. Qed.

Lemma add_creates_student_witness :
  utils.get_client_ip (samples.proxied_add 70) = Some samples.address_long
  /\ exists db',
       views.StudentCreateView_post 1 (samples.proxied_add 70) samples.db_logged_in
       = (Return (Response
                    (props.saved_fields (lit "Student Bob added successfully") 1 70
                     ++ props.student_field 1 samples.bob)
                    HTTP_201_CREATED), db')
       /\ rows (students db') !! 1 = Some samples.bob
       /\ map AuditLog.ip_address (audit_logs db')
          = [Some (lit "10.0.0.1"); Some samples.address_short].
Proof.
  split; [reflexivity|].
  destruct (add_creates_student samples.db_logged_in 1 (samples.proxied_add 70)
              (samples.bob_data 70) eq_refl (bob_is_new 70) eq_refl)
    as (db' & Hpost & Hrow & _ & Hlog & _).
  exists db'. split; [exact Hpost|]. split; [exact Hrow|]. now rewrite Hlog.
Defined.

Lemma add_merges_marks_witness :
  exists extra db',
    views.StudentCreateView_post 1 (samples.proxied_add 20) samples.db_bob
    = (Return (Response
                 (props.saved_fields (lit "Updated marks for Bob. New total: 90") 1 90
                  ++ extra)
                 HTTP_201_CREATED), db')
    /\ rows (students db') !! 1 = Some (props.with_marks samples.bob 90)
    /\ map AuditLog.ip_address (audit_logs db')
       = [Some (lit "10.0.0.1"); Some (lit "10.0.0.1"); Some samples.address_short].
Proof.
  destruct (add_merges_marks samples.db_bob 1 (samples.proxied_add 20)
              (samples.bob_data 20) 1 samples.bob eq_refl db_bob_row
              (conj eq_refl (conj eq_refl eq_refl)) db_bob_unique)
    as (extra & db' & Hpost & _ & Hrow & _ & _ & Hlog); [simpl; lia|reflexivity|].
  exists extra, db'. split; [exact Hpost|]. split; [exact Hrow|]. now rewrite Hlog.
Defined.

Lemma db_words_unique : props.unique_together (students samples.db_words).
Proof.
  intros pk1 r1 pk2 r2 H1 H2 _ _ _. simpl in H1, H2.
  apply lookup_singleton_Some in H1 as [<- _], H2 as [<- _]. reflexivity.
Qed.

Lemma merge_answered_as_creation_witness :
  contains (lit "added successfully") (lit "Bob added successfully") = true
  /\ exists message,
       (views.StudentCreateView_post 1
          (samples.add_request "Bob added successfully" "Math" 5) samples.db_words).1
       = Return (Response
                   (props.saved_fields message 1 15
                    ++ props.student_field 1 (props.with_marks samples.bob_words 15))
                   HTTP_201_CREATED).
Proof.
  split; [reflexivity|]. eexists.
  apply (merge_answered_as_creation samples.db_words 1
           (samples.add_request "Bob added successfully" "Math" 5)
           {| serializers.v_name := lit "Bob added successfully";
              serializers.v_subject := lit "Math"; serializers.v_marks := 5 |}
           1 samples.bob_words eq_refl eq_refl
           (conj eq_refl (conj eq_refl eq_refl)) db_words_unique);
    [simpl; lia|reflexivity|reflexivity].
Defined.

Lemma add_twice_sums_or_refuses_witness :
  exists response1 db1 response2 db2,
    views.StudentCreateView_post 1 (samples.add_request "Bob" "Math" 70)
      samples.db_logged_in = (Return response1, db1)
    /\ views.StudentCreateView_post 1 (samples.proxied_add 20) db1
       = (Return response2, db2)
    /\ rows (students db2) !! 1 = Some (props.with_marks samples.bob 90)
    /\ map AuditLog.ip_address (audit_logs db2)
       = [Some (lit "10.0.0.1"); Some (lit "10.0.0.1"); Some samples.address_short].
Proof.
  destruct (add_twice_sums_or_refuses samples.db_logged_in 1
              (samples.add_request "Bob" "Math" 70) (samples.proxied_add 20)
              (samples.bob_data 70) (samples.bob_data 20)
              eq_refl eq_refl eq_refl eq_refl (bob_is_new 70) db_logged_in_unique
              eq_refl eq_refl)
    as (response1 & db1 & response2 & db2 & Hpost1 & Hpost2 & _ & Hsum & _).
  exists response1, db1, response2, db2. split; [exact Hpost1|]. split; [exact Hpost2|].
  destruct Hsum as (_ & Hrow & Hlog); [simpl; lia|].
  split; [exact Hrow|]. now rewrite Hlog.
Defined.

Lemma inline_update_last_write_wins_witness :
  exists db1 db2,
    views.StudentUpdateView_post 1 (samples.update_request 1 95) samples.db_bob
    = (Return (props.done "Marks updated successfully"), db1)
    /\ views.StudentUpdateView_post 1 (samples.proxied_update 60) db1
       = (Return (props.done "Marks updated successfully"), db2)
    /\ rows (students db2) !! 1 = Some (props.with_marks samples.bob 60)
    /\ map AuditLog.ip_address (audit_logs db2)
       = [Some (lit "10.0.0.1"); Some (lit "10.0.0.1"); Some (lit "10.0.0.1");
          Some samples.address_short].
Proof.
  destruct (inline_update_last_write_wins samples.db_bob 1
              (samples.update_request 1 95) (samples.proxied_update 60)
              1 samples.bob 95 60 db_bob_row eq_refl eq_refl eq_refl eq_refl eq_refl)
    as (db1 & db2 & Hpost1 & Hpost2 & Hrow & _ & Hlog); [lia|lia|reflexivity|reflexivity|].
  exists db1, db2. split; [exact Hpost1|]. split; [exact Hpost2|].
  split; [exact Hrow|]. now rewrite Hlog.
Defined.

Lemma delete_removes_student_witness :
  exists db',
    views.StudentDeleteView_post 1 samples.proxied_delete samples.db_bob
    = (Return (props.done "Student deleted successfully"), db')
    /\ rows (students db') !! 1 = None
    /\ map AuditLog.ip_address (audit_logs db')
       = [Some (lit "10.0.0.1"); Some (lit "10.0.0.1"); Some samples.address_short]
    /\ views.StudentDeleteView_post 1 (samples.delete_request 1) db'
       = (Return (props.failed "Failed to delete student"), db').
Proof.
  destruct (delete_removes_student samples.db_bob 1 samples.proxied_delete
              1 samples.bob db_bob_row eq_refl eq_refl eq_refl)
    as (db' & Hpost & Hgone & _ & Hlog & Hdelete & _).
  exists db'. split; [exact Hpost|]. split; [exact Hgone|].
  split; [now rewrite Hlog|].
  apply Hdelete. reflexivity.
Defined.

Lemma db_bob_next_pk : next_pk (students samples.db_bob) = 2.
Proof. vm_compute. reflexivity. Qed.

Lemma db_bob_keys_below : props.keys_below (students samples.db_bob).
Proof.
  intros pk stu Hl. rewrite db_bob_students in Hl.
  apply lookup_singleton_Some in Hl as [<- _]. rewrite db_bob_next_pk. lia.
Qed.

Lemma handlers_keep_to_own_rows_witness :
  rows (students (views.StudentDeleteView_post 2 (samples.delete_request 1)
                    samples.db_bob).2) !! 1 = Some samples.bob
  /\ rows (students (views.StudentCreateView_post 2 (samples.add_request "Bob" "Math" 5)
                       samples.db_bob).2) !! 1 = Some samples.bob.
Proof.
  split.
  - apply (proj1 (handlers_keep_to_own_rows views.StudentDeleteView_post
                    ["DELETE_STUDENT"]%string 2 (samples.delete_request 1) samples.db_bob
                    (or_intror (or_intror (or_introl eq_refl))) db_bob_keys_below));
      [discriminate|exact db_bob_row].
  - apply (proj1 (handlers_keep_to_own_rows views.StudentCreateView_post
                    ["CREATE_STUDENT"; "UPDATE_MARKS"]%string 2
                    (samples.add_request "Bob" "Math" 5) samples.db_bob
                    (or_introl eq_refl) db_bob_keys_below));
      [discriminate|exact db_bob_row].
Defined.

Lemma db_teachers_well_formed : props.well_formed samples.db_teachers.
Proof.
  unfold props.well_formed.
  split; [|split; [|split; [|split; [|split]]]];
    intros pk1 r1; try (intros pk2 r2); intros H1; simpl in H1;
    rewrite lookup_empty in H1; discriminate.
Qed.

Lemma operations_keep_store_well_formed_witness :
  props.well_formed samples.db_logged_in
  /\ teachers samples.db_logged_in = teachers samples.db_teachers.
Proof.
  exact (@operations_keep_store_well_formed samples.plain_hash samples.sample_addresses
           (props.op_login 0 samples.token_a (samples.login_request "alice" "secret1"))
           samples.db_teachers db_teachers_well_formed).
Defined.

Lemma dave_named : props.names_teacher samples.db_dave (lit "dave") 2 samples.dave.
Proof.
  split; [reflexivity|]. split; [reflexivity|].
  intros pk' t' Hl Hname. simpl in Hl.
  apply lookup_insert_Some in Hl as [[_ <-]|[_ Hl]]; [discriminate Hname|].
  now apply lookup_singleton_Some in Hl as [<- _].
Qed.

Lemma create_token_collision_witness :
  @views.LoginView_post samples.plain_hash samples.sample_addresses 5 samples.token_a
    (samples.login_request "dave" "secret2") samples.db_dave
  = (Raise IntegrityError,
     set_sessions (props.kept_sessions 2 samples.db_dave) samples.db_dave).
Proof.
  apply (@create_token_collision samples.plain_hash samples.sample_addresses
           samples.db_dave 5 samples.token_a
           (samples.login_request "dave" "secret2") (lit "dave") (lit "secret2")
           2 samples.dave 1 (props.created_session 0 samples.token_a 1)
           eq_refl eq_refl);
    [discriminate|reflexivity|exact dave_named|reflexivity].
Defined.

Lemma binary_le_total : Total samples.binary_le.
Proof.
  intros a. unfold samples.binary_le.
  induction a as [|x a IH]; intros [|y b]; simpl; auto.
  destruct (N.ltb_spec x y), (N.ltb_spec y x), (N.eqb_spec x y), (N.eqb_spec y x);
    simpl; auto; lia.
Qed.

Lemma binary_le_trans : Transitive samples.binary_le.
Proof.
  intros a. unfold samples.binary_le.
  induction a as [|x a IH]; intros [|y b] [|z c]; simpl; auto; try discriminate.
  destruct (N.ltb_spec x y), (N.ltb_spec y z), (N.ltb_spec x z), (N.eqb_spec x y),
    (N.eqb_spec y z), (N.eqb_spec x z); simpl; auto; try discriminate; try lia.
  apply IH.
Qed.

Lemma student_list_own_rows_sorted_witness :
  @views.StudentListView_students samples.binary_collation 1 samples.db_class
  = [(3, samples.al_art); (2, samples.al_zoology); (1, samples.bob)]
  /\ samples.binary_le (lit "Al") (lit "Bob")
  /\ (samples.binary_le (lit "Al") (lit "Al") ->
      samples.binary_le (lit "Art") (lit "Zoology"))
  /\ ~ In (4, samples.cy_art)
         (@views.StudentListView_students samples.binary_collation 1 samples.db_class).
Proof.
  assert (@views.StudentListView_students samples.binary_collation 1 samples.db_class
          = [(3, samples.al_art); (2, samples.al_zoology); (1, samples.bob)]) as Hlist
    by (vm_compute; reflexivity).
  destruct (@student_list_own_rows_sorted samples.binary_collation
              binary_le_total binary_le_trans 1 samples.db_class)
    as (Hrows & _ & Hsorted).
  split; [exact Hlist|]. split; [|split].
  - apply (Hsorted 1%nat 2%nat (2, samples.al_zoology) (1, samples.bob));
      [lia|now rewrite Hlist ..].
  - apply (Hsorted 0%nat 1%nat (3, samples.al_art) (2, samples.al_zoology));
      [lia|now rewrite Hlist ..].
  - intros Hin. apply Hrows in Hin as [_ Hteacher]. discriminate Hteacher.
Defined.

Lemma audit_list_newest_hundred_witness :
  views.AuditLogView_logs 1
    (set_audit_logs
       (audit_logs samples.db_bob
        ++ [props.logout_entry 1 (samples.browser_request (Some samples.token_a))])
       samples.db_bob)
  = props.logout_entry 1 (samples.browser_request (Some samples.token_a))
    :: take 99 (views.AuditLogView_logs 1 samples.db_bob)
  /\ views.AuditLogView_logs 2
       (set_audit_logs
          (audit_logs samples.db_bob
           ++ [props.logout_entry 1 (samples.browser_request (Some samples.token_a))])
          samples.db_bob)
     = views.AuditLogView_logs 2 samples.db_bob.
Proof.
  destruct (audit_list_newest_hundred 1 samples.db_bob
              (props.logout_entry 1 (samples.browser_request (Some samples.token_a))))
    as (_ & _ & _ & Hown & _).
  destruct (audit_list_newest_hundred 2 samples.db_bob
              (props.logout_entry 1 (samples.browser_request (Some samples.token_a))))
    as (_ & _ & _ & _ & Hother).
  split; [apply Hown; reflexivity|apply Hother; discriminate].
Defined.

Lemma form_and_serializer_agree_witness :
  forms.StudentForm (Some (lit "Bob")) (Some (lit "Math")) (Some 70)
  = inl (lit "Bob", lit "Math", 70).
Proof.
  apply (proj1 (form_and_serializer_agree (samples.add_request "Bob" "Math" 70))
           (lit "Bob") (lit "Math") 70).
  reflexivity.
Defined.

End further_sample_data.
